(** * Endpoint health monitor ([utils/monitor.py])

    A shallow embedding of [EndpointConfig], [HealthCheckResult] and
    [APIMonitor.check_endpoint_sync], and the properties of the retry loop,
    of the classification of a response and of the history buffer.

    Python values are modelled as follows: [int] as [Z], [float] as the
    IEEE 754 binary64 numbers of [PrimFloat], [str] as the [string] of its
    UTF-8 bytes, [Optional] as [option].  The network, the clocks and the
    system call behind [time.sleep] are the environment: they are oracles of
    a [World], and what the function does to them is logged in the
    [State]. *)

From Stdlib Require Import ZArith List String Ascii Bool Lia Floats.
Import ListNotations.

(** ** Strings: [str.upper]

    A [str] is held as its UTF-8 bytes, a lone surrogate as the three bytes
    of its code point.  [upper] is [str.upper()] as CPython 3.11 has it:
    every character is replaced by its uppercase mapping of Unicode 14.0,
    which is one to three characters long and looks at no other character. *)

Module Str.

Definition is_lower (c : ascii) : bool :=
  let n := N_of_ascii c in ((97 <=? n) && (n <=? 122))%N.

Definition is_upper (c : ascii) : bool :=
  let n := N_of_ascii c in ((65 <=? n) && (n <=? 90))%N.

Definition upper_ascii (c : ascii) : ascii :=
  if is_lower c then ascii_of_N (N_of_ascii c - 32) else c.

Definition swapcase_ascii (c : ascii) : ascii :=
  if is_lower c then ascii_of_N (N_of_ascii c - 32)
  else if is_upper c then ascii_of_N (N_of_ascii c + 32)
  else c.

(** The letters a-z of a string made A-Z, byte by byte: a byte below 128 is
    a character of its own in UTF-8, and the bytes of the other characters
    are all above. *)
Fixpoint upper_narrow (s : string) : string :=
  match s with
  | EmptyString => EmptyString
  | String c s' => String (upper_ascii c) (upper_narrow s')
  end.

(** A character of a string: a code point, or a byte that belongs to no
    well-formed sequence of UTF-8. *)
Inductive char :=
| Code (cp : N)
| Stray (b : ascii).

Definition continuation (b : ascii) : bool :=
  let n := N_of_ascii b in ((128 <=? n) && (n <=? 191))%N.

Definition low6 (b : ascii) : N := (N_of_ascii b - 128)%N.

(** The code point of a sequence of two, three and four bytes, if the
    sequence is well formed and the shortest for its code point. *)
Definition code2 (a b : ascii) : option N :=
  let n := N_of_ascii a in
  if ((194 <=? n) && (n <=? 223))%N && continuation b
  then Some ((n - 192) * 64 + low6 b)%N
  else None.

Definition code3 (a b c : ascii) : option N :=
  let n := N_of_ascii a in
  if ((224 <=? n) && (n <=? 239))%N && continuation b && continuation c then
    let cp := ((n - 224) * 4096 + low6 b * 64 + low6 c)%N in
    if (2048 <=? cp)%N then Some cp else None
  else None.

Definition code4 (a b c d : ascii) : option N :=
  let n := N_of_ascii a in
  if ((240 <=? n) && (n <=? 244))%N && continuation b && continuation c
     && continuation d then
    let cp := ((n - 240) * 262144 + low6 b * 4096 + low6 c * 64 + low6 d)%N in
    if ((65536 <=? cp) && (cp <=? 1114111))%N then Some cp else None
  else None.

Fixpoint decode (s : string) : list char :=
  match s with
  | EmptyString => []
  | String a s1 =>
      if (N_of_ascii a <? 128)%N then Code (N_of_ascii a) :: decode s1
      else
        match s1 with
        | EmptyString => [Stray a]
        | String b s2 =>
            match code2 a b with
            | Some cp => Code cp :: decode s2
            | None =>
                match s2 with
                | EmptyString => Stray a :: decode s1
                | String c s3 =>
                    match code3 a b c with
                    | Some cp => Code cp :: decode s3
                    | None =>
                        match s3 with
                        | EmptyString => Stray a :: decode s1
                        | String d s4 =>
                            match code4 a b c d with
                            | Some cp => Code cp :: decode s4
                            | None => Stray a :: decode s1
                            end
                        end
                    end
                end
            end
        end
  end.

Definition byte (n : N) : string := String (ascii_of_N n) EmptyString.

(** The UTF-8 bytes of a code point. *)
Definition encode_code (cp : N) : string :=
  if (cp <? 128)%N then byte cp
  else if (cp <? 2048)%N then
    byte (192 + cp / 64) ++ byte (128 + cp mod 64)
  else if (cp <? 65536)%N then
    byte (224 + cp / 4096) ++ byte (128 + (cp / 64) mod 64) ++ byte (128 + cp mod 64)
  else
    byte (240 + cp / 262144) ++ byte (128 + (cp / 4096) mod 64)
    ++ byte (128 + (cp / 64) mod 64) ++ byte (128 + cp mod 64).

Fixpoint encode (l : list char) : string :=
  match l with
  | [] => EmptyString
  | Code cp :: l' => encode_code cp ++ encode l'
  | Stray b :: l' => String b (encode l')
  end.

(** The characters beyond ASCII that [str.upper()] changes, each with the
    characters it puts in its place. *)

(** U+00B5 to U+03C0. *)
Definition upper_table_0 : list (N * list N) :=
  [(181, [924]); (223, [83; 83]); (224, [192]); (225, [193]); (226, [194]); (227, [195]);
   (228, [196]); (229, [197]); (230, [198]); (231, [199]); (232, [200]); (233, [201]);
   (234, [202]); (235, [203]); (236, [204]); (237, [205]); (238, [206]); (239, [207]);
   (240, [208]); (241, [209]); (242, [210]); (243, [211]); (244, [212]); (245, [213]);
   (246, [214]); (248, [216]); (249, [217]); (250, [218]); (251, [219]); (252, [220]);
   (253, [221]); (254, [222]); (255, [376]); (257, [256]); (259, [258]); (261, [260]);
   (263, [262]); (265, [264]); (267, [266]); (269, [268]); (271, [270]); (273, [272]);
   (275, [274]); (277, [276]); (279, [278]); (281, [280]); (283, [282]); (285, [284]);
   (287, [286]); (289, [288]); (291, [290]); (293, [292]); (295, [294]); (297, [296]);
   (299, [298]); (301, [300]); (303, [302]); (305, [73]); (307, [306]); (309, [308]);
   (311, [310]); (314, [313]); (316, [315]); (318, [317]); (320, [319]); (322, [321]);
   (324, [323]); (326, [325]); (328, [327]); (329, [700; 78]); (331, [330]); (333, [332]);
   (335, [334]); (337, [336]); (339, [338]); (341, [340]); (343, [342]); (345, [344]);
   (347, [346]); (349, [348]); (351, [350]); (353, [352]); (355, [354]); (357, [356]);
   (359, [358]); (361, [360]); (363, [362]); (365, [364]); (367, [366]); (369, [368]);
   (371, [370]); (373, [372]); (375, [374]); (378, [377]); (380, [379]); (382, [381]);
   (383, [83]); (384, [579]); (387, [386]); (389, [388]); (392, [391]); (396, [395]);
   (402, [401]); (405, [502]); (409, [408]); (410, [573]); (414, [544]); (417, [416]);
   (419, [418]); (421, [420]); (424, [423]); (429, [428]); (432, [431]); (436, [435]);
   (438, [437]); (441, [440]); (445, [444]); (447, [503]); (453, [452]); (454, [452]);
   (456, [455]); (457, [455]); (459, [458]); (460, [458]); (462, [461]); (464, [463]);
   (466, [465]); (468, [467]); (470, [469]); (472, [471]); (474, [473]); (476, [475]);
   (477, [398]); (479, [478]); (481, [480]); (483, [482]); (485, [484]); (487, [486]);
   (489, [488]); (491, [490]); (493, [492]); (495, [494]); (496, [74; 780]); (498, [497]);
   (499, [497]); (501, [500]); (505, [504]); (507, [506]); (509, [508]); (511, [510]);
   (513, [512]); (515, [514]); (517, [516]); (519, [518]); (521, [520]); (523, [522]);
   (525, [524]); (527, [526]); (529, [528]); (531, [530]); (533, [532]); (535, [534]);
   (537, [536]); (539, [538]); (541, [540]); (543, [542]); (547, [546]); (549, [548]);
   (551, [550]); (553, [552]); (555, [554]); (557, [556]); (559, [558]); (561, [560]);
   (563, [562]); (572, [571]); (575, [11390]); (576, [11391]); (578, [577]); (583, [582]);
   (585, [584]); (587, [586]); (589, [588]); (591, [590]); (592, [11375]); (593, [11373]);
   (594, [11376]); (595, [385]); (596, [390]); (598, [393]); (599, [394]); (601, [399]);
   (603, [400]); (604, [42923]); (608, [403]); (609, [42924]); (611, [404]);
   (613, [42893]); (614, [42922]); (616, [407]); (617, [406]); (618, [42926]);
   (619, [11362]); (620, [42925]); (623, [412]); (625, [11374]); (626, [413]);
   (629, [415]); (637, [11364]); (640, [422]); (642, [42949]); (643, [425]);
   (647, [42929]); (648, [430]); (649, [580]); (650, [433]); (651, [434]); (652, [581]);
   (658, [439]); (669, [42930]); (670, [42928]); (837, [921]); (881, [880]); (883, [882]);
   (887, [886]); (891, [1021]); (892, [1022]); (893, [1023]); (912, [921; 776; 769]);
   (940, [902]); (941, [904]); (942, [905]); (943, [906]); (944, [933; 776; 769]);
   (945, [913]); (946, [914]); (947, [915]); (948, [916]); (949, [917]); (950, [918]);
   (951, [919]); (952, [920]); (953, [921]); (954, [922]); (955, [923]); (956, [924]);
   (957, [925]); (958, [926]); (959, [927]); (960, [928])]%N.

(** U+03C1 to U+10E8. *)
Definition upper_table_1 : list (N * list N) :=
  [(961, [929]); (962, [931]); (963, [931]); (964, [932]); (965, [933]); (966, [934]);
   (967, [935]); (968, [936]); (969, [937]); (970, [938]); (971, [939]); (972, [908]);
   (973, [910]); (974, [911]); (976, [914]); (977, [920]); (981, [934]); (982, [928]);
   (983, [975]); (985, [984]); (987, [986]); (989, [988]); (991, [990]); (993, [992]);
   (995, [994]); (997, [996]); (999, [998]); (1001, [1000]); (1003, [1002]);
   (1005, [1004]); (1007, [1006]); (1008, [922]); (1009, [929]); (1010, [1017]);
   (1011, [895]); (1013, [917]); (1016, [1015]); (1019, [1018]); (1072, [1040]);
   (1073, [1041]); (1074, [1042]); (1075, [1043]); (1076, [1044]); (1077, [1045]);
   (1078, [1046]); (1079, [1047]); (1080, [1048]); (1081, [1049]); (1082, [1050]);
   (1083, [1051]); (1084, [1052]); (1085, [1053]); (1086, [1054]); (1087, [1055]);
   (1088, [1056]); (1089, [1057]); (1090, [1058]); (1091, [1059]); (1092, [1060]);
   (1093, [1061]); (1094, [1062]); (1095, [1063]); (1096, [1064]); (1097, [1065]);
   (1098, [1066]); (1099, [1067]); (1100, [1068]); (1101, [1069]); (1102, [1070]);
   (1103, [1071]); (1104, [1024]); (1105, [1025]); (1106, [1026]); (1107, [1027]);
   (1108, [1028]); (1109, [1029]); (1110, [1030]); (1111, [1031]); (1112, [1032]);
   (1113, [1033]); (1114, [1034]); (1115, [1035]); (1116, [1036]); (1117, [1037]);
   (1118, [1038]); (1119, [1039]); (1121, [1120]); (1123, [1122]); (1125, [1124]);
   (1127, [1126]); (1129, [1128]); (1131, [1130]); (1133, [1132]); (1135, [1134]);
   (1137, [1136]); (1139, [1138]); (1141, [1140]); (1143, [1142]); (1145, [1144]);
   (1147, [1146]); (1149, [1148]); (1151, [1150]); (1153, [1152]); (1163, [1162]);
   (1165, [1164]); (1167, [1166]); (1169, [1168]); (1171, [1170]); (1173, [1172]);
   (1175, [1174]); (1177, [1176]); (1179, [1178]); (1181, [1180]); (1183, [1182]);
   (1185, [1184]); (1187, [1186]); (1189, [1188]); (1191, [1190]); (1193, [1192]);
   (1195, [1194]); (1197, [1196]); (1199, [1198]); (1201, [1200]); (1203, [1202]);
   (1205, [1204]); (1207, [1206]); (1209, [1208]); (1211, [1210]); (1213, [1212]);
   (1215, [1214]); (1218, [1217]); (1220, [1219]); (1222, [1221]); (1224, [1223]);
   (1226, [1225]); (1228, [1227]); (1230, [1229]); (1231, [1216]); (1233, [1232]);
   (1235, [1234]); (1237, [1236]); (1239, [1238]); (1241, [1240]); (1243, [1242]);
   (1245, [1244]); (1247, [1246]); (1249, [1248]); (1251, [1250]); (1253, [1252]);
   (1255, [1254]); (1257, [1256]); (1259, [1258]); (1261, [1260]); (1263, [1262]);
   (1265, [1264]); (1267, [1266]); (1269, [1268]); (1271, [1270]); (1273, [1272]);
   (1275, [1274]); (1277, [1276]); (1279, [1278]); (1281, [1280]); (1283, [1282]);
   (1285, [1284]); (1287, [1286]); (1289, [1288]); (1291, [1290]); (1293, [1292]);
   (1295, [1294]); (1297, [1296]); (1299, [1298]); (1301, [1300]); (1303, [1302]);
   (1305, [1304]); (1307, [1306]); (1309, [1308]); (1311, [1310]); (1313, [1312]);
   (1315, [1314]); (1317, [1316]); (1319, [1318]); (1321, [1320]); (1323, [1322]);
   (1325, [1324]); (1327, [1326]); (1377, [1329]); (1378, [1330]); (1379, [1331]);
   (1380, [1332]); (1381, [1333]); (1382, [1334]); (1383, [1335]); (1384, [1336]);
   (1385, [1337]); (1386, [1338]); (1387, [1339]); (1388, [1340]); (1389, [1341]);
   (1390, [1342]); (1391, [1343]); (1392, [1344]); (1393, [1345]); (1394, [1346]);
   (1395, [1347]); (1396, [1348]); (1397, [1349]); (1398, [1350]); (1399, [1351]);
   (1400, [1352]); (1401, [1353]); (1402, [1354]); (1403, [1355]); (1404, [1356]);
   (1405, [1357]); (1406, [1358]); (1407, [1359]); (1408, [1360]); (1409, [1361]);
   (1410, [1362]); (1411, [1363]); (1412, [1364]); (1413, [1365]); (1414, [1366]);
   (1415, [1333; 1362]); (4304, [7312]); (4305, [7313]); (4306, [7314]); (4307, [7315]);
   (4308, [7316]); (4309, [7317]); (4310, [7318]); (4311, [7319]); (4312, [7320]);
   (4313, [7321]); (4314, [7322]); (4315, [7323]); (4316, [7324]); (4317, [7325]);
   (4318, [7326]); (4319, [7327]); (4320, [7328]); (4321, [7329]); (4322, [7330]);
   (4323, [7331]); (4324, [7332]); (4325, [7333]); (4326, [7334]); (4327, [7335]);
   (4328, [7336])]%N.

(** U+10E9 to U+1F8F. *)
Definition upper_table_2 : list (N * list N) :=
  [(4329, [7337]); (4330, [7338]); (4331, [7339]); (4332, [7340]); (4333, [7341]);
   (4334, [7342]); (4335, [7343]); (4336, [7344]); (4337, [7345]); (4338, [7346]);
   (4339, [7347]); (4340, [7348]); (4341, [7349]); (4342, [7350]); (4343, [7351]);
   (4344, [7352]); (4345, [7353]); (4346, [7354]); (4349, [7357]); (4350, [7358]);
   (4351, [7359]); (5112, [5104]); (5113, [5105]); (5114, [5106]); (5115, [5107]);
   (5116, [5108]); (5117, [5109]); (7296, [1042]); (7297, [1044]); (7298, [1054]);
   (7299, [1057]); (7300, [1058]); (7301, [1058]); (7302, [1066]); (7303, [1122]);
   (7304, [42570]); (7545, [42877]); (7549, [11363]); (7566, [42950]); (7681, [7680]);
   (7683, [7682]); (7685, [7684]); (7687, [7686]); (7689, [7688]); (7691, [7690]);
   (7693, [7692]); (7695, [7694]); (7697, [7696]); (7699, [7698]); (7701, [7700]);
   (7703, [7702]); (7705, [7704]); (7707, [7706]); (7709, [7708]); (7711, [7710]);
   (7713, [7712]); (7715, [7714]); (7717, [7716]); (7719, [7718]); (7721, [7720]);
   (7723, [7722]); (7725, [7724]); (7727, [7726]); (7729, [7728]); (7731, [7730]);
   (7733, [7732]); (7735, [7734]); (7737, [7736]); (7739, [7738]); (7741, [7740]);
   (7743, [7742]); (7745, [7744]); (7747, [7746]); (7749, [7748]); (7751, [7750]);
   (7753, [7752]); (7755, [7754]); (7757, [7756]); (7759, [7758]); (7761, [7760]);
   (7763, [7762]); (7765, [7764]); (7767, [7766]); (7769, [7768]); (7771, [7770]);
   (7773, [7772]); (7775, [7774]); (7777, [7776]); (7779, [7778]); (7781, [7780]);
   (7783, [7782]); (7785, [7784]); (7787, [7786]); (7789, [7788]); (7791, [7790]);
   (7793, [7792]); (7795, [7794]); (7797, [7796]); (7799, [7798]); (7801, [7800]);
   (7803, [7802]); (7805, [7804]); (7807, [7806]); (7809, [7808]); (7811, [7810]);
   (7813, [7812]); (7815, [7814]); (7817, [7816]); (7819, [7818]); (7821, [7820]);
   (7823, [7822]); (7825, [7824]); (7827, [7826]); (7829, [7828]); (7830, [72; 817]);
   (7831, [84; 776]); (7832, [87; 778]); (7833, [89; 778]); (7834, [65; 702]);
   (7835, [7776]); (7841, [7840]); (7843, [7842]); (7845, [7844]); (7847, [7846]);
   (7849, [7848]); (7851, [7850]); (7853, [7852]); (7855, [7854]); (7857, [7856]);
   (7859, [7858]); (7861, [7860]); (7863, [7862]); (7865, [7864]); (7867, [7866]);
   (7869, [7868]); (7871, [7870]); (7873, [7872]); (7875, [7874]); (7877, [7876]);
   (7879, [7878]); (7881, [7880]); (7883, [7882]); (7885, [7884]); (7887, [7886]);
   (7889, [7888]); (7891, [7890]); (7893, [7892]); (7895, [7894]); (7897, [7896]);
   (7899, [7898]); (7901, [7900]); (7903, [7902]); (7905, [7904]); (7907, [7906]);
   (7909, [7908]); (7911, [7910]); (7913, [7912]); (7915, [7914]); (7917, [7916]);
   (7919, [7918]); (7921, [7920]); (7923, [7922]); (7925, [7924]); (7927, [7926]);
   (7929, [7928]); (7931, [7930]); (7933, [7932]); (7935, [7934]); (7936, [7944]);
   (7937, [7945]); (7938, [7946]); (7939, [7947]); (7940, [7948]); (7941, [7949]);
   (7942, [7950]); (7943, [7951]); (7952, [7960]); (7953, [7961]); (7954, [7962]);
   (7955, [7963]); (7956, [7964]); (7957, [7965]); (7968, [7976]); (7969, [7977]);
   (7970, [7978]); (7971, [7979]); (7972, [7980]); (7973, [7981]); (7974, [7982]);
   (7975, [7983]); (7984, [7992]); (7985, [7993]); (7986, [7994]); (7987, [7995]);
   (7988, [7996]); (7989, [7997]); (7990, [7998]); (7991, [7999]); (8000, [8008]);
   (8001, [8009]); (8002, [8010]); (8003, [8011]); (8004, [8012]); (8005, [8013]);
   (8016, [933; 787]); (8017, [8025]); (8018, [933; 787; 768]); (8019, [8027]);
   (8020, [933; 787; 769]); (8021, [8029]); (8022, [933; 787; 834]); (8023, [8031]);
   (8032, [8040]); (8033, [8041]); (8034, [8042]); (8035, [8043]); (8036, [8044]);
   (8037, [8045]); (8038, [8046]); (8039, [8047]); (8048, [8122]); (8049, [8123]);
   (8050, [8136]); (8051, [8137]); (8052, [8138]); (8053, [8139]); (8054, [8154]);
   (8055, [8155]); (8056, [8184]); (8057, [8185]); (8058, [8170]); (8059, [8171]);
   (8060, [8186]); (8061, [8187]); (8064, [7944; 921]); (8065, [7945; 921]);
   (8066, [7946; 921]); (8067, [7947; 921]); (8068, [7948; 921]); (8069, [7949; 921]);
   (8070, [7950; 921]); (8071, [7951; 921]); (8072, [7944; 921]); (8073, [7945; 921]);
   (8074, [7946; 921]); (8075, [7947; 921]); (8076, [7948; 921]); (8077, [7949; 921]);
   (8078, [7950; 921]); (8079, [7951; 921])]%N.

(** U+1F90 to U+2D1D. *)
Definition upper_table_3 : list (N * list N) :=
  [(8080, [7976; 921]); (8081, [7977; 921]); (8082, [7978; 921]); (8083, [7979; 921]);
   (8084, [7980; 921]); (8085, [7981; 921]); (8086, [7982; 921]); (8087, [7983; 921]);
   (8088, [7976; 921]); (8089, [7977; 921]); (8090, [7978; 921]); (8091, [7979; 921]);
   (8092, [7980; 921]); (8093, [7981; 921]); (8094, [7982; 921]); (8095, [7983; 921]);
   (8096, [8040; 921]); (8097, [8041; 921]); (8098, [8042; 921]); (8099, [8043; 921]);
   (8100, [8044; 921]); (8101, [8045; 921]); (8102, [8046; 921]); (8103, [8047; 921]);
   (8104, [8040; 921]); (8105, [8041; 921]); (8106, [8042; 921]); (8107, [8043; 921]);
   (8108, [8044; 921]); (8109, [8045; 921]); (8110, [8046; 921]); (8111, [8047; 921]);
   (8112, [8120]); (8113, [8121]); (8114, [8122; 921]); (8115, [913; 921]);
   (8116, [902; 921]); (8118, [913; 834]); (8119, [913; 834; 921]); (8124, [913; 921]);
   (8126, [921]); (8130, [8138; 921]); (8131, [919; 921]); (8132, [905; 921]);
   (8134, [919; 834]); (8135, [919; 834; 921]); (8140, [919; 921]); (8144, [8152]);
   (8145, [8153]); (8146, [921; 776; 768]); (8147, [921; 776; 769]); (8150, [921; 834]);
   (8151, [921; 776; 834]); (8160, [8168]); (8161, [8169]); (8162, [933; 776; 768]);
   (8163, [933; 776; 769]); (8164, [929; 787]); (8165, [8172]); (8166, [933; 834]);
   (8167, [933; 776; 834]); (8178, [8186; 921]); (8179, [937; 921]); (8180, [911; 921]);
   (8182, [937; 834]); (8183, [937; 834; 921]); (8188, [937; 921]); (8526, [8498]);
   (8560, [8544]); (8561, [8545]); (8562, [8546]); (8563, [8547]); (8564, [8548]);
   (8565, [8549]); (8566, [8550]); (8567, [8551]); (8568, [8552]); (8569, [8553]);
   (8570, [8554]); (8571, [8555]); (8572, [8556]); (8573, [8557]); (8574, [8558]);
   (8575, [8559]); (8580, [8579]); (9424, [9398]); (9425, [9399]); (9426, [9400]);
   (9427, [9401]); (9428, [9402]); (9429, [9403]); (9430, [9404]); (9431, [9405]);
   (9432, [9406]); (9433, [9407]); (9434, [9408]); (9435, [9409]); (9436, [9410]);
   (9437, [9411]); (9438, [9412]); (9439, [9413]); (9440, [9414]); (9441, [9415]);
   (9442, [9416]); (9443, [9417]); (9444, [9418]); (9445, [9419]); (9446, [9420]);
   (9447, [9421]); (9448, [9422]); (9449, [9423]); (11312, [11264]); (11313, [11265]);
   (11314, [11266]); (11315, [11267]); (11316, [11268]); (11317, [11269]);
   (11318, [11270]); (11319, [11271]); (11320, [11272]); (11321, [11273]);
   (11322, [11274]); (11323, [11275]); (11324, [11276]); (11325, [11277]);
   (11326, [11278]); (11327, [11279]); (11328, [11280]); (11329, [11281]);
   (11330, [11282]); (11331, [11283]); (11332, [11284]); (11333, [11285]);
   (11334, [11286]); (11335, [11287]); (11336, [11288]); (11337, [11289]);
   (11338, [11290]); (11339, [11291]); (11340, [11292]); (11341, [11293]);
   (11342, [11294]); (11343, [11295]); (11344, [11296]); (11345, [11297]);
   (11346, [11298]); (11347, [11299]); (11348, [11300]); (11349, [11301]);
   (11350, [11302]); (11351, [11303]); (11352, [11304]); (11353, [11305]);
   (11354, [11306]); (11355, [11307]); (11356, [11308]); (11357, [11309]);
   (11358, [11310]); (11359, [11311]); (11361, [11360]); (11365, [570]); (11366, [574]);
   (11368, [11367]); (11370, [11369]); (11372, [11371]); (11379, [11378]);
   (11382, [11381]); (11393, [11392]); (11395, [11394]); (11397, [11396]);
   (11399, [11398]); (11401, [11400]); (11403, [11402]); (11405, [11404]);
   (11407, [11406]); (11409, [11408]); (11411, [11410]); (11413, [11412]);
   (11415, [11414]); (11417, [11416]); (11419, [11418]); (11421, [11420]);
   (11423, [11422]); (11425, [11424]); (11427, [11426]); (11429, [11428]);
   (11431, [11430]); (11433, [11432]); (11435, [11434]); (11437, [11436]);
   (11439, [11438]); (11441, [11440]); (11443, [11442]); (11445, [11444]);
   (11447, [11446]); (11449, [11448]); (11451, [11450]); (11453, [11452]);
   (11455, [11454]); (11457, [11456]); (11459, [11458]); (11461, [11460]);
   (11463, [11462]); (11465, [11464]); (11467, [11466]); (11469, [11468]);
   (11471, [11470]); (11473, [11472]); (11475, [11474]); (11477, [11476]);
   (11479, [11478]); (11481, [11480]); (11483, [11482]); (11485, [11484]);
   (11487, [11486]); (11489, [11488]); (11491, [11490]); (11500, [11499]);
   (11502, [11501]); (11507, [11506]); (11520, [4256]); (11521, [4257]); (11522, [4258]);
   (11523, [4259]); (11524, [4260]); (11525, [4261]); (11526, [4262]); (11527, [4263]);
   (11528, [4264]); (11529, [4265]); (11530, [4266]); (11531, [4267]); (11532, [4268]);
   (11533, [4269]); (11534, [4270]); (11535, [4271]); (11536, [4272]); (11537, [4273]);
   (11538, [4274]); (11539, [4275]); (11540, [4276]); (11541, [4277]); (11542, [4278]);
   (11543, [4279]); (11544, [4280]); (11545, [4281]); (11546, [4282]); (11547, [4283]);
   (11548, [4284]); (11549, [4285])]%N.

(** U+2D1E to U+10432. *)
Definition upper_table_4 : list (N * list N) :=
  [(11550, [4286]); (11551, [4287]); (11552, [4288]); (11553, [4289]); (11554, [4290]);
   (11555, [4291]); (11556, [4292]); (11557, [4293]); (11559, [4295]); (11565, [4301]);
   (42561, [42560]); (42563, [42562]); (42565, [42564]); (42567, [42566]);
   (42569, [42568]); (42571, [42570]); (42573, [42572]); (42575, [42574]);
   (42577, [42576]); (42579, [42578]); (42581, [42580]); (42583, [42582]);
   (42585, [42584]); (42587, [42586]); (42589, [42588]); (42591, [42590]);
   (42593, [42592]); (42595, [42594]); (42597, [42596]); (42599, [42598]);
   (42601, [42600]); (42603, [42602]); (42605, [42604]); (42625, [42624]);
   (42627, [42626]); (42629, [42628]); (42631, [42630]); (42633, [42632]);
   (42635, [42634]); (42637, [42636]); (42639, [42638]); (42641, [42640]);
   (42643, [42642]); (42645, [42644]); (42647, [42646]); (42649, [42648]);
   (42651, [42650]); (42787, [42786]); (42789, [42788]); (42791, [42790]);
   (42793, [42792]); (42795, [42794]); (42797, [42796]); (42799, [42798]);
   (42803, [42802]); (42805, [42804]); (42807, [42806]); (42809, [42808]);
   (42811, [42810]); (42813, [42812]); (42815, [42814]); (42817, [42816]);
   (42819, [42818]); (42821, [42820]); (42823, [42822]); (42825, [42824]);
   (42827, [42826]); (42829, [42828]); (42831, [42830]); (42833, [42832]);
   (42835, [42834]); (42837, [42836]); (42839, [42838]); (42841, [42840]);
   (42843, [42842]); (42845, [42844]); (42847, [42846]); (42849, [42848]);
   (42851, [42850]); (42853, [42852]); (42855, [42854]); (42857, [42856]);
   (42859, [42858]); (42861, [42860]); (42863, [42862]); (42874, [42873]);
   (42876, [42875]); (42879, [42878]); (42881, [42880]); (42883, [42882]);
   (42885, [42884]); (42887, [42886]); (42892, [42891]); (42897, [42896]);
   (42899, [42898]); (42900, [42948]); (42903, [42902]); (42905, [42904]);
   (42907, [42906]); (42909, [42908]); (42911, [42910]); (42913, [42912]);
   (42915, [42914]); (42917, [42916]); (42919, [42918]); (42921, [42920]);
   (42933, [42932]); (42935, [42934]); (42937, [42936]); (42939, [42938]);
   (42941, [42940]); (42943, [42942]); (42945, [42944]); (42947, [42946]);
   (42952, [42951]); (42954, [42953]); (42961, [42960]); (42967, [42966]);
   (42969, [42968]); (42998, [42997]); (43859, [42931]); (43888, [5024]); (43889, [5025]);
   (43890, [5026]); (43891, [5027]); (43892, [5028]); (43893, [5029]); (43894, [5030]);
   (43895, [5031]); (43896, [5032]); (43897, [5033]); (43898, [5034]); (43899, [5035]);
   (43900, [5036]); (43901, [5037]); (43902, [5038]); (43903, [5039]); (43904, [5040]);
   (43905, [5041]); (43906, [5042]); (43907, [5043]); (43908, [5044]); (43909, [5045]);
   (43910, [5046]); (43911, [5047]); (43912, [5048]); (43913, [5049]); (43914, [5050]);
   (43915, [5051]); (43916, [5052]); (43917, [5053]); (43918, [5054]); (43919, [5055]);
   (43920, [5056]); (43921, [5057]); (43922, [5058]); (43923, [5059]); (43924, [5060]);
   (43925, [5061]); (43926, [5062]); (43927, [5063]); (43928, [5064]); (43929, [5065]);
   (43930, [5066]); (43931, [5067]); (43932, [5068]); (43933, [5069]); (43934, [5070]);
   (43935, [5071]); (43936, [5072]); (43937, [5073]); (43938, [5074]); (43939, [5075]);
   (43940, [5076]); (43941, [5077]); (43942, [5078]); (43943, [5079]); (43944, [5080]);
   (43945, [5081]); (43946, [5082]); (43947, [5083]); (43948, [5084]); (43949, [5085]);
   (43950, [5086]); (43951, [5087]); (43952, [5088]); (43953, [5089]); (43954, [5090]);
   (43955, [5091]); (43956, [5092]); (43957, [5093]); (43958, [5094]); (43959, [5095]);
   (43960, [5096]); (43961, [5097]); (43962, [5098]); (43963, [5099]); (43964, [5100]);
   (43965, [5101]); (43966, [5102]); (43967, [5103]); (64256, [70; 70]); (64257, [70; 73]);
   (64258, [70; 76]); (64259, [70; 70; 73]); (64260, [70; 70; 76]); (64261, [83; 84]);
   (64262, [83; 84]); (64275, [1348; 1350]); (64276, [1348; 1333]); (64277, [1348; 1339]);
   (64278, [1358; 1350]); (64279, [1348; 1341]); (65345, [65313]); (65346, [65314]);
   (65347, [65315]); (65348, [65316]); (65349, [65317]); (65350, [65318]);
   (65351, [65319]); (65352, [65320]); (65353, [65321]); (65354, [65322]);
   (65355, [65323]); (65356, [65324]); (65357, [65325]); (65358, [65326]);
   (65359, [65327]); (65360, [65328]); (65361, [65329]); (65362, [65330]);
   (65363, [65331]); (65364, [65332]); (65365, [65333]); (65366, [65334]);
   (65367, [65335]); (65368, [65336]); (65369, [65337]); (65370, [65338]);
   (66600, [66560]); (66601, [66561]); (66602, [66562]); (66603, [66563]);
   (66604, [66564]); (66605, [66565]); (66606, [66566]); (66607, [66567]);
   (66608, [66568]); (66609, [66569]); (66610, [66570])]%N.

(** U+10433 to U+1E943. *)
Definition upper_table_5 : list (N * list N) :=
  [(66611, [66571]); (66612, [66572]); (66613, [66573]); (66614, [66574]);
   (66615, [66575]); (66616, [66576]); (66617, [66577]); (66618, [66578]);
   (66619, [66579]); (66620, [66580]); (66621, [66581]); (66622, [66582]);
   (66623, [66583]); (66624, [66584]); (66625, [66585]); (66626, [66586]);
   (66627, [66587]); (66628, [66588]); (66629, [66589]); (66630, [66590]);
   (66631, [66591]); (66632, [66592]); (66633, [66593]); (66634, [66594]);
   (66635, [66595]); (66636, [66596]); (66637, [66597]); (66638, [66598]);
   (66639, [66599]); (66776, [66736]); (66777, [66737]); (66778, [66738]);
   (66779, [66739]); (66780, [66740]); (66781, [66741]); (66782, [66742]);
   (66783, [66743]); (66784, [66744]); (66785, [66745]); (66786, [66746]);
   (66787, [66747]); (66788, [66748]); (66789, [66749]); (66790, [66750]);
   (66791, [66751]); (66792, [66752]); (66793, [66753]); (66794, [66754]);
   (66795, [66755]); (66796, [66756]); (66797, [66757]); (66798, [66758]);
   (66799, [66759]); (66800, [66760]); (66801, [66761]); (66802, [66762]);
   (66803, [66763]); (66804, [66764]); (66805, [66765]); (66806, [66766]);
   (66807, [66767]); (66808, [66768]); (66809, [66769]); (66810, [66770]);
   (66811, [66771]); (66967, [66928]); (66968, [66929]); (66969, [66930]);
   (66970, [66931]); (66971, [66932]); (66972, [66933]); (66973, [66934]);
   (66974, [66935]); (66975, [66936]); (66976, [66937]); (66977, [66938]);
   (66979, [66940]); (66980, [66941]); (66981, [66942]); (66982, [66943]);
   (66983, [66944]); (66984, [66945]); (66985, [66946]); (66986, [66947]);
   (66987, [66948]); (66988, [66949]); (66989, [66950]); (66990, [66951]);
   (66991, [66952]); (66992, [66953]); (66993, [66954]); (66995, [66956]);
   (66996, [66957]); (66997, [66958]); (66998, [66959]); (66999, [66960]);
   (67000, [66961]); (67001, [66962]); (67003, [66964]); (67004, [66965]);
   (68800, [68736]); (68801, [68737]); (68802, [68738]); (68803, [68739]);
   (68804, [68740]); (68805, [68741]); (68806, [68742]); (68807, [68743]);
   (68808, [68744]); (68809, [68745]); (68810, [68746]); (68811, [68747]);
   (68812, [68748]); (68813, [68749]); (68814, [68750]); (68815, [68751]);
   (68816, [68752]); (68817, [68753]); (68818, [68754]); (68819, [68755]);
   (68820, [68756]); (68821, [68757]); (68822, [68758]); (68823, [68759]);
   (68824, [68760]); (68825, [68761]); (68826, [68762]); (68827, [68763]);
   (68828, [68764]); (68829, [68765]); (68830, [68766]); (68831, [68767]);
   (68832, [68768]); (68833, [68769]); (68834, [68770]); (68835, [68771]);
   (68836, [68772]); (68837, [68773]); (68838, [68774]); (68839, [68775]);
   (68840, [68776]); (68841, [68777]); (68842, [68778]); (68843, [68779]);
   (68844, [68780]); (68845, [68781]); (68846, [68782]); (68847, [68783]);
   (68848, [68784]); (68849, [68785]); (68850, [68786]); (71872, [71840]);
   (71873, [71841]); (71874, [71842]); (71875, [71843]); (71876, [71844]);
   (71877, [71845]); (71878, [71846]); (71879, [71847]); (71880, [71848]);
   (71881, [71849]); (71882, [71850]); (71883, [71851]); (71884, [71852]);
   (71885, [71853]); (71886, [71854]); (71887, [71855]); (71888, [71856]);
   (71889, [71857]); (71890, [71858]); (71891, [71859]); (71892, [71860]);
   (71893, [71861]); (71894, [71862]); (71895, [71863]); (71896, [71864]);
   (71897, [71865]); (71898, [71866]); (71899, [71867]); (71900, [71868]);
   (71901, [71869]); (71902, [71870]); (71903, [71871]); (93792, [93760]);
   (93793, [93761]); (93794, [93762]); (93795, [93763]); (93796, [93764]);
   (93797, [93765]); (93798, [93766]); (93799, [93767]); (93800, [93768]);
   (93801, [93769]); (93802, [93770]); (93803, [93771]); (93804, [93772]);
   (93805, [93773]); (93806, [93774]); (93807, [93775]); (93808, [93776]);
   (93809, [93777]); (93810, [93778]); (93811, [93779]); (93812, [93780]);
   (93813, [93781]); (93814, [93782]); (93815, [93783]); (93816, [93784]);
   (93817, [93785]); (93818, [93786]); (93819, [93787]); (93820, [93788]);
   (93821, [93789]); (93822, [93790]); (93823, [93791]); (125218, [125184]);
   (125219, [125185]); (125220, [125186]); (125221, [125187]); (125222, [125188]);
   (125223, [125189]); (125224, [125190]); (125225, [125191]); (125226, [125192]);
   (125227, [125193]); (125228, [125194]); (125229, [125195]); (125230, [125196]);
   (125231, [125197]); (125232, [125198]); (125233, [125199]); (125234, [125200]);
   (125235, [125201]); (125236, [125202]); (125237, [125203]); (125238, [125204]);
   (125239, [125205]); (125240, [125206]); (125241, [125207]); (125242, [125208]);
   (125243, [125209]); (125244, [125210]); (125245, [125211]); (125246, [125212]);
   (125247, [125213]); (125248, [125214]); (125249, [125215]); (125250, [125216]);
   (125251, [125217])]%N.

Definition upper_table : list (N * list N) :=
  upper_table_0 ++ upper_table_1 ++ upper_table_2 ++ upper_table_3 ++ upper_table_4 ++ upper_table_5.

Fixpoint assoc (cp : N) (table : list (N * list N)) : option (list N) :=
  match table with
  | [] => None
  | (k, v) :: table' => if (k =? cp)%N then Some v else assoc cp table'
  end.

(** The uppercase mapping of a character beyond ASCII. *)
Definition upper_char (c : char) : list char :=
  match c with
  | Code cp =>
      if (cp <? 128)%N then [c]
      else
        match assoc cp upper_table with
        | Some mapping => map Code mapping
        | None => [c]
        end
  | Stray _ => [c]
  end.

(** The characters beyond ASCII of a string replaced by their mappings. *)
Definition upper_wide (s : string) : string :=
  encode (flat_map upper_char (decode s)).

(** [s.upper()] *)
Definition upper (s : string) : string := upper_wide (upper_narrow s).
Arguments upper s : simpl never.

(** [case_variant s s']: [s'] is [s] with the case of some of its ASCII
    letters changed. *)
Inductive case_variant : string -> string -> Prop :=
| cv_nil : case_variant EmptyString EmptyString
| cv_keep c s s' :
    case_variant s s' -> case_variant (String c s) (String c s')
| cv_swap c s s' :
    case_variant s s' -> case_variant (String c s) (String (swapcase_ascii c) s').

End Str.

(** ** Data model *)

Definition Dict := list (string * string).

(** [datetime.now()]: microseconds since the epoch. *)
Definition datetime := Z.

Module EndpointConfig.

Record t := mk {
  name : string;
  url : string;
  method : string;
  headers : option Dict;
  payload : option Dict;
  expected_status : Z;
  max_response_time : float;
  timeout : float;
  retry_count : Z;
  retry_delay : float
}.

(** [EndpointConfig(name, url)]: the dataclass defaults of every other field. *)
Definition make (name url : string) : t :=
  {| name := name;
     url := url;
     method := "GET";
     headers := None;
     payload := None;
     expected_status := 200;
     max_response_time := 5.0;
     timeout := 10.0;
     retry_count := 3;
     retry_delay := 1.0 |}.

Definition with_method (e : t) (m : string) : t :=
  {| name := name e;
     url := url e;
     method := m;
     headers := headers e;
     payload := payload e;
     expected_status := expected_status e;
     max_response_time := max_response_time e;
     timeout := timeout e;
     retry_count := retry_count e;
     retry_delay := retry_delay e |}.

End EndpointConfig.

(** Exceptions that occur in a check.  The first two are the classes named
    by the [except] clauses; [other_Exception] is any other subclass of
    [Exception] raised by the HTTP client, with its [str(e)]; the last
    three are what [time.sleep] raises, [OSError] with its [errno]. *)
Inductive exception :=
| requests_Timeout
| requests_ConnectionError
| other_Exception (text : string)
| UnboundLocalError (variable : string)
| ValueError
| OverflowError
| OSError (errno : Z).

(** The text of [error_message].  The f-strings of the source format floats;
    a message is kept as its template and the values formatted into it. *)
Inductive message :=
| msg_slow (response_time threshold : float)
    (* f"Response time {response_time:.2f}ms exceeds threshold {max_response_time * 1000}ms" *)
| msg_status (expected actual : Z)
    (* f"Expected status {expected_status}, got {status_code}" *)
| msg_timeout (timeout : float)
    (* f"Request timeout after {timeout}s" *)
| msg_connection
    (* "Connection error" *)
| msg_str (e : exception).
    (* str(e) *)

Module HealthCheckResult.

Record t := mk {
  endpoint_name : string;
  url : string;
  status : string;
  status_code : option Z;
  response_time : float;
  timestamp : datetime;
  error_message : option message
}.

End HealthCheckResult.

(** ** The environment *)

Inductive http_verb := GET | POST.

(** A call of [requests.get] or [requests.post], with its arguments. *)
Record request := {
  req_verb : http_verb;
  req_url : string;
  req_headers : option Dict;
  req_json : option Dict;
  req_timeout : float
}.

(** What a request comes back with: a response, of which the check reads
    the status code only, or an exception. *)
Inductive outcome :=
| Response (status_code : Z)
| Raises (e : exception).

(** The oracles: the outcome of the k-th request, the value of the k-th
    call of [time.time()], the value of the k-th call of [datetime.now()],
    and what the system does with a delay that [time.sleep] hands to it
    after k completed sleeps: [None] when the process sleeps and the call
    returns, or the exception of the call.  On Linux that is [OSError] with
    [EINVAL] when the deadline, the monotonic clock plus the delay, lies
    beyond 2^63 ns. *)
Record World := {
  transport : nat -> outcome;
  time_time : nat -> float;
  datetime_now : nat -> datetime;
  sleep_system : nat -> float -> option exception
}.

Record APIMonitor := {
  endpoints : list EndpointConfig.t;
  results_history : list HealthCheckResult.t;
  max_history : Z
}.

(** [APIMonitor.__init__] *)
Definition APIMonitor_init (endpoints : list EndpointConfig.t) : APIMonitor :=
  {| endpoints := endpoints;
     results_history := [];
     max_history := 1000 |}.

Record State := {
  self : APIMonitor;
  requests : list request;   (* the requests issued so far, oldest first *)
  sleeps : list float;       (* the delays slept so far, oldest first *)
  clock_reads : nat;         (* calls of time.time() so far *)
  now_reads : nat            (* calls of datetime.now() so far *)
}.

(** ** A state and exception monad *)

Inductive res (A : Type) :=
| Ok (a : A)
| Raised (e : exception).
Arguments Ok {A} a.
Arguments Raised {A} e.

Definition M (A : Type) : Type := State -> res A * State.

Definition ret {A} (a : A) : M A := fun st => (Ok a, st).

Definition raise {A} (e : exception) : M A := fun st => (Raised e, st).

Definition bind {A B} (m : M A) (k : A -> M B) : M B :=
  fun st =>
    match m st with
    | (Ok a, st') => k a st'
    | (Raised e, st') => (Raised e, st')
    end.

Declare Scope monad_scope.
Delimit Scope monad_scope with monad.
Notation "x <- m ;; k" := (bind m (fun x => k))
  (at level 61, m at next level, right associativity) : monad_scope.
Notation "m ;;; k" := (bind m (fun _ => k))
  (at level 61, right associativity) : monad_scope.
Open Scope monad_scope.

(** [try: body except Exception as e: handler e].  What the body did to the
    state before it raised stays done; an exception raised by the handler
    itself is not caught. *)
Definition try_except {A} (body : M A) (handler : exception -> M A) : M A :=
  fun st =>
    match body st with
    | (Ok a, st') => (Ok a, st')
    | (Raised e, st') => handler e st'
    end.

(** ** Environment calls *)

Definition log_request (r : request) (st : State) : State :=
  {| self := self st;
     requests := requests st ++ [r];
     sleeps := sleeps st;
     clock_reads := clock_reads st;
     now_reads := now_reads st |}.

Definition log_sleep (secs : float) (st : State) : State :=
  {| self := self st;
     requests := requests st;
     sleeps := sleeps st ++ [secs];
     clock_reads := clock_reads st;
     now_reads := now_reads st |}.

Definition tick_clock (st : State) : State :=
  {| self := self st;
     requests := requests st;
     sleeps := sleeps st;
     clock_reads := S (clock_reads st);
     now_reads := now_reads st |}.

Definition tick_now (st : State) : State :=
  {| self := self st;
     requests := requests st;
     sleeps := sleeps st;
     clock_reads := clock_reads st;
     now_reads := S (now_reads st) |}.

Definition set_history (history : list HealthCheckResult.t) (st : State) : State :=
  {| self := {| endpoints := endpoints (self st);
                results_history := history;
                max_history := max_history (self st) |};
     requests := requests st;
     sleeps := sleeps st;
     clock_reads := clock_reads st;
     now_reads := now_reads st |}.

Section Environment.

Variable w : World.

(** [time.time()] *)
Definition time_time_call : M float :=
  fun st => (Ok (time_time w (clock_reads st)), tick_clock st).

(** [datetime.now()] *)
Definition datetime_now_call : M datetime :=
  fun st => (Ok (datetime_now w (now_reads st)), tick_now st).

(** [requests.get] and [requests.post]: the request is issued, and either
    the status code of its response comes back or the client raises. *)
Definition requests_send (r : request) : M Z :=
  fun st =>
    match transport w (List.length (requests st)) with
    | Response status_code => (Ok status_code, log_request r st)
    | Raises e => (Raised e, log_request r st)
    end.

Definition requests_get (url : string) (headers : option Dict) (timeout : float) : M Z :=
  requests_send {| req_verb := GET; req_url := url; req_headers := headers;
                   req_json := None; req_timeout := timeout |}.

Definition requests_post (url : string) (headers json : option Dict) (timeout : float) : M Z :=
  requests_send {| req_verb := POST; req_url := url; req_headers := headers;
                   req_json := json; req_timeout := timeout |}.

End Environment.

(** What [time.sleep(secs)] raises before it asks the system.  The delay is
    converted to a count of nanoseconds in a signed 64-bit integer:
    [ValueError] for NaN, [OverflowError] for a count outside -2^63 .. 2^63,
    and [ValueError] for a count below 0, which is also what the conversion
    makes of the count 2^63.  [None] when the delay is handed to the
    system. *)
Definition sleep_refuses (secs : float) : option exception :=
  if PrimFloat.is_nan secs then Some ValueError
  else
    let ns := (secs * 1e9)%float in
    if negb ((-0x1p63 <=? ns) && (ns <=? 0x1p63))%float then Some OverflowError
    else if ((ns <? 0) || (ns =? 0x1p63))%float then Some ValueError
    else None.

(** What the call of [time.sleep(secs)] that follows [k] completed sleeps
    raises: what [time.sleep] refuses by itself, or else what the system
    answers.  [None] when the call returns. *)
Definition sleep_raises (w : World) (k : nat) (secs : float) : option exception :=
  match sleep_refuses secs with
  | Some e => Some e
  | None => sleep_system w k secs
  end.

(** [time.sleep(secs)] *)
Definition time_sleep (w : World) (secs : float) : M unit :=
  fun st =>
    match sleep_raises w (List.length (sleeps st)) secs with
    | Some e => (Raised e, st)
    | None => (Ok tt, log_sleep secs st)
    end.

(** The [n] calls of [time.sleep(secs)] that follow the state [st] all
    return. *)
Definition sleeps_accepted (w : World) (st : State) (secs : float) (n : nat) : Prop :=
  forall j, (j < n)%nat -> sleep_raises w (List.length (sleeps st) + j) secs = None.

(** ** The history buffer *)

(** Modelled from the spec: the list that [APIMonitor._add_to_history]
    leaves in [results_history]; the body of the method is missing from
    [utils/monitor.py].  The spec has the result appended to the history, the
    history capped at a fixed maximum count, and the oldest entries evicted
    first. *)
Definition add_to_history_list (max_history : Z) (history : list HealthCheckResult.t)
    (result : HealthCheckResult.t) : list HealthCheckResult.t :=
  let history' := history ++ [result] in
  skipn (List.length history' - Z.to_nat max_history) history'.

(** Modelled from the spec: [APIMonitor._add_to_history], called at lines 83
    and 118, whose body is missing from [utils/monitor.py]: it appends the
    result to the bounded history and raises nothing. *)
Definition _add_to_history (result : HealthCheckResult.t) : M unit :=
  fun st =>
    (Ok tt,
     set_history (add_to_history_list (max_history (self st))
                                      (results_history (self st)) result) st).

(** Modelled from the spec: the accessor [recentResults(limit?)], which is
    missing from [utils/monitor.py].  The spec has it return the most recent
    [limit] results, or all of them when no limit is given, and leave the
    buffer as it is; the order is the buffer's, newest last. *)
Definition recentResults (limit : option nat) : M (list HealthCheckResult.t) :=
  fun st =>
    let history := results_history (self st) in
    match limit with
    | None => (Ok history, st)
    | Some n => (Ok (skipn (List.length history - n) history), st)
    end.

(** ** [APIMonitor.check_endpoint_sync] *)

(** How an iteration of the attempt loop ends: the function returns, or the
    loop goes on with the binding of [error_message] ([None]: unbound). *)
Inductive flow :=
| Return (result : HealthCheckResult.t)
| Next (error_message : option message).

Section CheckEndpoint.

Variable w : World.
Variable endpoint : EndpointConfig.t.

Import EndpointConfig.

(** Lines 62-71: status and error message of a received response. *)
Definition classify (status_code : Z) (response_time : float) : string * option message :=
  if (status_code =? expected_status endpoint)%Z then
    if (response_time <=? max_response_time endpoint * 1000)%float then
      ("healthy"%string, None)
    else
      ("slow"%string,
       Some (msg_slow response_time (max_response_time endpoint * 1000)%float))
  else
    ("unhealthy"%string,
     Some (msg_status (expected_status endpoint) status_code)).

(** Lines 46-58: the request.  With a method that is neither GET nor POST
    no branch is taken and [response] stays unbound ([None]); it is unbound
    at the head of every iteration, as a response, once bound, is returned
    in the same iteration. *)
Definition send_request : M (option Z) :=
  if String.eqb (Str.upper (method endpoint)) "GET" then
    response <- requests_get w (url endpoint) (headers endpoint) (timeout endpoint) ;;
    ret (Some response)
  else if String.eqb (Str.upper (method endpoint)) "POST" then
    response <- requests_post w (url endpoint) (headers endpoint) (payload endpoint)
                              (timeout endpoint) ;;
    ret (Some response)
  else ret None.

(** Lines 73-81: the result of a received response. *)
Definition response_result (status_code : Z) (response_time : float)
    (timestamp : datetime) : HealthCheckResult.t :=
  let '(status, error_message) := classify status_code response_time in
  {| HealthCheckResult.endpoint_name := name endpoint;
     HealthCheckResult.url := url endpoint;
     HealthCheckResult.status := status;
     HealthCheckResult.status_code := Some status_code;
     HealthCheckResult.response_time := response_time;
     HealthCheckResult.timestamp := timestamp;
     HealthCheckResult.error_message := error_message |}.

(** Lines 46-84: the body of the [try]. *)
Definition try_body (start_time : float) : M flow :=
  response <- send_request ;;
  now <- time_time_call w ;;
  let response_time := ((now - start_time) * 1000)%float in
  match response with
  | None => raise (UnboundLocalError "response")
  | Some status_code =>
      timestamp <- datetime_now_call w ;;
      let result := response_result status_code response_time timestamp in
      _add_to_history result ;;;
      ret (Return result)
  end.

(** The body of each [except] clause: sleep and go on while attempts
    remain, else bind [error_message]. *)
Definition except_body (attempt : Z) (error_message : option message)
    (text : message) : M flow :=
  if (attempt <? retry_count endpoint - 1)%Z then
    time_sleep w (retry_delay endpoint) ;;;
    ret (Next error_message)
  else ret (Next (Some text)).

(** Lines 86-105: the [except] clauses, in their order. *)
Definition handlers (attempt : Z) (error_message : option message)
    (e : exception) : M flow :=
  match e with
  | requests_Timeout =>
      except_body attempt error_message (msg_timeout (timeout endpoint))
  | requests_ConnectionError =>
      except_body attempt error_message msg_connection
  | _ =>
      except_body attempt error_message (msg_str e)
  end.

(** Lines 108-116: the result when no attempt came back with a response. *)
Definition error_result (response_time : float) (timestamp : datetime)
    (error_message : message) : HealthCheckResult.t :=
  {| HealthCheckResult.endpoint_name := name endpoint;
     HealthCheckResult.url := url endpoint;
     HealthCheckResult.status := "error";
     HealthCheckResult.status_code := None;
     HealthCheckResult.response_time := response_time;
     HealthCheckResult.timestamp := timestamp;
     HealthCheckResult.error_message := Some error_message |}.

(** Lines 107-119: after the loop.  The arguments of the constructor are
    evaluated in their order, [error_message] last. *)
Definition after_loop (start_time : float) (error_message : option message)
    : M HealthCheckResult.t :=
  now <- time_time_call w ;;
  let response_time := ((now - start_time) * 1000)%float in
  timestamp <- datetime_now_call w ;;
  match error_message with
  | None => raise (UnboundLocalError "error_message")
  | Some text =>
      let result := error_result response_time timestamp text in
      _add_to_history result ;;;
      ret result
  end.

(** Line 44: [for attempt in range(retry_count)], with [remaining]
    iterations to go from [attempt] on. *)
Fixpoint attempts (start_time : float) (remaining : nat) (attempt : Z)
    (error_message : option message) : M HealthCheckResult.t :=
  match remaining with
  | O => after_loop start_time error_message
  | S remaining' =>
      f <- try_except (try_body start_time) (handlers attempt error_message) ;;
      match f with
      | Return result => ret result
      | Next error_message' =>
          attempts start_time remaining' (attempt + 1) error_message'
      end
  end.

Definition check_endpoint_sync : M HealthCheckResult.t :=
  start_time <- time_time_call w ;;
  attempts start_time (Z.to_nat (retry_count endpoint)) 0 None.

End CheckEndpoint.

(** A result is well formed for its endpoint: name and address are the
    endpoint's, the status is one of the four, the status code is absent for
    "error" only, the error message is absent for "healthy" only. *)
Definition is_none {A} (o : option A) : bool :=
  match o with
  | None => true
  | Some _ => false
  end.

Definition well_formed (endpoint : EndpointConfig.t) (r : HealthCheckResult.t) : bool :=
  String.eqb (HealthCheckResult.endpoint_name r) (EndpointConfig.name endpoint)
  && String.eqb (HealthCheckResult.url r) (EndpointConfig.url endpoint)
  && existsb (String.eqb (HealthCheckResult.status r))
             ["healthy"; "slow"; "unhealthy"; "error"]%string
  && Bool.eqb (is_none (HealthCheckResult.status_code r))
              (String.eqb (HealthCheckResult.status r) "error")
  && Bool.eqb (is_none (HealthCheckResult.error_message r))
              (String.eqb (HealthCheckResult.status r) "healthy").

(** ** One iteration of the attempt loop, as a relation

    The request an endpoint issues, the message its handlers bind, and the
    ways an iteration can end; the theorems go by cases on these. *)

Section Iteration.

Variable w : World.
Variable endpoint : EndpointConfig.t.

Import EndpointConfig.

(** The request of lines 46-58, if the method has one. *)
Definition request_of : option request :=
  if String.eqb (Str.upper (method endpoint)) "GET" then
    Some {| req_verb := GET; req_url := url endpoint;
            req_headers := headers endpoint; req_json := None;
            req_timeout := timeout endpoint |}
  else if String.eqb (Str.upper (method endpoint)) "POST" then
    Some {| req_verb := POST; req_url := url endpoint;
            req_headers := headers endpoint; req_json := payload endpoint;
            req_timeout := timeout endpoint |}
  else None.

(** The message the [except] clause of an exception binds. *)
Definition handler_text (e : exception) : message :=
  match e with
  | requests_Timeout => msg_timeout (timeout endpoint)
  | requests_ConnectionError => msg_connection
  | _ => msg_str e
  end.

(** [caught st e st1]: the [try] body, started in [st], raises [e] in
    [st1]: the request raised it, or no request was issued and the read
    of the unbound [response] did. *)
Inductive caught (st : State) : exception -> State -> Prop :=
| caught_transport r e :
    request_of = Some r ->
    transport w (List.length (requests st)) = Raises e ->
    caught st e (log_request r st)
| caught_unbound :
    request_of = None ->
    caught st (UnboundLocalError "response") (tick_clock st).

(** The state in which a received response has been recorded. *)
Definition responded (r : request) (result : HealthCheckResult.t) (st : State) : State :=
  let st1 := tick_now (tick_clock (log_request r st)) in
  set_history (add_to_history_list (max_history (self st1))
                                   (results_history (self st1)) result) st1.

Inductive iteration (start_time : float) (attempt : Z)
    (error_message : option message) (st : State) : res flow * State -> Prop :=
| it_response r status_code :
    request_of = Some r ->
    transport w (List.length (requests st)) = Response status_code ->
    let result :=
      response_result endpoint status_code
        ((time_time w (clock_reads st) - start_time) * 1000)%float
        (datetime_now w (now_reads st)) in
    iteration start_time attempt error_message st
      (Ok (Return result), responded r result st)
| it_retry e st1 :
    caught st e st1 ->
    (attempt < retry_count endpoint - 1)%Z ->
    sleep_raises w (List.length (sleeps st1)) (retry_delay endpoint) = None ->
    iteration start_time attempt error_message st
      (Ok (Next error_message), log_sleep (retry_delay endpoint) st1)
| it_sleep_raises e st1 x :
    caught st e st1 ->
    (attempt < retry_count endpoint - 1)%Z ->
    sleep_raises w (List.length (sleeps st1)) (retry_delay endpoint) = Some x ->
    iteration start_time attempt error_message st (Raised x, st1)
| it_last e st1 :
    caught st e st1 ->
    (retry_count endpoint - 1 <= attempt)%Z ->
    iteration start_time attempt error_message st
      (Ok (Next (Some (handler_text e))), st1).

End Iteration.

(** ** Sample endpoints and worlds *)

Definition fresh_state : State :=
  {| self := APIMonitor_init [];
     requests := [];
     sleeps := [];
     clock_reads := 0;
     now_reads := 0 |}.

(** A clock that reads 100 s at first and 100.125 s from then on. *)
Definition sample_clock (k : nat) : float :=
  match k with
  | O => 100%float
  | S _ => 100.125%float
  end.

Definition world_of (t : nat -> outcome) : World :=
  {| transport := t;
     time_time := sample_clock;
     datetime_now := fun _ => 0%Z;
     sleep_system := fun _ _ => None |}.

Definition always_timeout : World := world_of (fun _ => Raises requests_Timeout).

Definition always_503 : World := world_of (fun _ => Response 503).

Definition always_200 : World := world_of (fun _ => Response 200).

Definition health_api : EndpointConfig.t :=
  EndpointConfig.make "Health Check" "https://api.example.com/health".

(** Two attempts and a delay of minus one second between them. *)
Definition negative_delay : EndpointConfig.t :=
  {| EndpointConfig.name := "Health Check";
     EndpointConfig.url := "https://api.example.com/health";
     EndpointConfig.method := "GET";
     EndpointConfig.headers := None;
     EndpointConfig.payload := None;
     EndpointConfig.expected_status := 200;
     EndpointConfig.max_response_time := 5.0;
     EndpointConfig.timeout := 10.0;
     EndpointConfig.retry_count := 2;
     EndpointConfig.retry_delay := (-1)%float |}.

(** Three attempts and a delay of minus one second between them. *)
Definition three_negative_delay : EndpointConfig.t :=
  {| EndpointConfig.name := "Health Check";
     EndpointConfig.url := "https://api.example.com/health";
     EndpointConfig.method := "GET";
     EndpointConfig.headers := None;
     EndpointConfig.payload := None;
     EndpointConfig.expected_status := 200;
     EndpointConfig.max_response_time := 5.0;
     EndpointConfig.timeout := 10.0;
     EndpointConfig.retry_count := 3;
     EndpointConfig.retry_delay := (-1)%float |}.

(** No attempt at all. *)
Definition put_no_attempts : EndpointConfig.t :=
  {| EndpointConfig.name := "Health Check";
     EndpointConfig.url := "https://api.example.com/health";
     EndpointConfig.method := "PUT";
     EndpointConfig.headers := None;
     EndpointConfig.payload := None;
     EndpointConfig.expected_status := 200;
     EndpointConfig.max_response_time := 5.0;
     EndpointConfig.timeout := 10.0;
     EndpointConfig.retry_count := 0;
     EndpointConfig.retry_delay := 1.0 |}.

Definition put_api : EndpointConfig.t := EndpointConfig.with_method health_api "put".

Definition put_negative_delay : EndpointConfig.t :=
  EndpointConfig.with_method negative_delay "PUT".

(** Two attempts and a delay of 9223372036 s between them: a count of
    nanoseconds that fits, and a deadline that does not. *)
Definition far_delay : EndpointConfig.t :=
  {| EndpointConfig.name := "Health Check";
     EndpointConfig.url := "https://api.example.com/health";
     EndpointConfig.method := "GET";
     EndpointConfig.headers := None;
     EndpointConfig.payload := None;
     EndpointConfig.expected_status := 200;
     EndpointConfig.max_response_time := 5.0;
     EndpointConfig.timeout := 10.0;
     EndpointConfig.retry_count := 2;
     EndpointConfig.retry_delay := 9223372036%float |}.

(** Every request times out, and the system refuses every delay with
    EINVAL. *)
Definition refusing_system : World :=
  {| transport := fun _ => Raises requests_Timeout;
     time_time := sample_clock;
     datetime_now := fun _ => 0%Z;
     sleep_system := fun _ _ => Some (OSError 22) |}.

(** The method "post" written with a long s (U+017F). *)
Definition long_s_post : string := ("po" ++ Str.encode_code 383 ++ "t")%string.

Definition timeout_run : res HealthCheckResult.t * State :=
  check_endpoint_sync always_timeout health_api fresh_state.

Definition response_run : res HealthCheckResult.t * State :=
  check_endpoint_sync always_503 health_api fresh_state.

Definition healthy_run : res HealthCheckResult.t * State :=
  check_endpoint_sync always_200 health_api fresh_state.

Definition put_run : res HealthCheckResult.t * State :=
  check_endpoint_sync always_timeout put_api fresh_state.

(** A connection that fails once and answers 200 from then on. *)
Definition fails_once : World :=
  world_of (fun k => match k with
                     | O => Raises requests_ConnectionError
                     | S _ => Response 200
                     end).

Definition retried_run : res HealthCheckResult.t * State :=
  check_endpoint_sync fails_once health_api fresh_state.

(** ** [main.py]: the health check of the web API *)

Module Main.

(** The [HealthCheck] model of lines 32-36. *)
Record HealthCheck := {
  endpoint : string;
  status : string;
  response_time : float;
  timestamp : datetime
}.

(** An endpoint dict of lines 172-176, with its two keys. *)
Record endpoint_dict := {
  ep_name : string;
  ep_url : string
}.

Definition endpoints : list endpoint_dict :=
  [ {| ep_name := "Auth API"; ep_url := "https://api.example.com/auth" |};
    {| ep_name := "Users API"; ep_url := "https://api.example.com/users" |};
    {| ep_name := "Health Check"; ep_url := "https://api.example.com/health" |} ].

Section HealthCheck.

Variable w : World.

(** Lines 181-204: the body of the loop, which ends in [results.append]
    of the value given here. *)
Definition probe (ep : endpoint_dict) : M HealthCheck :=
  try_except
    (start_time <- time_time_call w ;;
     status_code <- requests_get w (ep_url ep) None 10%float ;;
     now <- time_time_call w ;;
     let response_time := ((now - start_time) * 1000)%float in
     let status := if (status_code =? 200)%Z then "healthy"%string
                   else "unhealthy"%string in
     timestamp <- datetime_now_call w ;;
     ret {| endpoint := ep_name ep;
            status := status;
            response_time := response_time;
            timestamp := timestamp |})
    (fun _ =>
       timestamp <- datetime_now_call w ;;
       ret {| endpoint := ep_name ep;
              status := "error";
              response_time := 0%float;
              timestamp := timestamp |}).

(** Lines 180-204: the loop over the endpoints. *)
Fixpoint probe_each (eps : list endpoint_dict) (results : list HealthCheck)
    : M (list HealthCheck) :=
  match eps with
  | [] => ret results
  | ep :: eps' =>
      result <- probe ep ;;
      probe_each eps' (results ++ [result])
  end.

(** [perform_health_check], lines 171-206; the value is the list under the
    key "endpoints" of the dict it returns. *)
Definition perform_health_check : M (list HealthCheck) :=
  probe_each endpoints [].

End HealthCheck.

(** The GET request of an endpoint: no headers, a timeout of 10 s. *)
Definition get_request (ep : endpoint_dict) : request :=
  {| req_verb := GET;
     req_url := ep_url ep;
     req_headers := None;
     req_json := None;
     req_timeout := 10%float |}.

(** What the result of an endpoint says of the outcome of its request. *)
Definition tells (o : outcome) (r : HealthCheck) : Prop :=
  match o with
  | Response status_code =>
      status r = (if (status_code =? 200)%Z then "healthy" else "unhealthy")%string
  | Raises _ => status r = "error"%string /\ response_time r = 0%float
  end.

End Main.

(** ** [main.py]: the results of a test run *)

Unset Elimination Schemes.

(** A value that [json.load] returns. *)
Inductive json :=
| JNull
| JBool (b : bool)
| JInt (n : Z)
| JFloat (f : float)
| JStr (s : string)
| JList (items : list json)
| JDict (entries : list (string * json)).

Set Elimination Schemes.

(** A Python dict with string keys, in the order of its keys. *)
Definition dict := list (string * json).

Fixpoint lookup (key : string) (entries : dict) : option json :=
  match entries with
  | [] => None
  | (k, v) :: entries' => if String.eqb k key then Some v else lookup key entries'
  end.

(** [entries.get(key, default)] *)
Definition dict_get (entries : dict) (key : string) (default : json) : json :=
  match lookup key entries with
  | Some v => v
  | None => default
  end.

(** [v.get(key, default)] for a value of any type: only a dict has the
    method, and [None] stands for the [AttributeError] of the others. *)
Definition get_method (v : json) (key : string) (default : json) : option json :=
  match v with
  | JDict entries => Some (dict_get entries key default)
  | _ => None
  end.

(** What is at a path: nothing; something that cannot be examined, [stat]
    failing on it with an [OSError] of the given [errno]; a file that [open]
    or [json.load] raises on; or a file of JSON. *)
Inductive file :=
| Missing
| Inaccessible (errno : Z)
| Unreadable
| Holds (data : json).

Definition FileSystem := string -> file.

(** [Path(path).exists()]: the answer, or [inl errno] when it raises
    [OSError].  It takes the failures of [stat] that tell of no file (ENOENT,
    ENOTDIR, EBADF, ELOOP) for [False], these are [Missing], and raises the
    others, such as EACCES under a directory that cannot be searched and
    ENAMETOOLONG. *)
Definition path_exists (fs : FileSystem) (path : string) : Z + bool :=
  match fs path with
  | Missing => inr false
  | Inaccessible errno => inl errno
  | _ => inr true
  end.

Definition and_then {A B : Type} (o : option A) (k : A -> option B) : option B :=
  match o with
  | Some a => k a
  | None => None
  end.

Module Api.

(** The dict of the [except] clause, lines 95-96. *)
Definition zeros : dict :=
  [("total", JInt 0); ("passed", JInt 0); ("failed", JInt 0);
   ("skipped", JInt 0); ("duration", JInt 0)]%string.

(** Lines 84-94: the [try] block; [None] when it raises. *)
Definition read_results (fs : FileSystem) (results_file : string) : option dict :=
  match fs results_file with
  | Holds data =>
      and_then (get_method data "summary" (JDict [])) (fun summary =>
      and_then (get_method summary "total" (JInt 0)) (fun total =>
      and_then (get_method summary "passed" (JInt 0)) (fun passed =>
      and_then (get_method summary "failed" (JInt 0)) (fun failed =>
      and_then (get_method summary "skipped" (JInt 0)) (fun skipped =>
      and_then (get_method data "duration" (JInt 0)) (fun duration =>
      Some [("total", total); ("passed", passed); ("failed", failed);
            ("skipped", skipped); ("duration", duration)]%string))))))
  | _ => None
  end.

(** [parse_test_results], lines 82-96. *)
Definition parse_test_results (fs : FileSystem) (results_file : string) : dict :=
  match read_results fs results_file with
  | Some results => results
  | None => zeros
  end.

(** What a handler ends in: a value, an [HTTPException], or an [OSError]
    that nothing catches. *)
Inductive reply (A : Type) :=
| Returns (a : A)
| HTTPException (status_code : Z) (detail : string)
| OSErrorRaised (errno : Z).
Arguments Returns {A} a.
Arguments HTTPException {A} status_code detail.
Arguments OSErrorRaised {A} errno.

(** [get_test_results], lines 128-139. *)
Definition get_test_results (fs : FileSystem) (test_type : string) : reply dict :=
  if negb (existsb (String.eqb test_type) ["api"; "ui"]%string) then
    HTTPException 400 "Invalid test type"
  else
    let results_file := ("reports/" ++ test_type ++ "_results.json")%string in
    match path_exists fs results_file with
    | inl errno => OSErrorRaised errno
    | inr false => HTTPException 404 "Test results not found"
    | inr true => Returns (parse_test_results fs results_file)
    end.

(** A file that [parse_test_results] can use: JSON whose top level is a
    dict, with a dict under "summary" if it has the key. *)
Definition usable (f : file) : bool :=
  match f with
  | Holds (JDict entries) =>
      match lookup "summary" entries with
      | None | Some (JDict _) => true
      | Some _ => false
      end
  | _ => false
  end.

End Api.

(** A report with a summary that is no dict, and a duration. *)
Definition null_summary : FileSystem :=
  fun path =>
    if String.eqb path "reports/api_results.json"
    then Holds (JDict [("summary", JNull); ("duration", JFloat 12.5)]%string)
    else Missing.

(** A report of three tests, two of them passed. *)
Definition api_report : FileSystem :=
  fun path =>
    if String.eqb path "reports/api_results.json"
    then Holds (JDict [("duration", JFloat 12.5);
                       ("summary", JDict [("passed", JInt 2); ("total", JInt 3);
                                          ("failed", JInt 1)])]%string)
    else Missing.

From Stdlib Require Import DecimalString.

(** ** Python numbers: [/] and [*] on the values of a report *)

Module Py.

(** The exceptions of arithmetic and of a missing method. *)
Inductive error :=
| AttributeError
| TypeError
| ZeroDivisionError
| OverflowError.

(** An int as the float of the same value, exactly. *)
Definition exact (n : Z) : SpecFloat.spec_float :=
  match n with
  | Z0 => SpecFloat.S754_zero false
  | Zpos p => SpecFloat.S754_finite false p 0
  | Zneg p => SpecFloat.S754_finite true p 0
  end.

(** What a rounded result is worth: an infinity is an [OverflowError]. *)
Definition finite (f : float) : error + float :=
  if PrimFloat.is_infinity f then inl OverflowError else inr f.

(** [float(n)] for an int: the nearest float, ties to even. *)
Definition float_of_int (n : Z) : error + float :=
  finite (SF2Prim (SpecFloat.binary_normalize prec emax n 0 false)).

(** [x / y] for two ints: the quotient, rounded once to the nearest float. *)
Definition int_truediv (x y : Z) : error + float :=
  if (y =? 0)%Z then inl ZeroDivisionError
  else finite (SF2Prim (SpecFloat.SFdiv prec emax (exact x) (exact y))).

(** [x / y] for two floats. *)
Definition float_truediv (x y : float) : error + float :=
  if (y =? 0)%float then inl ZeroDivisionError else inr (x / y)%float.

(** A value as a number: an int (a bool is the int 0 or 1) or a float. *)
Inductive number :=
| NInt (n : Z)
| NFloat (f : float).

Definition number_of (v : json) : option number :=
  match v with
  | JInt n => Some (NInt n)
  | JBool b => Some (NInt (if b then 1 else 0))
  | JFloat f => Some (NFloat f)
  | _ => None
  end.

Definition to_float (x : number) : error + float :=
  match x with
  | NInt n => float_of_int n
  | NFloat f => inr f
  end.

(** [a / b]: both ints, or both converted to floats first; [TypeError] for
    a value that is no number. *)
Definition truediv (a b : json) : error + float :=
  match number_of a, number_of b with
  | Some (NInt x), Some (NInt y) => int_truediv x y
  | Some x, Some y =>
      match to_float x with
      | inl e => inl e
      | inr xf =>
          match to_float y with
          | inl e => inl e
          | inr yf => float_truediv xf yf
          end
      end
  | _, _ => inl TypeError
  end.

End Py.

(** ** [utils/test_runner.py]: commands and the set of running tests *)

Module Runner.

(** The [CompletedProcess] of [subprocess.run]. *)
Record CompletedProcess := {
  returncode : Z;
  stdout : string;
  stderr : string
}.

(** What a call of [subprocess.run] ends in: the process has run, the
    timeout has expired, or another exception, with its [str(e)]. *)
Inductive run_outcome :=
| Completed (p : CompletedProcess)
| TimeoutExpired
| Fails (text : string).

(** What the [try] of [_parse_test_results] can raise: the [OSError] of
    [Path.exists()], the exception of [open] or [json.load] on a path, or an
    error of the interpreter. *)
Inductive failure :=
| CannotStat (path : string) (errno : Z)
| CannotRead (path : string)
| Python (e : Py.error).

(** The outcome of the k-th call of [subprocess.run], the files, the
    [datetime.now().isoformat()] of the moment, and [str(e)] as the
    interpreter words an exception; then [Path(p).mkdir(exist_ok=True)]
    ([None], or the [str(e)] of what it raises), and
    [multiprocessing.cpu_count()] and [Path.cwd()], each a value or the
    [str(e)] of what it raises. *)
Record Env := {
  subprocess_run : nat -> run_outcome;
  files : FileSystem;
  now_isoformat : string;
  str_of : failure -> string;
  mkdir : string -> option string;
  cpu_count : string + nat;
  cwd : string + string
}.

(** [self.running_tests], a set of strings, and the commands run so far,
    oldest first. *)
Record State := {
  running_tests : list string;
  commands : list (list string)
}.

(** [t in s], [s.add(t)], [s.discard(t)] and [s.clear()] on a set. *)
Definition set_in (t : string) (s : list string) : bool :=
  existsb (String.eqb t) s.

Definition set_add (t : string) (s : list string) : list string :=
  if set_in t s then s else t :: s.

Definition set_discard (t : string) (s : list string) : list string :=
  filter (fun x => negb (String.eqb x t)) s.

(** The truth value of an optional string argument: [None] and the empty
    string are false. *)
Definition truthy (s : option string) : bool :=
  match s with
  | None => false
  | Some s' => negb (String.eqb s' "")
  end.

Definition already_running (test_type : string) : dict :=
  [("error", JStr (test_type ++ " tests are already running"));
   ("status", JStr "running")]%string.

(** [run_custom_command], lines 121-148. *)
Definition run_custom_command (env : Env) (command : list string) (test_type : string)
    (st : State) : dict * State :=
  if set_in test_type (running_tests st) then (already_running test_type, st)
  else
    let result :=
      match subprocess_run env (List.length (commands st)) with
      | Completed p =>
          [("command", JStr (String.concat " " command));
           ("return_code", JInt (returncode p));
           ("stdout", JStr (stdout p));
           ("stderr", JStr (stderr p));
           ("status", JStr "completed")]%string
      | TimeoutExpired =>
          [("error", JStr "Command execution timed out");
           ("status", JStr "timeout")]%string
      | Fails text =>
          [("error", JStr text); ("status", JStr "error")]%string
      end in
    (result,
     {| running_tests := set_discard test_type (set_add test_type (running_tests st));
        commands := commands st ++ [command] |}).

(** Lines 154-157: the command of a collection. *)
Definition newman_command (collection_path : string) (environment : option string)
    : list string :=
  ["newman"; "run"; collection_path; "--reporters"; "json";
   "--reporter-json-export"; "reports/newman_results.json"]%string
  ++ match environment with
     | Some e => if truthy environment then ["--environment"; e]%string else []
     | None => []
     end.

(** [run_newman_collection], lines 150-159; [inl errno] when it raises the
    [OSError] of [Path.exists()]. *)
Definition run_newman_collection (env : Env) (collection_path : string)
    (environment : option string) (st : State) : (Z + dict) * State :=
  match path_exists (files env) collection_path with
  | inl errno => (inl errno, st)
  | inr false =>
      (inr [("error", JStr ("Collection file not found: " ++ collection_path));
            ("status", JStr "error")]%string, st)
  | inr true =>
      let run :=
        run_custom_command env (newman_command collection_path environment) "newman" st in
      (inr (fst run), snd run)
  end.

(** Lines 189-206: the [try] of [_parse_test_results] past the test that
    the file exists.  [data.get] and [summary.get] raise [AttributeError] on
    a value that is no dict; the division, the last entry of the dict, is
    the only other expression that can raise. *)
Definition read_results (env : Env) (results_file test_type : string)
    : failure + dict :=
  match files env results_file with
  | Holds (JDict data) =>
      match dict_get data "summary" (JDict []) with
      | JDict summary =>
          match Py.truediv (dict_get summary "passed" (JInt 0))
                           (dict_get summary "total" (JInt 1)) with
          | inr rate =>
              inr [("test_type", JStr test_type);
                   ("total", dict_get summary "total" (JInt 0));
                   ("passed", dict_get summary "passed" (JInt 0));
                   ("failed", dict_get summary "failed" (JInt 0));
                   ("skipped", dict_get summary "skipped" (JInt 0));
                   ("error", dict_get summary "error" (JInt 0));
                   ("duration", dict_get data "duration" (JInt 0));
                   ("start_time",
                    dict_get data "created" (JStr (now_isoformat env)));
                   ("status", JStr "completed");
                   ("report_url", JStr ("/allure-report-" ++ test_type));
                   ("success_rate", JFloat (rate * 100)%float)]%string
          | inl e => inl (Python e)
          end
      | _ => inl (Python Py.AttributeError)
      end
  | Holds _ => inl (Python Py.AttributeError)
  | _ => inl (CannotRead results_file)
  end.

(** Lines 207-214: the dict of the [except] clause. *)
Definition parse_failure (env : Env) (e : failure) (test_type : string) : dict :=
  [("error", JStr ("Failed to parse results: " ++ str_of env e));
   ("status", JStr "error");
   ("test_type", JStr test_type)]%string.

(** [_parse_test_results], lines 180-214.  The test that the file exists is
    inside the [try]. *)
Definition _parse_test_results (env : Env) (results_file test_type : string) : dict :=
  match path_exists (files env) results_file with
  | inl errno => parse_failure env (CannotStat results_file errno) test_type
  | inr false =>
      [("error", JStr "Results file not found");
       ("status", JStr "error");
       ("test_type", JStr test_type)]%string
  | inr true =>
      match read_results env results_file test_type with
      | inr results => results
      | inl e => parse_failure env e test_type
      end
  end.

(** [get_test_status], lines 216-225; [inl errno] when it raises the
    [OSError] of [Path.exists()], which is called outside any [try] here. *)
Definition get_test_status (env : Env) (test_type : string) (st : State) : Z + dict :=
  if set_in test_type (running_tests st) then
    inr [("status", JStr "running"); ("test_type", JStr test_type)]%string
  else
    let results_file := ("reports/" ++ test_type ++ "_results.json")%string in
    match path_exists (files env) results_file with
    | inl errno => inl errno
    | inr true => inr (_parse_test_results env results_file test_type)
    | inr false => inr [("status", JStr "not_run"); ("test_type", JStr test_type)]%string
    end.

(** [_generate_allure_report], lines 161-178; the command it runs.  Whatever
    the call of [subprocess.run] ends in is logged and passed over. *)
Definition allure_command (allure_dir report_dir : string) : list string :=
  ["allure"; "generate"; allure_dir; "-o"; report_dir; "--clean"]%string.

(** [str(n)] for a natural number. *)
Definition str_nat (n : nat) : string :=
  NilEmpty.string_of_uint (Nat.to_uint n).

(** Lines 25-51: the directories and the command of pytest; the [str(e)]
    of the exception when one of the calls raises. *)
Definition pytest_command (env : Env) (test_path test_type : string)
    (markers : option (list string)) (parallel : bool) : string + list string :=
  let allure_dir := ("reports/allure-results-" ++ test_type)%string in
  let results_file := ("reports/" ++ test_type ++ "_results.json")%string in
  let report_dir := ("reports/allure-report-" ++ test_type)%string in
  match mkdir env allure_dir with
  | Some text => inl text
  | None =>
      match mkdir env report_dir with
      | Some text => inl text
      | None =>
          let cmd :=
            ["pytest"; test_path; "--alluredir=" ++ allure_dir; "--json-report";
             "--json-report-file=" ++ results_file; "-v"; "--tb=short"]%string
            ++ match markers with
               | Some ms => flat_map (fun marker => ["-m"%string; marker]) ms
               | None => []
               end in
          match (if parallel then
                   match cpu_count env with
                   | inl text => inl text
                   | inr n => inr (cmd ++ ["-n"%string; str_nat (Nat.min n 4)])
                   end
                 else inr cmd) with
          | inl text => inl text
          | inr cmd' =>
              match cwd env with
              | inl text => inl text
              | inr _ => inr cmd'
              end
          end
      end
  end.

(** [run_pytest_tests], lines 18-78. *)
Definition run_pytest_tests (env : Env) (test_path test_type : string)
    (markers : option (list string)) (parallel : bool) (st : State) : dict * State :=
  if set_in test_type (running_tests st) then (already_running test_type, st)
  else
    let allure_dir := ("reports/allure-results-" ++ test_type)%string in
    let results_file := ("reports/" ++ test_type ++ "_results.json")%string in
    let report_dir := ("reports/allure-report-" ++ test_type)%string in
    let running := set_discard test_type (set_add test_type (running_tests st)) in
    match pytest_command env test_path test_type markers parallel with
    | inl text =>
        ([("error", JStr text); ("status", JStr "error")]%string,
         {| running_tests := running; commands := commands st |})
    | inr cmd =>
        match subprocess_run env (List.length (commands st)) with
        | Completed _ =>
            (_parse_test_results env results_file test_type,
             {| running_tests := running;
                commands := commands st ++ [cmd; allure_command allure_dir report_dir] |})
        | TimeoutExpired =>
            ([("error", JStr "Test execution timed out");
              ("status", JStr "timeout")]%string,
             {| running_tests := running; commands := commands st ++ [cmd] |})
        | Fails text =>
            ([("error", JStr text); ("status", JStr "error")]%string,
             {| running_tests := running; commands := commands st ++ [cmd] |})
        end
    end.

(** [stop_running_tests], lines 227-231. *)
Definition stop_running_tests (test_type : option string) (st : State) : State :=
  match test_type with
  | Some t =>
      if truthy test_type then
        {| running_tests := set_discard t (running_tests st);
           commands := commands st |}
      else {| running_tests := []; commands := commands st |}
  | None => {| running_tests := []; commands := commands st |}
  end.

End Runner.

(** The keys of the dict of a parsed report, and of the dict of a failure. *)
Definition completed_keys : list string :=
  ["test_type"; "total"; "passed"; "failed"; "skipped"; "error"; "duration";
   "start_time"; "status"; "report_url"; "success_rate"]%string.

Definition failure_keys : list string := ["error"; "status"; "test_type"]%string.

(** A runner with "api" and "ui" tests under way, and a command that fails. *)
Definition busy_runner : Runner.State :=
  {| Runner.running_tests := ["api"; "ui"]%string; Runner.commands := [] |}.

Definition failing_command : Runner.Env :=
  {| Runner.subprocess_run :=
       fun _ => Runner.Completed {| Runner.returncode := 2;
                                    Runner.stdout := "";
                                    Runner.stderr := "usage" |};
     Runner.files := fun _ => Missing;
     Runner.now_isoformat := "2024-01-01T09:00:00";
     Runner.str_of := fun _ => ""%string;
     Runner.mkdir := fun _ => None;
     Runner.cpu_count := inr 8%nat;
     Runner.cwd := inr "/srv/qa"%string |}.

(** The report of a run that collected no test. *)
Definition no_tests : Runner.Env :=
  {| Runner.subprocess_run := fun _ => Runner.TimeoutExpired;
     Runner.files :=
       fun path =>
         if String.eqb path "reports/api_results.json"
         then Holds (JDict [("summary", JDict [("total", JInt 0)]);
                            ("duration", JFloat 0.5)]%string)
         else Missing;
     Runner.now_isoformat := "2024-01-01T09:00:00";
     Runner.str_of := fun _ => "division by zero"%string;
     Runner.mkdir := fun _ => None;
     Runner.cpu_count := inr 8%nat;
     Runner.cwd := inr "/srv/qa"%string |}.

(** ** [bot.py]: the monitor of the bot *)

Module Bot.

(** An endpoint dict: "name" and "url" are read with [endpoint[...]],
    "expected_status" and "max_response_time" with [endpoint.get]; a key may
    be missing.  The values are strings, an int and a float, as in
    [api_endpoints]. *)
Record endpoint := {
  name : option string;
  url : option string;
  expected_status : option Z;
  max_response_time : option float
}.

(** Exceptions: the [RequestException] of [requests.get], which the loop
    catches, and those it does not catch. *)
Inductive error :=
| RequestException (text : string)
| KeyError (key : string)
| OtherError (text : string).

(** What [requests.get] ends in: a response, a [RequestException] with its
    [str(e)], or any other exception. *)
Inductive get_outcome :=
| Got (status_code : Z)
| GetRaises (text : string)
| GetFails (text : string).

(** What [client.chat_postMessage] ends in. *)
Inductive post_outcome :=
| Posted
| SlackApiError
| PostFails (text : string).

(** The third argument of [_send_alert]. *)
Inductive issue :=
| StatusIssue (status_code : Z)       (* f"Status: {response.status_code}" *)
| SlowIssue (response_time : float)   (* f"Slow response: {response_time:.2f}ms" *)
| RequestIssue (text : string).       (* str(e) *)

(** A call of [chat_postMessage]: the channel, and the name, the address
    and the issue that make the text of the message. *)
Record alert := {
  channel : string;
  alert_name : string;
  alert_url : string;
  alert_issue : issue
}.

(** The outcome of the k-th GET, the k-th reading of the clock and the
    outcome of the k-th message. *)
Record World := {
  get : nat -> get_outcome;
  time : nat -> float;
  post : nat -> post_outcome
}.

(** The addresses requested, the readings of the clock and the messages
    sent to Slack so far, delivered or not. *)
Record State := {
  gets : list string;
  clock_reads : nat;
  posts : list alert
}.

Definition M (A : Type) : Type := State -> (error + A) * State.

Definition ret {A} (a : A) : M A := fun st => (inr a, st).

Definition raise {A} (e : error) : M A := fun st => (inl e, st).

Definition bind {A B} (m : M A) (k : A -> M B) : M B :=
  fun st =>
    match m st with
    | (inr a, st') => k a st'
    | (inl e, st') => (inl e, st')
    end.

Declare Scope bot_scope.
Notation "x <- m ;; k" := (bind m (fun x => k))
  (at level 61, m at next level, right associativity) : bot_scope.
Notation "m ;;; k" := (bind m (fun _ => k))
  (at level 61, right associativity) : bot_scope.
Local Open Scope bot_scope.

(** [endpoint[key]] *)
Definition item (key : string) (value : option string) : M string :=
  match value with
  | Some v => ret v
  | None => raise (KeyError key)
  end.

Section Monitor.

Variable w : World.
Variable alert_channel : string.

(** [time.time()] *)
Definition time_call : M float :=
  fun st =>
    (inr (time w (clock_reads st)),
     {| gets := gets st; clock_reads := S (clock_reads st); posts := posts st |}).

(** [requests.get(url, timeout=10)] *)
Definition requests_get (address : string) : M Z :=
  fun st =>
    let st' := {| gets := gets st ++ [address];
                  clock_reads := clock_reads st;
                  posts := posts st |} in
    match get w (List.length (gets st)) with
    | Got status_code => (inr status_code, st')
    | GetRaises text => (inl (RequestException text), st')
    | GetFails text => (inl (OtherError text), st')
    end.

(** [_send_alert], lines 112-117: a [SlackApiError] is passed over. *)
Definition _send_alert (name url : string) (error : issue) : M unit :=
  fun st =>
    let st' := {| gets := gets st;
                  clock_reads := clock_reads st;
                  posts := posts st ++ [{| channel := alert_channel;
                                           alert_name := name;
                                           alert_url := url;
                                           alert_issue := error |}] |} in
    match post w (List.length (posts st)) with
    | Posted => (inr tt, st')
    | SlackApiError => (inr tt, st')
    | PostFails text => (inl (OtherError text), st')
    end.

(** [self._send_alert(endpoint['name'], endpoint['url'], error)] *)
Definition alert_for (ep : endpoint) (error : issue) : M unit :=
  n <- item "name" (name ep) ;;
  u <- item "url" (url ep) ;;
  _send_alert n u error.

(** Lines 96-106: the body of the [try]. *)
Definition try_body (ep : endpoint) : M unit :=
  start_time <- time_call ;;
  u <- item "url" (url ep) ;;
  status_code <- requests_get u ;;
  now <- time_call ;;
  let response_time := ((now - start_time) * 1000)%float in
  (if negb (status_code =? match expected_status ep with
                           | Some expected => expected
                           | None => 200
                           end)%Z
   then alert_for ep (StatusIssue status_code)
   else ret tt) ;;;
  (if (match max_response_time ep with
       | Some threshold => threshold
       | None => 5000
       end <? response_time)%float
   then alert_for ep (SlowIssue response_time)
   else ret tt).

(** Lines 95-109: an iteration, with its [except RequestException]. *)
Definition check_endpoint (ep : endpoint) : M unit :=
  fun st =>
    match try_body ep st with
    | (inl (RequestException text), st') => alert_for ep (RequestIssue text) st'
    | other => other
    end.

(** [check_endpoints], lines 93-109. *)
Fixpoint check_endpoints (endpoints : list endpoint) : M unit :=
  match endpoints with
  | [] => ret tt
  | ep :: endpoints' => check_endpoint ep ;;; check_endpoints endpoints'
  end.

End Monitor.

(** A world in which Slack takes every message that it would have refused
    with a [SlackApiError]. *)
Definition delivering (w : World) : World :=
  {| get := get w;
     time := time w;
     post := fun k => match post w k with
                      | SlackApiError => Posted
                      | o => o
                      end |}.

End Bot.

(** A world in which Slack raises nothing but [SlackApiError], and
    [requests.get] nothing but a [RequestException]. *)
Definition tame (w : Bot.World) : Prop :=
  (forall k text, Bot.post w k <> Bot.PostFails text)
  /\ (forall k text, Bot.get w k <> Bot.GetFails text).

(** An endpoint dict that has its "name" and its "url". *)
Definition complete (ep : Bot.endpoint) : Prop :=
  exists n u, Bot.name ep = Some n /\ Bot.url ep = Some u.

(** The status and the threshold an endpoint is held to. *)
Definition expected_of (ep : Bot.endpoint) : Z :=
  match Bot.expected_status ep with
  | Some expected => expected
  | None => 200
  end.

Definition threshold_of (ep : Bot.endpoint) : float :=
  match Bot.max_response_time ep with
  | Some threshold => threshold
  | None => 5000
  end.

(** The issues that an endpoint is alerted of, for the outcome of its GET
    and the response time. *)
Definition issues_of (ep : Bot.endpoint) (o : Bot.get_outcome) (response_time : float)
    : list Bot.issue :=
  match o with
  | Bot.Got status_code =>
      (if negb (status_code =? expected_of ep)%Z
       then [Bot.StatusIssue status_code] else [])
      ++ (if (threshold_of ep <? response_time)%float
          then [Bot.SlowIssue response_time] else [])
  | Bot.GetRaises text => [Bot.RequestIssue text]
  | Bot.GetFails _ => []
  end.

(** The endpoints of the bot, lines 120-124. *)
Definition api_endpoints : list Bot.endpoint :=
  [ {| Bot.name := Some "Auth API"%string;
       Bot.url := Some "https://api.example.com/auth"%string;
       Bot.expected_status := Some 200%Z;
       Bot.max_response_time := None |};
    {| Bot.name := Some "Users API"%string;
       Bot.url := Some "https://api.example.com/users"%string;
       Bot.expected_status := Some 200%Z;
       Bot.max_response_time := None |};
    {| Bot.name := Some "Health Check"%string;
       Bot.url := Some "https://api.example.com/health"%string;
       Bot.expected_status := Some 200%Z;
       Bot.max_response_time := None |} ].

Definition bot_start : Bot.State :=
  {| Bot.gets := []; Bot.clock_reads := 0; Bot.posts := [] |}.

(** Every GET answers 200 after an eighth of a second. *)
Definition all_well : Bot.World :=
  {| Bot.get := fun _ => Bot.Got 200;
     Bot.time := fun k => if Nat.even k then 100%float else 100.125%float;
     Bot.post := fun _ => Bot.Posted |}.

(** Every GET raises a [RequestException]. *)
Definition unreachable : Bot.World :=
  {| Bot.get := fun _ => Bot.GetRaises "Connection refused";
     Bot.time := fun _ => 100%float;
     Bot.post := fun _ => Bot.Posted |}.

(** A report that has a duration and no summary. *)
Definition bare_report : Runner.Env :=
  {| Runner.subprocess_run := fun _ => Runner.TimeoutExpired;
     Runner.files :=
       fun path =>
         if String.eqb path "reports/api_results.json"
         then Holds (JDict [("duration", JFloat 0.5)]%string)
         else Missing;
     Runner.now_isoformat := "2024-01-01T09:00:00";
     Runner.str_of := fun _ => ""%string;
     Runner.mkdir := fun _ => None;
     Runner.cpu_count := inr 8%nat;
     Runner.cwd := inr "/srv/qa"%string |}.

(** Every GET answers 503 after six seconds, and Slack refuses every
    message. *)
Definition down_and_slow : Bot.World :=
  {| Bot.get := fun _ => Bot.Got 503;
     Bot.time := fun k => if Nat.even k then 100%float else 106%float;
     Bot.post := fun _ => Bot.SlackApiError |}.

(** ** Facts about the loop *)

Section IterationFacts.

Variable w : World.
Variable endpoint : EndpointConfig.t.

Import EndpointConfig.

Lemma send_request_eq (st : State) :
  send_request w endpoint st =
  match request_of endpoint with
  | Some r => (response <- requests_send w r ;; ret (Some response)) st
  | None => (Ok None, st)
  end.
Proof.
  unfold send_request, request_of, requests_get, requests_post.
  destruct (String.eqb (Str.upper (method endpoint)) "GET"); [reflexivity|].
  destruct (String.eqb (Str.upper (method endpoint)) "POST"); reflexivity.
Qed.

Lemma handlers_eq (attempt : Z) (error_message : option message) (e : exception) :
  handlers w endpoint attempt error_message e =
  except_body w endpoint attempt error_message (handler_text endpoint e).
Proof. destruct e; reflexivity. Qed.

Lemma except_body_spec (start_time : float) (attempt : Z)
    (error_message : option message) (st st1 : State) (e : exception) :
  caught w endpoint st e st1 ->
  iteration w endpoint start_time attempt error_message st
    (except_body w endpoint attempt error_message (handler_text endpoint e) st1).
Proof.
  intros Hc. unfold except_body.
  destruct (Z.ltb_spec attempt (retry_count endpoint - 1)) as [Hlt | Hge].
  - unfold bind, time_sleep.
    destruct (sleep_raises w (List.length (sleeps st1)) (retry_delay endpoint))
      as [x|] eqn:Hs.
    + eapply it_sleep_raises; eassumption.
    + eapply it_retry; eassumption.
  - eapply it_last; eassumption.
Qed.

(** Every iteration ends in one of the four ways. *)
Lemma iteration_spec (start_time : float) (attempt : Z)
    (error_message : option message) (st : State) :
  iteration w endpoint start_time attempt error_message st
    (try_except (try_body w endpoint start_time)
                (handlers w endpoint attempt error_message) st).
Proof.
  unfold try_except, try_body, bind at 1.
  rewrite send_request_eq.
  destruct (request_of endpoint) as [r|] eqn:Hr.
  - unfold bind at 1, requests_send.
    destruct (transport w (List.length (requests st))) as [code|e] eqn:Ht.
    + cbn. apply it_response; assumption.
    + cbn. rewrite handlers_eq. apply except_body_spec.
      apply caught_transport; assumption.
  - cbn. apply (except_body_spec start_time attempt error_message st
                   (tick_clock st) (UnboundLocalError "response")).
    apply caught_unbound; assumption.
Qed.

End IterationFacts.

Section LoopFacts.

Variable w : World.
Variable endpoint : EndpointConfig.t.

Import EndpointConfig.

Lemma attempts_S (start_time : float) (remaining : nat) (attempt : Z)
    (error_message : option message) (st : State) :
  attempts w endpoint start_time (S remaining) attempt error_message st =
  match try_except (try_body w endpoint start_time)
                   (handlers w endpoint attempt error_message) st with
  | (Ok (Return result), st') => (Ok result, st')
  | (Ok (Next error_message'), st') =>
      attempts w endpoint start_time remaining (attempt + 1) error_message' st'
  | (Raised x, st') => (Raised x, st')
  end.
Proof.
  cbn [attempts]. unfold bind at 1.
  destruct (try_except _ _ st) as [[[result | error_message'] | x] st']; reflexivity.
Qed.

Lemma after_loop_bound (start_time : float) (text : message) (st : State) :
  after_loop w endpoint start_time (Some text) st =
  let result :=
    error_result endpoint
      ((time_time w (clock_reads st) - start_time) * 1000)%float
      (datetime_now w (now_reads st)) text in
  let st1 := tick_now (tick_clock st) in
  (Ok result,
   set_history (add_to_history_list (max_history (self st1))
                                    (results_history (self st1)) result) st1).
Proof. reflexivity. Qed.

Lemma after_loop_unbound (start_time : float) (st : State) :
  after_loop w endpoint start_time None st =
  (Raised (UnboundLocalError "error_message"), tick_now (tick_clock st)).
Proof. reflexivity. Qed.

Lemma well_formed_response (status_code : Z) (response_time : float) (timestamp : datetime) :
  well_formed endpoint (response_result endpoint status_code response_time timestamp) = true.
Proof.
  unfold well_formed, response_result, classify.
  destruct (status_code =? expected_status endpoint)%Z;
    [destruct (response_time <=? max_response_time endpoint * 1000)%float|];
    cbn; rewrite !String.eqb_refl; reflexivity.
Qed.

Lemma well_formed_error (response_time : float) (timestamp : datetime) (text : message) :
  well_formed endpoint (error_result endpoint response_time timestamp text) = true.
Proof.
  unfold well_formed, error_result. cbn. rewrite !String.eqb_refl. reflexivity.
Qed.

End LoopFacts.

(** A step of an induction on the loop: unfold an iteration and go by the
    four ways it can end. *)
Ltac loop_step w endpoint start_time attempt error_message st :=
  rewrite attempts_S;
  let Hit := fresh "Hit" in
  pose proof (iteration_spec w endpoint start_time attempt error_message st) as Hit;
  inversion Hit as [r code Hr Ht result0 Heq
                   | e st1 Hc Hlt Hs Heq
                   | e st1 x Hc Hlt Hs Heq
                   | e st1 Hc Hge Heq]; clear Hit.

(** What the [try] body leaves as it was when it raises. *)
Lemma caught_frame (w : World) (endpoint : EndpointConfig.t)
    (st st1 : State) (e : exception) :
  caught w endpoint st e st1 ->
  self st1 = self st /\ sleeps st1 = sleeps st /\ now_reads st1 = now_reads st
  /\ (List.length (requests st1) <= S (List.length (requests st)))%nat.
Proof.
  intros [r x Hr Ht | Hr]; cbn; repeat split; try reflexivity.
  - rewrite length_app. cbn. lia.
  - lia.
Qed.

(** The sleeps that are accepted from a state on, after an attempt that
    raised and the sleep that followed it. *)
Lemma sleeps_accepted_first (w : World) (endpoint : EndpointConfig.t)
    (st st1 : State) (e : exception) (secs : float) (n : nat) :
  caught w endpoint st e st1 ->
  sleeps_accepted w st secs n ->
  (0 < n)%nat ->
  sleep_raises w (List.length (sleeps st1)) secs = None.
Proof.
  intros Hc Hsleep Hn. destruct (caught_frame _ _ _ _ _ Hc) as (_ & -> & _).
  rewrite <- (Nat.add_0_r (List.length (sleeps st))). apply Hsleep. exact Hn.
Qed.

Lemma sleeps_accepted_step (w : World) (endpoint : EndpointConfig.t)
    (st st1 : State) (e : exception) (secs : float) (n : nat) :
  caught w endpoint st e st1 ->
  sleeps_accepted w st secs n ->
  sleeps_accepted w (log_sleep secs st1) secs (n - 1).
Proof.
  intros Hc Hsleep j Hj. destruct (caught_frame _ _ _ _ _ Hc) as (_ & Hsleeps & _).
  cbn. rewrite length_app, Hsleeps. cbn.
  replace (List.length (sleeps st) + 1 + j)%nat
    with (List.length (sleeps st) + S j)%nat by lia.
  apply Hsleep. lia.
Qed.

Section UniversalFacts.

Variable w : World.
Variable endpoint : EndpointConfig.t.
Variable start_time : float.

Import EndpointConfig.

(** With attempts left to make, or a message bound already, and every
    sleep accepted, the loop returns. *)
Lemma attempts_returns (remaining : nat) :
  forall (attempt : Z) (error_message : option message) (st : State),
    (0 <= attempt)%Z ->
    (attempt + Z.of_nat remaining = retry_count endpoint)%Z ->
    (remaining = O -> error_message <> None) ->
    sleeps_accepted w st (retry_delay endpoint) (remaining - 1) ->
    exists result st',
      attempts w endpoint start_time remaining attempt error_message st = (Ok result, st')
      /\ well_formed endpoint result = true.
Proof.
  induction remaining as [|remaining IH]; intros attempt error_message st H0 Hsum Hbound Hsleep.
  - destruct error_message as [text|]; [|exfalso; apply Hbound; reflexivity].
    cbn [attempts]. rewrite after_loop_bound. cbn zeta.
    eexists; eexists; split; [reflexivity|apply well_formed_error].
  - loop_step w endpoint start_time attempt error_message st.
    + eexists; eexists; split; [reflexivity|apply well_formed_response].
    + apply IH; [lia | lia | intros ->; lia |].
      replace (remaining - 1)%nat with (S remaining - 1 - 1)%nat by lia.
      exact (sleeps_accepted_step _ _ _ _ _ _ _ Hc Hsleep).
    + exfalso.
      rewrite (sleeps_accepted_first _ _ _ _ _ _ _ Hc Hsleep) in Hs by lia.
      discriminate.
    + apply IH; [lia | lia | discriminate |].
      intros j Hj. lia.
Qed.

(** Whatever the loop returns is well formed. *)
Lemma attempts_well_formed (remaining : nat) :
  forall (attempt : Z) (error_message : option message) (st st' : State)
         (result : HealthCheckResult.t),
    attempts w endpoint start_time remaining attempt error_message st = (Ok result, st') ->
    well_formed endpoint result = true.
Proof.
  induction remaining as [|remaining IH]; intros attempt error_message st st' result.
  - cbn [attempts]. destruct error_message as [text|].
    + rewrite after_loop_bound. cbn zeta. intros [= <- _]. apply well_formed_error.
    + rewrite after_loop_unbound. discriminate.
  - loop_step w endpoint start_time attempt error_message st.
    + intros [= <- _]. apply well_formed_response.
    + apply IH.
    + discriminate.
    + apply IH.
Qed.

(** The loop calls [_add_to_history] once where it returns, and not at all
    where it raises. *)
Lemma attempts_history (remaining : nat) :
  forall (attempt : Z) (error_message : option message) (st st' : State)
         (out : res HealthCheckResult.t),
    attempts w endpoint start_time remaining attempt error_message st = (out, st') ->
    endpoints (self st') = endpoints (self st)
    /\ max_history (self st') = max_history (self st)
    /\ results_history (self st') =
       match out with
       | Ok result =>
           add_to_history_list (max_history (self st)) (results_history (self st)) result
       | Raised _ => results_history (self st)
       end.
Proof.
  induction remaining as [|remaining IH]; intros attempt error_message st st' out.
  - cbn [attempts]. destruct error_message as [text|].
    + rewrite after_loop_bound. cbn zeta. intros [= <- <-]. cbn. auto.
    + rewrite after_loop_unbound. intros [= <- <-]. cbn. auto.
  - loop_step w endpoint start_time attempt error_message st.
    + intros [= <- <-]. cbn. auto.
    + intros Hrun. apply IH in Hrun. cbn in Hrun.
      destruct (caught_frame _ _ _ _ _ Hc) as (Hself & _). rewrite Hself in Hrun. exact Hrun.
    + intros [= <- <-]. destruct (caught_frame _ _ _ _ _ Hc) as (Hself & _).
      rewrite Hself. auto.
    + intros Hrun. apply IH in Hrun.
      destruct (caught_frame _ _ _ _ _ Hc) as (Hself & _). rewrite Hself in Hrun. exact Hrun.
Qed.

(** An iteration issues one request at most. *)
Lemma attempts_requests_bound (remaining : nat) :
  forall (attempt : Z) (error_message : option message) (st st' : State)
         (out : res HealthCheckResult.t),
    attempts w endpoint start_time remaining attempt error_message st = (out, st') ->
    (List.length (requests st') <= List.length (requests st) + remaining)%nat.
Proof.
  induction remaining as [|remaining IH]; intros attempt error_message st st' out.
  - cbn [attempts]. destruct error_message as [text|].
    + rewrite after_loop_bound. cbn zeta. intros [= _ <-]. cbn. lia.
    + rewrite after_loop_unbound. intros [= _ <-]. cbn. lia.
  - loop_step w endpoint start_time attempt error_message st.
    + intros [= _ <-]. cbn. rewrite length_app. cbn. lia.
    + intros Hrun. apply IH in Hrun. cbn in Hrun.
      destruct (caught_frame _ _ _ _ _ Hc) as (_ & _ & _ & Hlen). lia.
    + intros [= _ <-]. destruct (caught_frame _ _ _ _ _ Hc) as (_ & _ & _ & Hlen). lia.
    + intros Hrun. apply IH in Hrun.
      destruct (caught_frame _ _ _ _ _ Hc) as (_ & _ & _ & Hlen). lia.
Qed.

End UniversalFacts.

(** ** An endpoint whose method has a request *)

Section Supported.

Variable w : World.
Variable endpoint : EndpointConfig.t.
Variable start_time : float.
Variable req : request.
Hypothesis Hreq : request_of endpoint = Some req.

Import EndpointConfig.

Lemma caught_supported (st st1 : State) (e : exception) :
  caught w endpoint st e st1 ->
  st1 = log_request req st /\ transport w (List.length (requests st)) = Raises e.
Proof.
  intros [r x Hr Ht | Hr]; [|congruence].
  rewrite Hreq in Hr. injection Hr as <-. auto.
Qed.

(** A request that comes back with a response is the last one of the loop,
    and the loop returns the result of that response. *)
Lemma attempts_response (remaining : nat) :
  forall (attempt : Z) (error_message : option message) (st st' : State)
         (out : res HealthCheckResult.t) (i : nat) (status_code : Z),
    attempts w endpoint start_time remaining attempt error_message st = (out, st') ->
    (List.length (requests st) <= i < List.length (requests st'))%nat ->
    transport w i = Response status_code ->
    S i = List.length (requests st')
    /\ out = Ok (response_result endpoint status_code
                   ((time_time w (clock_reads st) - start_time) * 1000)%float
                   (datetime_now w (now_reads st))).
Proof.
  induction remaining as [|remaining IH];
    intros attempt error_message st st' out i status_code.
  - cbn [attempts]. destruct error_message as [text|].
    + rewrite after_loop_bound. cbn zeta. intros [= _ <-]. cbn. lia.
    + rewrite after_loop_unbound. intros [= _ <-]. cbn. lia.
  - loop_step w endpoint start_time attempt error_message st.
    + intros [= <- <-]. cbn. rewrite length_app. cbn. intros Hi Hresp.
      assert (i = List.length (requests st)) as -> by lia.
      rewrite Ht in Hresp. injection Hresp as ->.
      split; [lia | reflexivity].
    + destruct (caught_supported _ _ _ Hc) as [-> Ht].
      intros Hrun Hi Hresp.
      assert (i <> List.length (requests st)) by (intros ->; congruence).
      apply (IH _ _ _ _ _ i status_code) in Hrun; [exact Hrun | | exact Hresp].
      cbn. rewrite length_app. cbn. lia.
    + destruct (caught_supported _ _ _ Hc) as [-> Ht].
      intros [= _ <-]. cbn. rewrite length_app. cbn. intros Hi Hresp.
      assert (i = List.length (requests st)) as -> by lia. congruence.
    + destruct (caught_supported _ _ _ Hc) as [-> Ht].
      intros Hrun Hi Hresp.
      assert (i <> List.length (requests st)) by (intros ->; congruence).
      apply (IH _ _ _ _ _ i status_code) in Hrun; [exact Hrun | | exact Hresp].
      cbn. rewrite length_app. cbn. lia.
Qed.

(** When every request raises, the loop runs to its end: it issues one
    request for each iteration, sleeps after each but the last, and returns
    the "error" result with the message of the last exception. *)
Lemma attempts_all_fail (remaining : nat) :
  forall (attempt : Z) (error_message : option message) (st : State) (text : message),
    (0 <= attempt)%Z ->
    (attempt + Z.of_nat remaining = retry_count endpoint)%Z ->
    sleeps_accepted w st (retry_delay endpoint) (remaining - 1) ->
    (forall i, (List.length (requests st) <= i < List.length (requests st) + remaining)%nat ->
               exists x, transport w i = Raises x) ->
    (remaining = O -> error_message = Some text) ->
    (forall x, transport w (List.length (requests st) + remaining - 1) = Raises x ->
               remaining <> O -> text = handler_text endpoint x) ->
    exists st',
      attempts w endpoint start_time remaining attempt error_message st =
      (Ok (error_result endpoint
             ((time_time w (clock_reads st) - start_time) * 1000)%float
             (datetime_now w (now_reads st)) text), st')
      /\ requests st' = requests st ++ repeat req remaining
      /\ sleeps st' = sleeps st ++ repeat (retry_delay endpoint) (remaining - 1).
Proof.
  induction remaining as [|remaining IH];
    intros attempt error_message st text H0 Hsum Hsleep Hfail Hbound Hlast.
  - rewrite (Hbound eq_refl). cbn [attempts]. rewrite after_loop_bound. cbn zeta.
    eexists; split; [reflexivity|]. cbn. rewrite !app_nil_r. auto.
  - loop_step w endpoint start_time attempt error_message st.
    + exfalso. destruct (Hfail (List.length (requests st))) as [x Hx]; [lia | congruence].
    + pose proof (sleeps_accepted_step _ _ _ _ _ _ _ Hc Hsleep) as Hnext.
      destruct (caught_supported _ _ _ Hc) as [-> Ht].
      destruct remaining as [|remaining]; [lia|].
      destruct (IH (attempt + 1)%Z error_message
                   (log_sleep (retry_delay endpoint) (log_request req st)) text)
        as (st' & Hrun & Hrequests & Hsleeps).
      * lia.
      * lia.
      * exact Hnext.
      * intros i Hi. apply Hfail. cbn in Hi. rewrite length_app in Hi. cbn in Hi. lia.
      * discriminate.
      * intros x Hx _. apply (Hlast x); [|discriminate].
        cbn in Hx. rewrite length_app in Hx. cbn in Hx.
        replace (List.length (requests st) + S (S remaining) - 1)%nat
          with (List.length (requests st) + 1 + S remaining - 1)%nat by lia.
        exact Hx.
      * exists st'. split; [exact Hrun|]. rewrite Hrequests, Hsleeps. cbn.
        rewrite <- !app_assoc. cbn. rewrite Nat.sub_0_r. auto.
    + exfalso.
      rewrite (sleeps_accepted_first _ _ _ _ _ _ _ Hc Hsleep) in Hs by lia.
      discriminate.
    + destruct (caught_supported _ _ _ Hc) as [-> Ht].
      assert (remaining = O) as -> by lia.
      rewrite (Hlast e); [|rewrite <- Ht; f_equal; lia | discriminate].
      cbn [attempts]. rewrite after_loop_bound. cbn zeta.
      eexists; split; [reflexivity|]. cbn. rewrite !app_nil_r. auto.
Qed.

End Supported.

(** ** An endpoint whose method has no request *)

Section Unsupported.

Variable w : World.
Variable endpoint : EndpointConfig.t.
Variable start_time : float.
Hypothesis Hnone : request_of endpoint = None.

Import EndpointConfig.

Lemma caught_unsupported (st st1 : State) (e : exception) :
  caught w endpoint st e st1 ->
  e = UnboundLocalError "response" /\ st1 = tick_clock st.
Proof.
  intros [r x Hr Ht | Hr]; [congruence | auto].
Qed.

(** No request is issued, and a result, if there is one, is an "error". *)
Lemma attempts_unsupported_status (remaining : nat) :
  forall (attempt : Z) (error_message : option message) (st st' : State)
         (out : res HealthCheckResult.t),
    attempts w endpoint start_time remaining attempt error_message st = (out, st') ->
    requests st' = requests st
    /\ forall result, out = Ok result ->
         HealthCheckResult.status result = "error"%string
         /\ HealthCheckResult.status_code result = None.
Proof.
  induction remaining as [|remaining IH]; intros attempt error_message st st' out.
  - cbn [attempts]. destruct error_message as [text|].
    + rewrite after_loop_bound. cbn zeta. intros [= <- <-]. cbn.
      split; [reflexivity|]. intros result [= <-]. cbn. auto.
    + rewrite after_loop_unbound. intros [= <- <-]. cbn.
      split; [reflexivity | discriminate].
  - loop_step w endpoint start_time attempt error_message st.
    + congruence.
    + destruct (caught_unsupported _ _ _ Hc) as [-> ->].
      intros Hrun. apply IH in Hrun. exact Hrun.
    + destruct (caught_unsupported _ _ _ Hc) as [-> ->].
      intros [= <- <-]. cbn. split; [reflexivity | discriminate].
    + destruct (caught_unsupported _ _ _ Hc) as [-> ->].
      intros Hrun. apply IH in Hrun. exact Hrun.
Qed.

(** The loop runs to its end: every iteration reads the clock and raises on
    the unbound [response]; all but the last sleep. *)
Lemma attempts_unsupported (remaining : nat) :
  forall (attempt : Z) (error_message : option message) (st : State),
    (0 <= attempt)%Z ->
    (attempt + Z.of_nat remaining = retry_count endpoint)%Z ->
    sleeps_accepted w st (retry_delay endpoint) (remaining - 1) ->
    (remaining = O ->
     error_message = Some (msg_str (UnboundLocalError "response"))) ->
    exists st',
      attempts w endpoint start_time remaining attempt error_message st =
      (Ok (error_result endpoint
             ((time_time w (clock_reads st + remaining) - start_time) * 1000)%float
             (datetime_now w (now_reads st))
             (msg_str (UnboundLocalError "response"))), st')
      /\ requests st' = requests st
      /\ sleeps st' = sleeps st ++ repeat (retry_delay endpoint) (remaining - 1).
Proof.
  induction remaining as [|remaining IH];
    intros attempt error_message st H0 Hsum Hsleep Hbound.
  - rewrite (Hbound eq_refl). cbn [attempts]. rewrite after_loop_bound. cbn zeta.
    rewrite Nat.add_0_r.
    eexists; split; [reflexivity|]. cbn. rewrite app_nil_r. auto.
  - loop_step w endpoint start_time attempt error_message st.
    + congruence.
    + pose proof (sleeps_accepted_step _ _ _ _ _ _ _ Hc Hsleep) as Hnext.
      destruct (caught_unsupported _ _ _ Hc) as [-> ->].
      destruct remaining as [|remaining]; [lia|].
      destruct (IH (attempt + 1)%Z error_message
                   (log_sleep (retry_delay endpoint) (tick_clock st)))
        as (st' & Hrun & Hrequests & Hsleeps).
      * lia.
      * lia.
      * exact Hnext.
      * discriminate.
      * exists st'. cbn in Hrun.
        replace (clock_reads st + S (S remaining))%nat
          with (S (clock_reads st + S remaining)) by lia.
        split; [exact Hrun|]. rewrite Hrequests, Hsleeps. cbn.
        rewrite <- !app_assoc. cbn. rewrite Nat.sub_0_r. auto.
    + exfalso.
      rewrite (sleeps_accepted_first _ _ _ _ _ _ _ Hc Hsleep) in Hs by lia.
      discriminate.
    + destruct (caught_unsupported _ _ _ Hc) as [-> ->].
      assert (remaining = O) as -> by lia.
      cbn [attempts]. rewrite after_loop_bound. cbn zeta.
      replace (clock_reads st + 1)%nat with (S (clock_reads st)) by lia.
      eexists; split; [reflexivity|]. cbn. rewrite app_nil_r. auto.
Qed.

End Unsupported.

(** ** The whole check *)

Lemma check_endpoint_sync_eq (w : World) (endpoint : EndpointConfig.t) (st : State) :
  check_endpoint_sync w endpoint st =
  attempts w endpoint (time_time w (clock_reads st))
           (Z.to_nat (EndpointConfig.retry_count endpoint)) 0 None (tick_clock st).
Proof. reflexivity. Qed.

Lemma request_of_none (endpoint : EndpointConfig.t) :
  Str.upper (EndpointConfig.method endpoint) <> "GET"%string ->
  Str.upper (EndpointConfig.method endpoint) <> "POST"%string ->
  request_of endpoint = None.
Proof.
  intros Hget Hpost. unfold request_of.
  apply String.eqb_neq in Hget. apply String.eqb_neq in Hpost.
  rewrite Hget, Hpost. reflexivity.
Qed.

(** ** Case of the method *)

Lemma upper_swapcase (c : ascii) :
  Str.upper_ascii (Str.swapcase_ascii c) = Str.upper_ascii c.
Proof.
  destruct c as [[] [] [] [] [] [] [] []]; vm_compute; reflexivity.
Qed.

Lemma case_variant_upper (s s' : string) :
  Str.case_variant s s' -> Str.upper s' = Str.upper s.
Proof.
  intros Hvariant. unfold Str.upper. f_equal.
  induction Hvariant as [| c s s' _ IH | c s s' _ IH]; cbn [Str.upper_narrow].
  - reflexivity.
  - rewrite IH. reflexivity.
  - rewrite IH, upper_swapcase. reflexivity.
Qed.

Section Variant.

Variable w : World.
Variable endpoint : EndpointConfig.t.
Variable m : string.
Hypothesis Hupper : Str.upper m = Str.upper (EndpointConfig.method endpoint).

Lemma request_of_variant :
  request_of (EndpointConfig.with_method endpoint m) = request_of endpoint.
Proof.
  unfold request_of. cbn. rewrite Hupper. reflexivity.
Qed.

Lemma try_body_variant (start_time : float) (st : State) :
  try_body w (EndpointConfig.with_method endpoint m) start_time st =
  try_body w endpoint start_time st.
Proof.
  unfold try_body, bind. rewrite !send_request_eq, request_of_variant. reflexivity.
Qed.

Lemma attempts_variant (start_time : float) (remaining : nat) :
  forall (attempt : Z) (error_message : option message) (st : State),
    attempts w (EndpointConfig.with_method endpoint m) start_time remaining attempt
             error_message st =
    attempts w endpoint start_time remaining attempt error_message st.
Proof.
  induction remaining as [|remaining IH]; intros attempt error_message st.
  - reflexivity.
  - rewrite !attempts_S. unfold try_except. rewrite try_body_variant.
    destruct (try_body w endpoint start_time st) as [[[result | error_message'] | x] st'].
    + reflexivity.
    + apply IH.
    + change (handlers w (EndpointConfig.with_method endpoint m))
        with (handlers w endpoint).
      destruct (handlers w endpoint attempt error_message x st')
        as [[[result | error_message'] | y] st'']; [reflexivity | apply IH | reflexivity].
Qed.

End Variant.

(** ** Floats: a delay that exceeds the threshold is not at most the threshold *)

Lemma SFcompare_Lt_Gt (x y : SpecFloat.spec_float) :
  SpecFloat.SFcompare y x = Some Lt -> SpecFloat.SFcompare x y = Some Gt.
Proof.
  destruct x as [sx | sx | | sx mx ex], y as [sy | sy | | sy my ey]; cbn;
    try discriminate;
    try (destruct sx; (discriminate || reflexivity));
    try (destruct sy; (discriminate || reflexivity));
    try (destruct sx, sy; (discriminate || reflexivity)).
  assert (Hm : Pos.compare_cont Eq my mx = CompOpp (Pos.compare_cont Eq mx my))
    by (rewrite Pos.compare_cont_antisym; reflexivity).
  rewrite (Z.compare_antisym ex ey), Hm.
  destruct sx, sy; try (discriminate || reflexivity);
    destruct (ex ?= ey)%Z; cbn; try (discriminate || reflexivity);
    destruct (Pos.compare_cont Eq mx my); cbn; (discriminate || reflexivity).
Qed.

Lemma ltb_leb_false (x y : float) :
  (y <? x)%float = true -> (x <=? y)%float = false.
Proof.
  rewrite ltb_spec, leb_spec. unfold SpecFloat.SFltb, SpecFloat.SFleb.
  destruct (SpecFloat.SFcompare (Prim2SF y) (Prim2SF x)) as [[]|] eqn:Hc;
    try discriminate.
  intros _. rewrite (SFcompare_Lt_Gt _ _ Hc). reflexivity.
Qed.

(** ** The history buffer *)

Lemma add_to_history_list_room (max_history : Z) (history : list HealthCheckResult.t)
    (result : HealthCheckResult.t) :
  (List.length history < Z.to_nat max_history)%nat ->
  add_to_history_list max_history history result = history ++ [result].
Proof.
  intros Hlen. unfold add_to_history_list. rewrite length_app. cbn.
  replace (List.length history + 1 - Z.to_nat max_history)%nat with O by lia.
  reflexivity.
Qed.

Lemma add_to_history_list_full (max_history : Z) (history : list HealthCheckResult.t)
    (result : HealthCheckResult.t) :
  (0 < max_history)%Z ->
  List.length history = Z.to_nat max_history ->
  add_to_history_list max_history history result = tl history ++ [result].
Proof.
  intros Hpos Hlen. unfold add_to_history_list. rewrite length_app. cbn.
  replace (List.length history + 1 - Z.to_nat max_history)%nat with 1%nat by lia.
  destruct history as [|oldest history]; [cbn in Hlen; lia | reflexivity].
Qed.

Lemma add_to_history_list_length (max_history : Z) (history : list HealthCheckResult.t)
    (result : HealthCheckResult.t) :
  (0 < max_history)%Z ->
  (List.length (add_to_history_list max_history history result)
   <= Z.to_nat max_history)%nat.
Proof.
  intros Hpos. unfold add_to_history_list. rewrite length_skipn, length_app. cbn. lia.
Qed.

Lemma well_formed_spec (endpoint : EndpointConfig.t) (r : HealthCheckResult.t) :
  well_formed endpoint r = true ->
  HealthCheckResult.endpoint_name r = EndpointConfig.name endpoint
  /\ HealthCheckResult.url r = EndpointConfig.url endpoint
  /\ In (HealthCheckResult.status r) ["healthy"; "slow"; "unhealthy"; "error"]%string
  /\ (HealthCheckResult.status_code r = None
      <-> HealthCheckResult.status r = "error"%string)
  /\ (HealthCheckResult.error_message r = None
      <-> HealthCheckResult.status r = "healthy"%string).
Proof.
  unfold well_formed. rewrite !andb_true_iff.
  intros ((((Hname & Hurl) & Hstatus) & Hcode) & Hmessage).
  apply String.eqb_eq in Hname, Hurl. apply eqb_prop in Hcode, Hmessage.
  apply existsb_exists in Hstatus. destruct Hstatus as (s & Hin & Hs).
  apply String.eqb_eq in Hs. subst s.
  repeat split; try assumption.
  - intros H. rewrite H in Hcode. cbn in Hcode. symmetry in Hcode.
    apply String.eqb_eq in Hcode. exact Hcode.
  - intros H. apply String.eqb_eq in H. rewrite H in Hcode.
    destruct (HealthCheckResult.status_code r); [discriminate | reflexivity].
  - intros H. rewrite H in Hmessage. cbn in Hmessage. symmetry in Hmessage.
    apply String.eqb_eq in Hmessage. exact Hmessage.
  - intros H. apply String.eqb_eq in H. rewrite H in Hmessage.
    destruct (HealthCheckResult.error_message r); [discriminate | reflexivity].
Qed.

Lemma response_result_fields (endpoint : EndpointConfig.t) (status_code : Z)
    (response_time : float) (timestamp : datetime) :
  let result := response_result endpoint status_code response_time timestamp in
  HealthCheckResult.status_code result = Some status_code
  /\ HealthCheckResult.response_time result = response_time
  /\ (HealthCheckResult.status result, HealthCheckResult.error_message result)
     = classify endpoint status_code response_time.
Proof.
  unfold response_result.
  destruct (classify endpoint status_code response_time) as [status error_message].
  cbn. auto.
Qed.

Lemma classify_mismatch (endpoint : EndpointConfig.t) (status_code : Z)
    (response_time : float) :
  status_code <> EndpointConfig.expected_status endpoint ->
  classify endpoint status_code response_time
  = ("unhealthy"%string,
     Some (msg_status (EndpointConfig.expected_status endpoint) status_code)).
Proof.
  intros Hne. unfold classify. apply Z.eqb_neq in Hne. rewrite Hne. reflexivity.
Qed.

Lemma classify_match (endpoint : EndpointConfig.t) (response_time : float) :
  classify endpoint (EndpointConfig.expected_status endpoint) response_time
  = if (response_time <=? EndpointConfig.max_response_time endpoint * 1000)%float
    then ("healthy"%string, None)
    else ("slow"%string,
          Some (msg_slow response_time
                         (EndpointConfig.max_response_time endpoint * 1000)%float)).
Proof.
  unfold classify. rewrite Z.eqb_refl. reflexivity.
Qed.

(** ** The claims *)

(** C1, as amended.  For every endpoint with [retry_count >= 1], in a run
    where every call of [time.sleep(retry_delay)] that the check can make
    returns (there is one after each attempt but the last, so none for
    [retry_count = 1]), a check returns a well-formed result: no timeout,
    connection failure or other exception of an attempt reaches the caller.
    The check is a total function, so it terminates. *)
Theorem check_endpoint_sync_returns (w : World) (endpoint : EndpointConfig.t) (st : State) :
  (1 <= EndpointConfig.retry_count endpoint)%Z ->
  sleeps_accepted w st (EndpointConfig.retry_delay endpoint)
                  (Z.to_nat (EndpointConfig.retry_count endpoint) - 1) ->
  exists result st',
    check_endpoint_sync w endpoint st = (Ok result, st')
    /\ well_formed endpoint result = true.
Proof.
  intros Hcount Hsleep. rewrite check_endpoint_sync_eq.
  apply attempts_returns; [lia | lia | | exact Hsleep].
  intros Hzero. exfalso. lia.
Qed.

Lemma check_endpoint_sync_returns_witness :
  (1 <= EndpointConfig.retry_count health_api)%Z
  /\ sleeps_accepted always_timeout fresh_state (EndpointConfig.retry_delay health_api)
                     (Z.to_nat (EndpointConfig.retry_count health_api) - 1)
  /\ exists result st',
       check_endpoint_sync always_timeout health_api fresh_state = (Ok result, st')
       /\ well_formed health_api result = true.
Proof.
  assert (H1 : (1 <= EndpointConfig.retry_count health_api)%Z) by (cbn; lia).
  assert (H2 : sleeps_accepted always_timeout fresh_state
                 (EndpointConfig.retry_delay health_api)
                 (Z.to_nat (EndpointConfig.retry_count health_api) - 1))
    by (intros j _; vm_compute; reflexivity).
  split; [exact H1 | split; [exact H2 |]].
  exact (check_endpoint_sync_returns always_timeout health_api fresh_state H1 H2).
Defined.

(** C1, as stated, fails: with [retry_count = 2] and [retry_delay = -1.0],
    the first attempt times out, the handler calls [time.sleep(-1.0)], and
    the [ValueError] it raises reaches the caller. *)
Lemma negative_delay_raises :
  (1 <= EndpointConfig.retry_count negative_delay)%Z
  /\ fst (check_endpoint_sync always_timeout negative_delay fresh_state)
     = Raised ValueError
  /\ ~ exists result st',
         check_endpoint_sync always_timeout negative_delay fresh_state = (Ok result, st').
Proof.
  split; [cbn; lia|]. split; [vm_compute; reflexivity|].
  intros (result & st' & H).
  assert (Hfst : fst (check_endpoint_sync always_timeout negative_delay fresh_state)
                 = Ok result) by (rewrite H; reflexivity).
  vm_compute in Hfst. discriminate.
Qed.

(** C2.  An attempt that receives a response is the last attempt of the
    check: the check returns the result of that response, every attempt
    before it raised, and a response with a mismatched status code is
    "unhealthy" and is followed by no other attempt. *)
Theorem response_ends_check (w : World) (endpoint : EndpointConfig.t)
    (st st' : State) (out : res HealthCheckResult.t) (i : nat) (status_code : Z) :
  check_endpoint_sync w endpoint st = (out, st') ->
  (List.length (requests st) <= i < List.length (requests st'))%nat ->
  transport w i = Response status_code ->
  S i = List.length (requests st')
  /\ (forall j, (List.length (requests st) <= j < i)%nat ->
                exists x, transport w j = Raises x)
  /\ exists result,
       out = Ok result
       /\ HealthCheckResult.status_code result = Some status_code
       /\ (HealthCheckResult.status result, HealthCheckResult.error_message result)
          = classify endpoint status_code (HealthCheckResult.response_time result)
       /\ (status_code <> EndpointConfig.expected_status endpoint ->
           HealthCheckResult.status result = "unhealthy"%string).
Proof.
  intros Hrun Hi Hresp. rewrite check_endpoint_sync_eq in Hrun.
  destruct (request_of endpoint) as [req|] eqn:Hreq.
  - assert (Hlast : forall k code,
               (List.length (requests st) <= k < List.length (requests st'))%nat ->
               transport w k = Response code ->
               S k = List.length (requests st')
               /\ out = Ok (response_result endpoint code
                              ((time_time w (S (clock_reads st))
                                - time_time w (clock_reads st)) * 1000)%float
                              (datetime_now w (now_reads st)))).
    { intros k code Hk Hcode.
      exact (attempts_response w endpoint _ req Hreq _ _ _ _ _ _ k code Hrun Hk Hcode). }
    destruct (Hlast i status_code Hi Hresp) as [Hlen ->].
    split; [exact Hlen|]. split.
    + intros j Hj. destruct (transport w j) as [code | x] eqn:Hj'; [|eauto].
      destruct (Hlast j code) as [Hlen' _]; [lia | exact Hj' | lia].
    + eexists. split; [reflexivity|].
      destruct (response_result_fields endpoint status_code
                  ((time_time w (S (clock_reads st))
                    - time_time w (clock_reads st)) * 1000)%float
                  (datetime_now w (now_reads st))) as (Hcode & Htime & Hclass).
      split; [exact Hcode|]. rewrite Htime. split; [exact Hclass|].
      intros Hne. rewrite (classify_mismatch endpoint _ _ Hne) in Hclass.
      injection Hclass as Hstatus _. exact Hstatus.
  - exfalso. apply (attempts_unsupported_status w endpoint _ Hreq) in Hrun.
    destruct Hrun as [Hsame _]. rewrite Hsame in Hi. cbn in Hi. lia.
Qed.

Lemma response_ends_check_witness :
  response_run = (fst response_run, snd response_run)
  /\ (List.length (requests fresh_state) <= 0
      < List.length (requests (snd response_run)))%nat
  /\ transport always_503 0 = Response 503
  /\ 1%nat = List.length (requests (snd response_run))
  /\ exists result,
       fst response_run = Ok result
       /\ HealthCheckResult.status result = "unhealthy"%string.
Proof.
  assert (H1 : response_run = (fst response_run, snd response_run))
    by (vm_compute; reflexivity).
  assert (H2 : (List.length (requests fresh_state) <= 0
                < List.length (requests (snd response_run)))%nat)
    by (vm_compute; lia).
  assert (H3 : transport always_503 0 = Response 503) by reflexivity.
  split; [exact H1 | split; [exact H2 | split; [exact H3 |]]].
  destruct (response_ends_check always_503 health_api fresh_state _ _ 0%nat 503%Z H1 H2 H3)
    as (Hlen & _ & result & Hout & _ & _ & Hstatus).
  split; [exact Hlen|]. exists result. split; [exact Hout|].
  apply Hstatus. cbn. lia.
Defined.

(** C4.  A received response is classified by its status code first:
    "healthy" when the code is the expected one and the elapsed time (from
    the start of the check to the response, in milliseconds) is at most the
    threshold, "slow" with a message of elapsed time and threshold when the
    code is the expected one and the elapsed time is not at most the
    threshold, in particular when it exceeds it, and "unhealthy" with a
    message of expected and actual code, and nothing about latency, when the
    code is another. *)
Theorem response_classification (w : World) (endpoint : EndpointConfig.t)
    (st st' : State) (out : res HealthCheckResult.t) (i : nat) (status_code : Z) :
  check_endpoint_sync w endpoint st = (out, st') ->
  (List.length (requests st) <= i < List.length (requests st'))%nat ->
  transport w i = Response status_code ->
  let elapsed :=
    ((time_time w (S (clock_reads st)) - time_time w (clock_reads st)) * 1000)%float in
  let threshold := (EndpointConfig.max_response_time endpoint * 1000)%float in
  let expected := EndpointConfig.expected_status endpoint in
  exists result,
    out = Ok result
    /\ HealthCheckResult.status_code result = Some status_code
    /\ HealthCheckResult.response_time result = elapsed
    /\ (status_code = expected -> (elapsed <=? threshold)%float = true ->
        HealthCheckResult.status result = "healthy"%string
        /\ HealthCheckResult.error_message result = None)
    /\ (status_code = expected -> (elapsed <=? threshold)%float = false ->
        HealthCheckResult.status result = "slow"%string
        /\ HealthCheckResult.error_message result = Some (msg_slow elapsed threshold))
    /\ (status_code = expected -> (threshold <? elapsed)%float = true ->
        HealthCheckResult.status result = "slow"%string
        /\ HealthCheckResult.error_message result = Some (msg_slow elapsed threshold))
    /\ (status_code <> expected ->
        HealthCheckResult.status result = "unhealthy"%string
        /\ HealthCheckResult.error_message result
           = Some (msg_status expected status_code)).
Proof.
  intros Hrun Hi Hresp elapsed threshold expected.
  rewrite check_endpoint_sync_eq in Hrun.
  destruct (request_of endpoint) as [req|] eqn:Hreq.
  - destruct (attempts_response w endpoint _ req Hreq _ _ _ _ _ _ i status_code
                Hrun Hi Hresp) as [_ ->].
    eexists. split; [reflexivity|].
    destruct (response_result_fields endpoint status_code elapsed
                (datetime_now w (now_reads st))) as (Hcode & Htime & Hclass).
    fold elapsed. split; [exact Hcode|]. split; [exact Htime|].
    assert (Hslow : status_code = expected -> (elapsed <=? threshold)%float = false ->
              HealthCheckResult.status
                (response_result endpoint status_code elapsed
                                 (datetime_now w (now_reads st))) = "slow"%string
              /\ HealthCheckResult.error_message
                   (response_result endpoint status_code elapsed
                                    (datetime_now w (now_reads st)))
                 = Some (msg_slow elapsed threshold)).
    { intros -> Hle. unfold expected in Hclass. rewrite classify_match in Hclass.
      fold threshold in Hclass. rewrite Hle in Hclass.
      injection Hclass as Hstatus Hmessage. auto. }
    split; [|split; [exact Hslow | split]].
    + intros -> Hle. unfold expected in Hclass. rewrite classify_match in Hclass.
      fold threshold in Hclass. rewrite Hle in Hclass.
      injection Hclass as Hstatus Hmessage. auto.
    + intros Hexpected Hlt. apply Hslow; [exact Hexpected|].
      apply ltb_leb_false. exact Hlt.
    + intros Hne. rewrite (classify_mismatch endpoint _ _ Hne) in Hclass.
      injection Hclass as Hstatus Hmessage. auto.
  - exfalso. apply (attempts_unsupported_status w endpoint _ Hreq) in Hrun.
    destruct Hrun as [Hsame _]. rewrite Hsame in Hi. cbn in Hi. lia.
Qed.

Lemma response_classification_witness :
  healthy_run = (fst healthy_run, snd healthy_run)
  /\ (List.length (requests fresh_state) <= 0
      < List.length (requests (snd healthy_run)))%nat
  /\ transport always_200 0 = Response 200
  /\ exists result,
       fst healthy_run = Ok result
       /\ HealthCheckResult.status_code result = Some 200%Z
       /\ HealthCheckResult.response_time result = 125%float
       /\ HealthCheckResult.status result = "healthy"%string
       /\ HealthCheckResult.error_message result = None.
Proof.
  assert (H1 : healthy_run = (fst healthy_run, snd healthy_run))
    by (vm_compute; reflexivity).
  assert (H2 : (List.length (requests fresh_state) <= 0
                < List.length (requests (snd healthy_run)))%nat)
    by (vm_compute; lia).
  assert (H3 : transport always_200 0 = Response 200) by reflexivity.
  split; [exact H1 | split; [exact H2 | split; [exact H3 |]]].
  destruct (response_classification always_200 health_api fresh_state _ _ 0%nat 200%Z
              H1 H2 H3)
    as (result & Hout & Hcode & Htime & Hhealthy & _).
  exists result. split; [exact Hout|]. split; [exact Hcode|].
  split; [rewrite Htime; vm_compute; reflexivity|].
  apply Hhealthy; vm_compute; reflexivity.
Defined.

(** C7.  In every result a check returns, [error_message] is [None] exactly
    when the status is "healthy"; for "slow", "unhealthy" and "error" it is
    present, and the status is one of the four. *)
Theorem error_message_iff_not_healthy (w : World) (endpoint : EndpointConfig.t)
    (st st' : State) (result : HealthCheckResult.t) :
  check_endpoint_sync w endpoint st = (Ok result, st') ->
  (HealthCheckResult.error_message result = None
   <-> HealthCheckResult.status result = "healthy"%string)
  /\ (In (HealthCheckResult.status result) ["slow"; "unhealthy"; "error"]%string ->
      HealthCheckResult.error_message result <> None)
  /\ In (HealthCheckResult.status result) ["healthy"; "slow"; "unhealthy"; "error"]%string.
Proof.
  intros Hrun. rewrite check_endpoint_sync_eq in Hrun.
  apply attempts_well_formed in Hrun. apply well_formed_spec in Hrun.
  destruct Hrun as (_ & _ & Hstatus & _ & Hmessage).
  split; [exact Hmessage|]. split; [|exact Hstatus].
  intros Hin Hnone. apply Hmessage in Hnone. rewrite Hnone in Hin.
  cbn in Hin. repeat destruct Hin as [Hin | Hin]; try discriminate. exact Hin.
Qed.

Lemma error_message_iff_not_healthy_witness :
  exists result st',
    check_endpoint_sync always_timeout health_api fresh_state = (Ok result, st')
    /\ HealthCheckResult.status result = "error"%string
    /\ HealthCheckResult.error_message result <> None.
Proof.
  eexists. eexists.
  assert (H : check_endpoint_sync always_timeout health_api fresh_state
              = (fst timeout_run, snd timeout_run)) by (vm_compute; reflexivity).
  vm_compute in H.
  split; [exact H|]. split; [reflexivity|].
  apply (error_message_iff_not_healthy always_timeout health_api fresh_state _ _ H).
  cbn. auto.
Defined.

(** C3, as amended.  A check that returns has appended its result to the
    history, once, however many attempts it made; a check that raises has
    appended nothing.  With [max_history = 1000] the history never holds more
    than 1000 results: where it holds 1000 already, the oldest one is dropped
    for the new one. *)
Theorem history_after_check (w : World) (endpoint : EndpointConfig.t)
    (st st' : State) (out : res HealthCheckResult.t) :
  check_endpoint_sync w endpoint st = (out, st') ->
  max_history (self st) = 1000%Z ->
  (List.length (results_history (self st)) <= 1000)%nat ->
  max_history (self st') = 1000%Z
  /\ (List.length (results_history (self st')) <= 1000)%nat
  /\ results_history (self st') =
     match out with
     | Ok result =>
         (if (List.length (results_history (self st)) <? 1000)%nat
          then results_history (self st)
          else tl (results_history (self st))) ++ [result]
     | Raised _ => results_history (self st)
     end.
Proof.
  intros Hrun Hmax Hlen. rewrite check_endpoint_sync_eq in Hrun.
  apply attempts_history in Hrun. cbn in Hrun.
  destruct Hrun as (_ & Hmax' & Hhistory).
  rewrite Hmax in Hmax', Hhistory.
  split; [exact Hmax'|].
  destruct out as [result | x].
  - destruct (Nat.ltb_spec (List.length (results_history (self st))) 1000) as [Hlt | Hge].
    + rewrite add_to_history_list_room in Hhistory by (cbn; lia).
      rewrite Hhistory. split; [|reflexivity].
      rewrite length_app. cbn. lia.
    + rewrite add_to_history_list_full in Hhistory by (cbn; lia).
      rewrite Hhistory. split; [|reflexivity].
      rewrite length_app. cbn.
      destruct (results_history (self st)); cbn in *; lia.
  - rewrite Hhistory. auto.
Qed.

Lemma history_after_check_witness :
  timeout_run = (fst timeout_run, snd timeout_run)
  /\ max_history (self fresh_state) = 1000%Z
  /\ (List.length (results_history (self fresh_state)) <= 1000)%nat
  /\ exists result,
       fst timeout_run = Ok result
       /\ results_history (self (snd timeout_run)) = [result].
Proof.
  assert (H1 : timeout_run = (fst timeout_run, snd timeout_run))
    by (vm_compute; reflexivity).
  assert (H2 : max_history (self fresh_state) = 1000%Z) by reflexivity.
  assert (H3 : (List.length (results_history (self fresh_state)) <= 1000)%nat)
    by (cbn; lia).
  split; [exact H1 | split; [exact H2 | split; [exact H3 |]]].
  destruct (history_after_check always_timeout health_api fresh_state _ _ H1 H2 H3)
    as (_ & _ & Hhistory).
  destruct (fst timeout_run) as [result | x] eqn:Hout; [|vm_compute in Hout; discriminate].
  exists result. split; [reflexivity | exact Hhistory].
Defined.

(** C3, as stated, fails: the check of [negative_delay] raises after its
    first attempt, and the history is as it was: nothing was appended. *)
Lemma raising_check_appends_nothing :
  fst (check_endpoint_sync always_timeout negative_delay fresh_state) = Raised ValueError
  /\ results_history (self (snd (check_endpoint_sync always_timeout negative_delay
                                                      fresh_state)))
     = results_history (self fresh_state).
Proof.
  split; vm_compute; reflexivity.
Qed.

(** C5, as amended.  A check never issues more requests than [retry_count].
    For an endpoint with [retry_count = n >= 1], in a run where every
    request raises and every call of [time.sleep(retry_delay)] returns, the
    check makes [n] attempts and sleeps [retry_delay] exactly [n - 1] times
    (not at all for [n = 1]), and its result has status "error", no status
    code, and the message of the last attempt: with a method that has a
    request, each attempt issues it, [n] requests in all, and the message
    is that of the exception of the last one; with another method no request
    is issued, and the message is that of the unbound [response]. *)
Theorem all_attempts_fail (w : World) (endpoint : EndpointConfig.t)
    (st st' : State) (out : res HealthCheckResult.t) :
  check_endpoint_sync w endpoint st = (out, st') ->
  let n := Z.to_nat (EndpointConfig.retry_count endpoint) in
  (List.length (requests st') <= List.length (requests st) + n)%nat
  /\ ((1 <= EndpointConfig.retry_count endpoint)%Z ->
      (forall i, (List.length (requests st) <= i < List.length (requests st) + n)%nat ->
                 exists x, transport w i = Raises x) ->
      sleeps_accepted w st (EndpointConfig.retry_delay endpoint) (n - 1) ->
      sleeps st' = sleeps st ++ repeat (EndpointConfig.retry_delay endpoint) (n - 1)
      /\ exists result text,
           out = Ok result
           /\ HealthCheckResult.status result = "error"%string
           /\ HealthCheckResult.status_code result = None
           /\ HealthCheckResult.error_message result = Some text
           /\ match request_of endpoint with
              | Some req =>
                  requests st' = requests st ++ repeat req n
                  /\ exists x,
                       transport w (List.length (requests st) + n - 1) = Raises x
                       /\ text = handler_text endpoint x
              | None =>
                  requests st' = requests st
                  /\ text = msg_str (UnboundLocalError "response")
              end).
Proof.
  intros Hrun n. rewrite check_endpoint_sync_eq in Hrun. fold n in Hrun.
  split.
  - apply attempts_requests_bound in Hrun. exact Hrun.
  - intros Hcount Hfail Hsleep.
    destruct (request_of endpoint) as [req|] eqn:Hreq.
    + destruct (Hfail (List.length (requests st) + n - 1)%nat) as [x Hx]; [lia|].
      destruct (attempts_all_fail w endpoint (time_time w (clock_reads st)) req Hreq
                  n 0%Z None (tick_clock st) (handler_text endpoint x))
        as (st1 & Hrun1 & Hrequests & Hsleeps).
      * lia.
      * unfold n. lia.
      * exact Hsleep.
      * exact Hfail.
      * intros Hzero. exfalso. lia.
      * intros y Hy _. cbn in Hy. rewrite Hx in Hy. injection Hy as <-. reflexivity.
      * rewrite Hrun1 in Hrun. injection Hrun as <- <-.
        split; [exact Hsleeps|].
        eexists. exists (handler_text endpoint x). split; [reflexivity|]. cbn.
        repeat split; auto. exists x. auto.
    + destruct (attempts_unsupported w endpoint (time_time w (clock_reads st)) Hreq
                  n 0%Z None (tick_clock st)) as (st1 & Hrun1 & Hrequests & Hsleeps).
      * lia.
      * unfold n. lia.
      * exact Hsleep.
      * intros Hzero. exfalso. lia.
      * rewrite Hrun1 in Hrun. injection Hrun as <- <-.
        split; [exact Hsleeps|].
        eexists. eexists. split; [reflexivity|]. cbn. auto.
Qed.

Lemma all_attempts_fail_witness :
  timeout_run = (fst timeout_run, snd timeout_run)
  /\ List.length (requests (snd timeout_run)) = 3%nat
  /\ sleeps (snd timeout_run) = [1%float; 1%float]
  /\ exists result,
       fst timeout_run = Ok result
       /\ HealthCheckResult.status result = "error"%string
       /\ HealthCheckResult.status_code result = None
       /\ HealthCheckResult.error_message result = Some (msg_timeout 10%float).
Proof.
  assert (H1 : timeout_run = (fst timeout_run, snd timeout_run))
    by (vm_compute; reflexivity).
  split; [exact H1|].
  destruct (all_attempts_fail always_timeout health_api fresh_state _ _ H1) as [_ Hall].
  destruct Hall
    as (Hsleeps & result & text & Hout & Hstatus & Hcode & Hmessage & Hmethod).
  - cbn. lia.
  - intros i _. exists requests_Timeout. reflexivity.
  - intros j _. vm_compute. reflexivity.
  - assert (Hreq : request_of health_api
                   = Some {| req_verb := GET;
                             req_url := "https://api.example.com/health";
                             req_headers := None;
                             req_json := None;
                             req_timeout := 10%float |}) by reflexivity.
    rewrite Hreq in Hmethod. destruct Hmethod as (Hrequests & x & Hx & ->).
    split; [rewrite Hrequests; reflexivity|].
    split; [rewrite Hsleeps; reflexivity|].
    exists result. split; [exact Hout|]. split; [exact Hstatus|].
    split; [exact Hcode|]. rewrite Hmessage.
    cbn in Hx. injection Hx as <-. reflexivity.
Defined.

(** C5, as stated, fails: with [retry_count = 3], [retry_delay = -1.0] and
    every attempt timing out, the check issues one request, sleeps never,
    and raises [ValueError] in place of returning the "error" result. *)
Lemma negative_delay_stops_retries :
  (1 <= EndpointConfig.retry_count three_negative_delay)%Z
  /\ (forall i, transport always_timeout i = Raises requests_Timeout)
  /\ fst (check_endpoint_sync always_timeout three_negative_delay fresh_state)
     = Raised ValueError
  /\ List.length (requests (snd (check_endpoint_sync always_timeout three_negative_delay
                                                     fresh_state))) = 1%nat
  /\ sleeps (snd (check_endpoint_sync always_timeout three_negative_delay fresh_state))
     = [].
Proof.
  split; [cbn; lia|]. split; [reflexivity|].
  repeat split; vm_compute; reflexivity.
Qed.

(** C8, as amended.  For an endpoint whose method, uppercased, is neither
    "GET" nor "POST", a check issues no request, and a result it returns is
    an "error" with no status code: never "healthy", "slow" or "unhealthy".
    With [retry_count = n >= 1], in a run where every call of
    [time.sleep(retry_delay)] returns, the check sleeps [n - 1] times and
    returns the "error" result whose message is the text of the
    [UnboundLocalError] of the unbound [response]. *)
Theorem unsupported_method_is_error (w : World) (endpoint : EndpointConfig.t)
    (st st' : State) (out : res HealthCheckResult.t) :
  Str.upper (EndpointConfig.method endpoint) <> "GET"%string ->
  Str.upper (EndpointConfig.method endpoint) <> "POST"%string ->
  check_endpoint_sync w endpoint st = (out, st') ->
  let n := Z.to_nat (EndpointConfig.retry_count endpoint) in
  requests st' = requests st
  /\ (forall result, out = Ok result ->
        HealthCheckResult.status result = "error"%string
        /\ HealthCheckResult.status_code result = None)
  /\ ((1 <= EndpointConfig.retry_count endpoint)%Z ->
      sleeps_accepted w st (EndpointConfig.retry_delay endpoint) (n - 1) ->
      sleeps st' = sleeps st ++ repeat (EndpointConfig.retry_delay endpoint) (n - 1)
      /\ exists result,
           out = Ok result
           /\ HealthCheckResult.status result = "error"%string
           /\ HealthCheckResult.status_code result = None
           /\ HealthCheckResult.error_message result
              = Some (msg_str (UnboundLocalError "response"))).
Proof.
  intros Hget Hpost Hrun n. rewrite check_endpoint_sync_eq in Hrun. fold n in Hrun.
  pose proof (request_of_none endpoint Hget Hpost) as Hnone.
  destruct (attempts_unsupported_status w endpoint _ Hnone _ _ _ _ _ _ Hrun)
    as [Hrequests Hstatus].
  split; [exact Hrequests|]. split; [exact Hstatus|].
  intros Hcount Hsleep.
  destruct (attempts_unsupported w endpoint (time_time w (clock_reads st)) Hnone
              n 0%Z None (tick_clock st)) as (st1 & Hrun1 & _ & Hsleeps).
  - lia.
  - unfold n. lia.
  - exact Hsleep.
  - intros Hzero. exfalso. lia.
  - rewrite Hrun1 in Hrun. injection Hrun as <- <-.
    split; [exact Hsleeps|]. eexists. split; [reflexivity|]. cbn. auto.
Qed.

Lemma unsupported_method_is_error_witness :
  Str.upper (EndpointConfig.method put_api) <> "GET"%string
  /\ Str.upper (EndpointConfig.method put_api) <> "POST"%string
  /\ put_run = (fst put_run, snd put_run)
  /\ requests (snd put_run) = []
  /\ sleeps (snd put_run) = [1%float; 1%float]
  /\ exists result,
       fst put_run = Ok result
       /\ HealthCheckResult.status result = "error"%string
       /\ HealthCheckResult.error_message result
          = Some (msg_str (UnboundLocalError "response")).
Proof.
  assert (H1 : Str.upper (EndpointConfig.method put_api) <> "GET"%string)
    by (vm_compute; discriminate).
  assert (H2 : Str.upper (EndpointConfig.method put_api) <> "POST"%string)
    by (vm_compute; discriminate).
  assert (H3 : put_run = (fst put_run, snd put_run)) by (vm_compute; reflexivity).
  split; [exact H1 | split; [exact H2 | split; [exact H3 |]]].
  destruct (unsupported_method_is_error always_timeout put_api fresh_state _ _ H1 H2 H3)
    as (Hrequests & _ & Hfull).
  destruct Hfull as (Hsleeps & result & Hout & Hstatus & _ & Hmessage).
  - cbn. lia.
  - intros j _. vm_compute. reflexivity.
  - split; [exact Hrequests|]. split; [rewrite Hsleeps; reflexivity|].
    exists result. auto.
Defined.

(** C8, as stated, fails: with no attempt to make ([retry_count = 0]) the
    check ends on the read of the unbound [error_message], and with a
    negative [retry_delay] on the [ValueError] of [time.sleep]; neither
    returns the "error" result. *)
Lemma unsupported_method_raises :
  Str.upper (EndpointConfig.method put_no_attempts) <> "GET"%string
  /\ Str.upper (EndpointConfig.method put_no_attempts) <> "POST"%string
  /\ fst (check_endpoint_sync always_timeout put_no_attempts fresh_state)
     = Raised (UnboundLocalError "error_message")
  /\ Str.upper (EndpointConfig.method put_negative_delay) <> "GET"%string
  /\ Str.upper (EndpointConfig.method put_negative_delay) <> "POST"%string
  /\ fst (check_endpoint_sync always_timeout put_negative_delay fresh_state)
     = Raised ValueError.
Proof.
  repeat split; vm_compute; (discriminate || reflexivity).
Qed.

(** C6.  [recentResults] leaves the state as it is and returns the most
    recent [limit] results of the history, all of them when there are fewer
    or when no limit is given, in the order of the buffer (newest last): what
    it returns is the end of the history, and is no longer than it. *)
Theorem recentResults_spec (limit : option nat) (st : State) :
  exists recent older,
    recentResults limit st = (Ok recent, st)
    /\ results_history (self st) = older ++ recent
    /\ List.length recent =
       match limit with
       | None => List.length (results_history (self st))
       | Some n => Nat.min n (List.length (results_history (self st)))
       end
    /\ (List.length recent <= List.length (results_history (self st)))%nat.
Proof.
  destruct limit as [n|]; cbn.
  - exists (skipn (List.length (results_history (self st)) - n) (results_history (self st))).
    exists (firstn (List.length (results_history (self st)) - n) (results_history (self st))).
    split; [reflexivity|]. split; [symmetry; apply firstn_skipn|].
    rewrite length_skipn. lia.
  - exists (results_history (self st)). exists []. auto.
Qed.

(** C9.  [EndpointConfig(name, url)] has method "GET", no headers, no
    payload, expected status 200, a maximal response time of 5.0 s, a timeout
    of 10.0 s, 3 attempts and a delay of 1.0 s; a new [APIMonitor] has an
    empty history and [max_history = 1000]. *)
Theorem defaults (name url : string) (endpoints : list EndpointConfig.t) :
  EndpointConfig.make name url =
  {| EndpointConfig.name := name;
     EndpointConfig.url := url;
     EndpointConfig.method := "GET";
     EndpointConfig.headers := None;
     EndpointConfig.payload := None;
     EndpointConfig.expected_status := 200;
     EndpointConfig.max_response_time := 5.0;
     EndpointConfig.timeout := 10.0;
     EndpointConfig.retry_count := 3;
     EndpointConfig.retry_delay := 1.0 |}
  /\ results_history (APIMonitor_init endpoints) = []
  /\ max_history (APIMonitor_init endpoints) = 1000%Z.
Proof.
  repeat split.
Qed.

(** C10.  The check of an endpoint and the check of the same endpoint with
    a case variant of its method do the same, in every world and every
    state: same result, same requests, same sleeps, same history. *)
Theorem method_case_invariant (w : World) (endpoint : EndpointConfig.t)
    (m : string) (st : State) :
  Str.case_variant (EndpointConfig.method endpoint) m ->
  check_endpoint_sync w (EndpointConfig.with_method endpoint m) st =
  check_endpoint_sync w endpoint st.
Proof.
  intros Hvariant. rewrite !check_endpoint_sync_eq.
  apply attempts_variant. apply case_variant_upper. exact Hvariant.
Qed.

Lemma method_case_invariant_witness :
  Str.case_variant (EndpointConfig.method health_api) "Get"
  /\ check_endpoint_sync always_200 (EndpointConfig.with_method health_api "Get")
                         fresh_state
     = check_endpoint_sync always_200 health_api fresh_state.
Proof.
  assert (H : Str.case_variant (EndpointConfig.method health_api) "Get")
    by exact (Str.cv_keep "G" _ _ (Str.cv_swap "E" _ _ (Str.cv_swap "T" _ _ Str.cv_nil))).
  split; [exact H|].
  exact (method_case_invariant always_200 health_api "Get" fresh_state H).
Defined.

(** ** More about [check_endpoint_sync] *)

(** The delays at the end of the range of [time.sleep]: a count of 2^63 ns
    is a [ValueError], a larger one an [OverflowError], and the largest count
    below 2^63 ns is handed to the system. *)
Lemma sleep_refuses_bounds :
  sleep_refuses 0x1.12e0be826d695p+33 = Some ValueError
  /\ sleep_refuses 9223372037 = Some OverflowError
  /\ sleep_refuses 0x1.12e0be826d694p+33 = None
  /\ sleep_refuses (-0x1p-1074) = Some ValueError
  /\ sleep_refuses (-0) = None.
Proof.
  repeat split; vm_compute; reflexivity.
Qed.

(** A delay that [time.sleep] converts and the system refuses ends the
    check like one that [time.sleep] refuses by itself: after one request,
    with the exception of the call. *)
Lemma system_refusal_raises :
  sleep_refuses (EndpointConfig.retry_delay far_delay) = None
  /\ fst (check_endpoint_sync refusing_system far_delay fresh_state)
     = Raised (OSError 22)
  /\ List.length (requests (snd (check_endpoint_sync refusing_system far_delay
                                                     fresh_state))) = 1%nat.
Proof.
  repeat split; vm_compute; reflexivity.
Qed.

(** [upper] is that of Unicode: "post" with a long s is a POST. *)
Lemma long_s_is_post :
  Str.upper long_s_post = "POST"%string
  /\ exists req,
       request_of (EndpointConfig.with_method health_api long_s_post) = Some req
       /\ req_verb req = POST.
Proof.
  split; [vm_compute; reflexivity|].
  eexists. split; [vm_compute; reflexivity | reflexivity].
Qed.

Lemma response_result_timestamp (endpoint : EndpointConfig.t) (status_code : Z)
    (response_time : float) (timestamp : datetime) :
  HealthCheckResult.timestamp
    (response_result endpoint status_code response_time timestamp) = timestamp.
Proof.
  unfold response_result.
  destruct (classify endpoint status_code response_time). reflexivity.
Qed.

Section MoreLoopFacts.

Variable w : World.
Variable endpoint : EndpointConfig.t.
Variable start_time : float.

Import EndpointConfig.

(** The loop raises on the unbound [error_message], when it has nothing to
    run, or what a call of [time.sleep] raises: the call after attempt
    [k + 1], when none of these attempts got a response, the [k] calls before
    it returned, and an attempt is left to make. *)
Lemma attempts_raises_iff (remaining : nat) :
  forall (attempt : Z) (error_message : option message) (st : State) (err : exception),
    (0 <= attempt)%Z ->
    (attempt + Z.of_nat remaining = retry_count endpoint)%Z ->
    (exists st',
        attempts w endpoint start_time remaining attempt error_message st
        = (Raised err, st'))
    <-> (remaining = O /\ error_message = None
         /\ err = UnboundLocalError "error_message")
        \/ exists k,
             (k + 2 <= remaining)%nat
             /\ (forall req j, request_of endpoint = Some req -> (j <= k)%nat ->
                   exists x, transport w (List.length (requests st) + j) = Raises x)
             /\ sleeps_accepted w st (retry_delay endpoint) k
             /\ sleep_raises w (List.length (sleeps st) + k) (retry_delay endpoint)
                = Some err.
Proof.
  induction remaining as [|remaining IH]; intros attempt error_message st err H0 Hsum.
  - cbn [attempts]. destruct error_message as [text|].
    + rewrite after_loop_bound. cbn zeta. split.
      * intros (st' & Hrun). discriminate.
      * intros [(_ & Hnone & _) | (k & Hk & _)]; [discriminate | lia].
    + rewrite after_loop_unbound. split.
      * intros (st' & [= <- _]). left. auto.
      * intros [(_ & _ & ->) | (k & Hk & _)]; [eauto | lia].
  - split.
    + intros (st' & Hrun). right. revert Hrun.
      loop_step w endpoint start_time attempt error_message st.
      * discriminate.
      * intros Hrun.
        destruct (caught_frame _ _ _ _ _ Hc) as (_ & Hsleeps & _).
        assert (Hraised : exists st'',
                   attempts w endpoint start_time remaining (attempt + 1) error_message
                            (log_sleep (retry_delay endpoint) st1) = (Raised err, st''))
          by eauto.
        apply IH in Hraised; [|lia|lia].
        destruct Hraised as [(Hzero & _) | (k & Hk & Hfail & Haccepted & Hrefused)];
          [lia|].
        cbn in Hfail, Hrefused. rewrite length_app, Hsleeps in Hrefused.
        cbn in Hrefused.
        exists (S k). split; [lia|]. split; [|split].
        -- intros req j Hreq Hj.
           destruct (caught_supported w endpoint req Hreq _ _ _ Hc) as [Hst1 Ht].
           destruct j as [|j]; [exists e; rewrite Nat.add_0_r; exact Ht|].
           destruct (Hfail req j Hreq) as [y Hy]; [lia|]. exists y.
           rewrite <- Hy, Hst1. cbn. rewrite length_app. cbn. f_equal. lia.
        -- intros j Hj. destruct j as [|j].
           ++ rewrite Nat.add_0_r, <- Hsleeps. exact Hs.
           ++ specialize (Haccepted j). cbn in Haccepted.
              rewrite length_app, Hsleeps in Haccepted. cbn in Haccepted.
              rewrite <- Haccepted by lia. f_equal. lia.
        -- rewrite <- Hrefused. f_equal. lia.
      * intros [= <- _].
        destruct (caught_frame _ _ _ _ _ Hc) as (_ & Hsleeps & _).
        exists O. split; [lia|]. split; [|split].
        -- intros req j Hreq Hj.
           destruct (caught_supported w endpoint req Hreq _ _ _ Hc) as [_ Ht].
           assert (j = O) as -> by lia. exists e. rewrite Nat.add_0_r. exact Ht.
        -- intros j Hj. lia.
        -- rewrite Nat.add_0_r, <- Hsleeps. exact Hs.
      * assert (remaining = O) as -> by lia.
        cbn [attempts]. rewrite after_loop_bound. discriminate.
    + intros [(Hzero & _) | (k & Hk & Hfail & Haccepted & Hrefused)]; [discriminate|].
      loop_step w endpoint start_time attempt error_message st.
      * exfalso. destruct (Hfail r O Hr) as [y Hy]; [lia|].
        rewrite Nat.add_0_r in Hy. congruence.
      * destruct (caught_frame _ _ _ _ _ Hc) as (_ & Hsleeps & _).
        destruct k as [|k].
        -- exfalso. rewrite Nat.add_0_r, <- Hsleeps in Hrefused. congruence.
        -- apply IH; [lia | lia |]. right. exists k.
           split; [lia|]. split; [|split].
           ++ intros req j Hreq Hj.
              destruct (caught_supported w endpoint req Hreq _ _ _ Hc) as [Hst1 _].
              destruct (Hfail req (S j) Hreq) as [y Hy]; [lia|]. exists y.
              rewrite <- Hy, Hst1. cbn. rewrite length_app. cbn. f_equal. lia.
           ++ replace k with (S k - 1)%nat by lia.
              exact (sleeps_accepted_step _ _ _ _ _ _ _ Hc Haccepted).
           ++ rewrite <- Hrefused. cbn. rewrite length_app, Hsleeps. cbn.
              f_equal. lia.
      * destruct (caught_frame _ _ _ _ _ Hc) as (_ & Hsleeps & _).
        destruct k as [|k].
        -- rewrite Nat.add_0_r, <- Hsleeps in Hrefused.
           rewrite Hrefused in Hs. injection Hs as <-. eauto.
        -- exfalso.
           rewrite (sleeps_accepted_first _ _ _ _ _ _ _ Hc Haccepted) in Hs by lia.
           discriminate.
      * lia.
Qed.

End MoreLoopFacts.

Section MoreSupported.

Variable w : World.
Variable endpoint : EndpointConfig.t.
Variable start_time : float.
Variable req : request.
Hypothesis Hreq : request_of endpoint = Some req.

Import EndpointConfig.

(** The requests of the loop are copies of the endpoint's request, and the
    loop sleeps between two requests only: one delay less than requests. *)
Lemma attempts_trace (remaining : nat) :
  forall (attempt : Z) (error_message : option message) (st st' : State)
         (out : res HealthCheckResult.t),
    (0 <= attempt)%Z ->
    (attempt + Z.of_nat remaining = retry_count endpoint)%Z ->
    attempts w endpoint start_time remaining attempt error_message st = (out, st') ->
    exists k,
      (k <= remaining)%nat /\ (remaining <> O -> k <> O)
      /\ requests st' = requests st ++ repeat req k
      /\ sleeps st' = sleeps st ++ repeat (retry_delay endpoint) (k - 1).
Proof.
  induction remaining as [|remaining IH]; intros attempt error_message st st' out H0 Hsum.
  - cbn [attempts]. intros Hrun. exists O.
    destruct error_message as [text|].
    + rewrite after_loop_bound in Hrun. cbn zeta in Hrun. injection Hrun as _ <-.
      cbn. rewrite !app_nil_r. repeat split; auto.
    + rewrite after_loop_unbound in Hrun. injection Hrun as _ <-.
      cbn. rewrite !app_nil_r. repeat split; auto.
  - loop_step w endpoint start_time attempt error_message st.
    + intros [= _ <-]. exists 1%nat. cbn.
      rewrite Hreq in Hr. injection Hr as <-. rewrite app_nil_r.
      repeat split; auto; lia.
    + destruct (caught_supported w endpoint req Hreq _ _ _ Hc) as [-> Ht].
      intros Hrun. apply IH in Hrun; [|lia|lia].
      destruct Hrun as (k & Hk & Hpos & Hrequests & Hsleeps).
      assert (k <> O) by (apply Hpos; lia).
      exists (S k). cbn in Hrequests, Hsleeps.
      rewrite Hrequests, Hsleeps, <- !app_assoc. cbn.
      rewrite Nat.sub_0_r.
      destruct k as [|k]; [contradiction|]. cbn. rewrite Nat.sub_0_r.
      repeat split; auto; lia.
    + destruct (caught_supported w endpoint req Hreq _ _ _ Hc) as [-> Ht].
      intros [= _ <-]. exists 1%nat. cbn. rewrite app_nil_r.
      repeat split; auto; lia.
    + destruct (caught_supported w endpoint req Hreq _ _ _ Hc) as [-> Ht].
      assert (remaining = O) as -> by lia.
      intros Hrun. apply IH in Hrun; [|lia|lia].
      destruct Hrun as (k & Hk & _ & Hrequests & Hsleeps).
      assert (k = O) as -> by lia. exists 1%nat.
      cbn in Hrequests, Hsleeps. rewrite Hrequests, Hsleeps, <- !app_assoc. cbn.
      rewrite !app_nil_r. repeat split; auto; lia.
Qed.

(** When the loop returns, the clock has been read once since the loop
    began and [datetime.now()] once, and the result has the time from the
    start of the check to that reading. *)
Lemma attempts_clock (remaining : nat) :
  forall (attempt : Z) (error_message : option message) (st st' : State)
         (result : HealthCheckResult.t),
    attempts w endpoint start_time remaining attempt error_message st = (Ok result, st') ->
    HealthCheckResult.response_time result
    = ((time_time w (clock_reads st) - start_time) * 1000)%float
    /\ HealthCheckResult.timestamp result = datetime_now w (now_reads st)
    /\ clock_reads st' = S (clock_reads st)
    /\ now_reads st' = S (now_reads st).
Proof.
  induction remaining as [|remaining IH]; intros attempt error_message st st' result.
  - cbn [attempts]. destruct error_message as [text|].
    + rewrite after_loop_bound. cbn zeta. intros [= <- <-]. cbn. auto.
    + rewrite after_loop_unbound. discriminate.
  - loop_step w endpoint start_time attempt error_message st.
    + intros [= <- <-]. subst result0.
      split; [apply response_result_fields|].
      split; [apply response_result_timestamp | cbn; auto].
    + destruct (caught_supported w endpoint req Hreq _ _ _ Hc) as [-> Ht].
      intros Hrun. apply IH in Hrun. exact Hrun.
    + discriminate.
    + destruct (caught_supported w endpoint req Hreq _ _ _ Hc) as [-> Ht].
      intros Hrun. apply IH in Hrun. exact Hrun.
Qed.

(** After [k] requests that raise, with attempts left, a response ends the
    loop with its result. *)
Lemma attempts_retry_response (k : nat) :
  forall (remaining : nat) (attempt : Z) (error_message : option message) (st : State)
         (status_code : Z),
    (0 <= attempt)%Z ->
    (attempt + Z.of_nat (S remaining) = retry_count endpoint)%Z ->
    (k <= remaining)%nat ->
    sleeps_accepted w st (retry_delay endpoint) k ->
    (forall j, (j < k)%nat ->
               exists x, transport w (List.length (requests st) + j) = Raises x) ->
    transport w (List.length (requests st) + k) = Response status_code ->
    exists st',
      attempts w endpoint start_time (S remaining) attempt error_message st
      = (Ok (response_result endpoint status_code
               ((time_time w (clock_reads st) - start_time) * 1000)%float
               (datetime_now w (now_reads st))), st')
      /\ requests st' = requests st ++ repeat req (S k)
      /\ sleeps st' = sleeps st ++ repeat (retry_delay endpoint) k.
Proof.
  induction k as [|k IH];
    intros remaining attempt error_message st status_code H0 Hsum Hk Hsleep Hfail Hresp.
  - rewrite Nat.add_0_r in Hresp.
    loop_step w endpoint start_time attempt error_message st.
    + rewrite Hreq in Hr. injection Hr as <-.
      rewrite Ht in Hresp. injection Hresp as ->.
      eexists. split; [reflexivity|]. cbn. rewrite app_nil_r. auto.
    + destruct (caught_supported w endpoint req Hreq _ _ _ Hc) as [_ Ht]. congruence.
    + destruct (caught_supported w endpoint req Hreq _ _ _ Hc) as [_ Ht]. congruence.
    + destruct (caught_supported w endpoint req Hreq _ _ _ Hc) as [_ Ht]. congruence.
  - destruct remaining as [|remaining]; [lia|].
    loop_step w endpoint start_time attempt error_message st.
    + destruct (Hfail O) as [x Hx]; [lia|]. rewrite Nat.add_0_r in Hx. congruence.
    + pose proof (sleeps_accepted_step _ _ _ _ _ _ _ Hc Hsleep) as Hnext.
      replace (S k - 1)%nat with k in Hnext by lia.
      destruct (caught_supported w endpoint req Hreq _ _ _ Hc) as [-> Ht].
      destruct (IH remaining (attempt + 1)%Z error_message
                   (log_sleep (retry_delay endpoint) (log_request req st)) status_code)
        as (st' & Hrun & Hrequests & Hsleeps).
      * lia.
      * lia.
      * lia.
      * exact Hnext.
      * intros j Hj. cbn. rewrite length_app. cbn.
        destruct (Hfail (S j)) as [x Hx]; [lia|]. exists x.
        rewrite <- Hx. f_equal. lia.
      * cbn. rewrite length_app. cbn. rewrite <- Hresp. f_equal. lia.
      * exists st'. cbn in Hrun. split; [exact Hrun|].
        rewrite Hrequests, Hsleeps. cbn. rewrite <- !app_assoc. cbn. auto.
    + exfalso.
      rewrite (sleeps_accepted_first _ _ _ _ _ _ _ Hc Hsleep) in Hs by lia.
      discriminate.
    + lia.
Qed.

End MoreSupported.

(** ** Further properties of [check_endpoint_sync] *)

(** X1.  A check raises in two cases only.  With no attempt to make
    ([retry_count <= 0]) it raises [UnboundLocalError] on [error_message].
    Otherwise it raises what a call of [time.sleep(retry_delay)] raises, and
    exactly when one does: the call after attempt [k + 1], where none of these
    attempts got a response, the [k] calls before it returned, and an attempt
    is left to make ([k + 2 <= retry_count]).  In every other case the check
    returns a result. *)
Theorem check_raises_iff (w : World) (endpoint : EndpointConfig.t) (st : State)
    (err : exception) :
  (exists st', check_endpoint_sync w endpoint st = (Raised err, st'))
  <-> ((EndpointConfig.retry_count endpoint <= 0)%Z
       /\ err = UnboundLocalError "error_message")
      \/ exists k,
           (Z.of_nat k + 2 <= EndpointConfig.retry_count endpoint)%Z
           /\ (forall req j, request_of endpoint = Some req -> (j <= k)%nat ->
                 exists x, transport w (List.length (requests st) + j) = Raises x)
           /\ sleeps_accepted w st (EndpointConfig.retry_delay endpoint) k
           /\ sleep_raises w (List.length (sleeps st) + k)
                           (EndpointConfig.retry_delay endpoint) = Some err.
Proof.
  rewrite check_endpoint_sync_eq.
  destruct (Z.le_gt_cases (EndpointConfig.retry_count endpoint) 0) as [Hle | Hgt].
  - replace (Z.to_nat (EndpointConfig.retry_count endpoint)) with O by lia.
    cbn [attempts]. rewrite after_loop_unbound. split.
    + intros (st' & [= <- _]). left. split; [exact Hle | reflexivity].
    + intros [(_ & ->) | (k & Hk & _)]; [eauto | lia].
  - rewrite (attempts_raises_iff w endpoint (time_time w (clock_reads st))
               (Z.to_nat (EndpointConfig.retry_count endpoint)) 0%Z None
               (tick_clock st) err) by lia.
    split.
    + intros [(Hzero & _) | (k & Hk & Hrest)]; [lia|].
      right. exists k. split; [lia | exact Hrest].
    + intros [(Hcount & _) | (k & Hk & Hrest)]; [lia|].
      right. exists k. split; [lia | exact Hrest].
Qed.

(** X2.  The requests of a check are copies of one request, at most
    [retry_count] of them: a GET of the endpoint's address with its headers
    and timeout and no payload, or a POST with the payload as JSON.  The
    check sleeps [retry_delay], always the same, between two requests and
    never after the last one. *)
Theorem requests_and_sleeps (w : World) (endpoint : EndpointConfig.t)
    (st st' : State) (out : res HealthCheckResult.t) :
  Str.upper (EndpointConfig.method endpoint) = "GET"%string
  \/ Str.upper (EndpointConfig.method endpoint) = "POST"%string ->
  check_endpoint_sync w endpoint st = (out, st') ->
  exists k req,
    (k <= Z.to_nat (EndpointConfig.retry_count endpoint))%nat
    /\ requests st' = requests st ++ repeat req k
    /\ sleeps st' = sleeps st ++ repeat (EndpointConfig.retry_delay endpoint) (k - 1)
    /\ req_url req = EndpointConfig.url endpoint
    /\ req_headers req = EndpointConfig.headers endpoint
    /\ req_timeout req = EndpointConfig.timeout endpoint
    /\ (if String.eqb (Str.upper (EndpointConfig.method endpoint)) "GET"
        then req_verb req = GET /\ req_json req = None
        else req_verb req = POST /\ req_json req = EndpointConfig.payload endpoint).
Proof.
  intros Hmethod Hrun. rewrite check_endpoint_sync_eq in Hrun.
  assert (Hreq : exists req,
             request_of endpoint = Some req
             /\ req_url req = EndpointConfig.url endpoint
             /\ req_headers req = EndpointConfig.headers endpoint
             /\ req_timeout req = EndpointConfig.timeout endpoint
             /\ (if String.eqb (Str.upper (EndpointConfig.method endpoint)) "GET"
                 then req_verb req = GET /\ req_json req = None
                 else req_verb req = POST
                      /\ req_json req = EndpointConfig.payload endpoint)).
  { unfold request_of.
    destruct (String.eqb (Str.upper (EndpointConfig.method endpoint)) "GET") eqn:Hget.
    - eexists. split; [reflexivity|]. cbn. auto.
    - destruct Hmethod as [H | H]; [apply String.eqb_eq in H; congruence|].
      apply String.eqb_eq in H. rewrite H.
      eexists. split; [reflexivity|]. cbn. auto. }
  destruct Hreq as (req & Hreq & Hfields).
  destruct (Z.le_gt_cases (EndpointConfig.retry_count endpoint) 0) as [Hle | Hgt].
  - replace (Z.to_nat (EndpointConfig.retry_count endpoint)) with O in * by lia.
    cbn [attempts] in Hrun. rewrite after_loop_unbound in Hrun.
    injection Hrun as _ <-. exists O, req. cbn. rewrite !app_nil_r.
    split; [lia|]. auto.
  - apply (attempts_trace w endpoint _ req Hreq) in Hrun; [|lia|lia].
    destruct Hrun as (k & Hk & _ & Hrequests & Hsleeps).
    exists k, req. cbn in Hrequests, Hsleeps. auto.
Qed.

Lemma requests_and_sleeps_witness :
  (Str.upper (EndpointConfig.method health_api) = "GET"%string
   \/ Str.upper (EndpointConfig.method health_api) = "POST"%string)
  /\ retried_run = (fst retried_run, snd retried_run)
  /\ exists k req,
       requests (snd retried_run) = repeat req k
       /\ sleeps (snd retried_run) = repeat 1%float (k - 1)
       /\ req_verb req = GET /\ req_json req = None.
Proof.
  assert (H1 : Str.upper (EndpointConfig.method health_api) = "GET"%string
               \/ Str.upper (EndpointConfig.method health_api) = "POST"%string)
    by (left; reflexivity).
  assert (H2 : retried_run = (fst retried_run, snd retried_run))
    by (vm_compute; reflexivity).
  split; [exact H1 | split; [exact H2 |]].
  destruct (requests_and_sleeps fails_once health_api fresh_state _ _ H1 H2)
    as (k & req & _ & Hrequests & Hsleeps & _ & _ & _ & Hverb).
  exists k, req. split; [exact Hrequests|]. split; [exact Hsleeps | exact Hverb].
Defined.

(** X3.  A failure that does not last is retried away: if the first [k]
    requests of a check raise and the next one gets a response, with
    [k < retry_count] and the [k] calls of [time.sleep(retry_delay)] between
    them returning, the check returns the result of that response, having
    issued [k + 1] requests and slept [k] times. *)
Theorem retry_until_response (w : World) (endpoint : EndpointConfig.t) (st : State)
    (req : request) (k : nat) (status_code : Z) :
  request_of endpoint = Some req ->
  (Z.of_nat k < EndpointConfig.retry_count endpoint)%Z ->
  sleeps_accepted w st (EndpointConfig.retry_delay endpoint) k ->
  (forall j, (j < k)%nat ->
             exists x, transport w (List.length (requests st) + j) = Raises x) ->
  transport w (List.length (requests st) + k) = Response status_code ->
  exists st',
    check_endpoint_sync w endpoint st
    = (Ok (response_result endpoint status_code
             ((time_time w (S (clock_reads st)) - time_time w (clock_reads st))
              * 1000)%float
             (datetime_now w (now_reads st))), st')
    /\ requests st' = requests st ++ repeat req (S k)
    /\ sleeps st' = sleeps st ++ repeat (EndpointConfig.retry_delay endpoint) k.
Proof.
  intros Hreq Hk Hsleep Hfail Hresp. rewrite check_endpoint_sync_eq.
  destruct (Z.to_nat (EndpointConfig.retry_count endpoint)) as [|remaining] eqn:Hn;
    [lia|].
  apply (attempts_retry_response w endpoint _ req Hreq k remaining 0%Z None
           (tick_clock st) status_code); try assumption; lia.
Qed.

Lemma retry_until_response_witness :
  exists st',
    check_endpoint_sync fails_once health_api fresh_state
    = (Ok (response_result health_api 200 125%float 0%Z), st')
    /\ List.length (requests st') = 2%nat
    /\ sleeps st' = [1%float].
Proof.
  destruct (retry_until_response fails_once health_api fresh_state
              {| req_verb := GET;
                 req_url := "https://api.example.com/health";
                 req_headers := None;
                 req_json := None;
                 req_timeout := 10%float |} 1%nat 200%Z)
    as (st' & Hrun & Hrequests & Hsleeps).
  - reflexivity.
  - cbn. lia.
  - intros j _. vm_compute. reflexivity.
  - intros j Hj. exists requests_ConnectionError.
    assert (j = O) as -> by lia. reflexivity.
  - reflexivity.
  - exists st'. split; [|split].
    + rewrite Hrun. repeat f_equal; vm_compute; reflexivity.
    + rewrite Hrequests. reflexivity.
    + rewrite Hsleeps. reflexivity.
Defined.

(** X4.  Every result a check returns has the name and the address of its
    endpoint, and has a status code exactly when its status is not "error". *)
Theorem returned_result_of_endpoint (w : World) (endpoint : EndpointConfig.t)
    (st st' : State) (result : HealthCheckResult.t) :
  check_endpoint_sync w endpoint st = (Ok result, st') ->
  HealthCheckResult.endpoint_name result = EndpointConfig.name endpoint
  /\ HealthCheckResult.url result = EndpointConfig.url endpoint
  /\ (HealthCheckResult.status_code result = None
      <-> HealthCheckResult.status result = "error"%string).
Proof.
  intros Hrun. rewrite check_endpoint_sync_eq in Hrun.
  apply attempts_well_formed in Hrun. apply well_formed_spec in Hrun.
  destruct Hrun as (Hname & Hurl & _ & Hcode & _). auto.
Qed.

Lemma returned_result_of_endpoint_witness :
  retried_run = (Ok (response_result health_api 200 125%float 0%Z), snd retried_run)
  /\ HealthCheckResult.endpoint_name (response_result health_api 200 125%float 0%Z)
     = "Health Check"%string
  /\ HealthCheckResult.url (response_result health_api 200 125%float 0%Z)
     = "https://api.example.com/health"%string.
Proof.
  assert (H : retried_run
              = (Ok (response_result health_api 200 125%float 0%Z), snd retried_run))
    by (vm_compute; reflexivity).
  split; [exact H|].
  destruct (returned_result_of_endpoint fails_once health_api fresh_state _ _ H)
    as (Hname & Hurl & _).
  split; [exact Hname | exact Hurl].
Defined.

(** X5.  The response time of a result covers the whole check, retries and
    delays included: for a method that has a request, the clock is read once
    at the start and once at the end of the check, and the result has 1000
    times the difference; [datetime.now()] is read once, for the timestamp. *)
Theorem elapsed_spans_check (w : World) (endpoint : EndpointConfig.t)
    (st st' : State) (result : HealthCheckResult.t) :
  Str.upper (EndpointConfig.method endpoint) = "GET"%string
  \/ Str.upper (EndpointConfig.method endpoint) = "POST"%string ->
  check_endpoint_sync w endpoint st = (Ok result, st') ->
  HealthCheckResult.response_time result
  = ((time_time w (S (clock_reads st)) - time_time w (clock_reads st)) * 1000)%float
  /\ HealthCheckResult.timestamp result = datetime_now w (now_reads st)
  /\ clock_reads st' = S (S (clock_reads st))
  /\ now_reads st' = S (now_reads st).
Proof.
  intros Hmethod Hrun. rewrite check_endpoint_sync_eq in Hrun.
  destruct (request_of endpoint) as [req|] eqn:Hreq.
  - apply (attempts_clock w endpoint _ req Hreq) in Hrun. exact Hrun.
  - exfalso. unfold request_of in Hreq.
    destruct Hmethod as [H | H]; apply String.eqb_eq in H; rewrite H in Hreq.
    + discriminate.
    + destruct (String.eqb (Str.upper (EndpointConfig.method endpoint)) "GET");
        discriminate.
Qed.

Lemma elapsed_spans_check_witness :
  (Str.upper (EndpointConfig.method health_api) = "GET"%string
   \/ Str.upper (EndpointConfig.method health_api) = "POST"%string)
  /\ exists result,
       timeout_run = (Ok result, snd timeout_run)
       /\ HealthCheckResult.response_time result = 125%float
       /\ clock_reads (snd timeout_run) = 2%nat.
Proof.
  assert (H1 : Str.upper (EndpointConfig.method health_api) = "GET"%string
               \/ Str.upper (EndpointConfig.method health_api) = "POST"%string)
    by (left; reflexivity).
  split; [exact H1|].
  assert (H2 : timeout_run
               = (Ok (error_result health_api 125%float 0%Z (msg_timeout 10%float)),
                  snd timeout_run)) by (vm_compute; reflexivity).
  eexists. split; [exact H2|].
  destruct (elapsed_spans_check always_timeout health_api fresh_state _ _ H1 H2)
    as (Htime & _ & Hclock & _).
  split; [rewrite Htime; vm_compute; reflexivity | exact Hclock].
Defined.

(** ** [main.py]: [perform_health_check] *)

Lemma probe_spec (w : World) (ep : Main.endpoint_dict) (st : State) :
  exists result st',
    Main.probe w ep st = (Ok result, st')
    /\ Main.endpoint result = Main.ep_name ep
    /\ Main.tells (transport w (List.length (requests st))) result
    /\ requests st' = requests st ++ [Main.get_request ep]
    /\ sleeps st' = sleeps st
    /\ self st' = self st.
Proof.
  unfold Main.probe, try_except, bind, time_time_call, requests_get, requests_send.
  cbn.
  destruct (transport w (List.length (requests st))) as [status_code | x];
    cbn; eexists; eexists; (split; [reflexivity|]); cbn; auto 10.
Qed.

Lemma probe_each_spec (w : World) (eps : list Main.endpoint_dict) :
  forall (results : list Main.HealthCheck) (st : State),
    exists new st',
      Main.probe_each w eps results st = (Ok (results ++ new), st')
      /\ map Main.endpoint new = map Main.ep_name eps
      /\ (forall i r, nth_error new i = Some r ->
                      Main.tells (transport w (List.length (requests st) + i)) r)
      /\ requests st' = requests st ++ map Main.get_request eps
      /\ sleeps st' = sleeps st
      /\ self st' = self st.
Proof.
  induction eps as [|ep eps IH]; intros results st.
  - exists [], st. cbn. rewrite !app_nil_r. repeat split; auto.
    intros [|i] r; discriminate.
  - cbn [Main.probe_each]. unfold bind at 1.
    destruct (probe_spec w ep st)
      as (result & st1 & -> & Hname & Htells & Hrequests & Hsleeps & Hself).
    destruct (IH (results ++ [result]) st1)
      as (new & st' & -> & Hnames & Hall & Hrequests' & Hsleeps' & Hself').
    exists (result :: new), st'. rewrite <- app_assoc. cbn.
    split; [reflexivity|]. split; [congruence|]. split.
    + intros [|i] r Hi; cbn in Hi.
      * injection Hi as <-. rewrite Nat.add_0_r. exact Htells.
      * apply Hall in Hi. rewrite Hrequests, length_app in Hi. cbn in Hi.
        replace (List.length (requests st) + S i)%nat
          with (List.length (requests st) + 1 + i)%nat by lia.
        exact Hi.
    + rewrite Hrequests', Hrequests, <- app_assoc. cbn.
      repeat split; congruence.
Qed.

(** X6.  Whatever the network does, [perform_health_check] raises nothing
    and returns three results, for "Auth API", "Users API" and "Health
    Check" in this order.  It issues one GET for each, with a timeout of
    10 s and no retry, never sleeps, and leaves the history of the monitor
    alone. *)
Theorem perform_health_check_total (w : World) (st : State) :
  exists r1 r2 r3 st',
    Main.perform_health_check w st = (Ok [r1; r2; r3], st')
    /\ Main.endpoint r1 = "Auth API"%string
    /\ Main.endpoint r2 = "Users API"%string
    /\ Main.endpoint r3 = "Health Check"%string
    /\ requests st' = requests st ++ map Main.get_request Main.endpoints
    /\ sleeps st' = sleeps st
    /\ self st' = self st.
Proof.
  unfold Main.perform_health_check.
  destruct (probe_each_spec w Main.endpoints [] st)
    as (new & st' & Hrun & Hnames & _ & Hrest).
  destruct new as [|r1 [|r2 [|r3 [|r4 new]]]]; try discriminate.
  injection Hnames as H1 H2 H3.
  exists r1, r2, r3, st'. cbn in Hrun. auto 10.
Qed.

(** X7.  Each result of [perform_health_check] tells the outcome of the
    request of its endpoint, the i-th request of the call: "healthy" for a
    response of status 200, "unhealthy" for a response of any other status,
    however long it took, and "error" with a response time of 0 when the
    request raised. *)
Theorem perform_health_check_status (w : World) (st st' : State)
    (results : list Main.HealthCheck) (i : nat) (r : Main.HealthCheck) :
  Main.perform_health_check w st = (Ok results, st') ->
  nth_error results i = Some r ->
  match transport w (List.length (requests st) + i) with
  | Response status_code =>
      Main.status r = (if (status_code =? 200)%Z then "healthy" else "unhealthy")%string
  | Raises _ => Main.status r = "error"%string /\ Main.response_time r = 0%float
  end.
Proof.
  unfold Main.perform_health_check. intros Hrun Hi.
  destruct (probe_each_spec w Main.endpoints [] st)
    as (new & st1 & Hrun1 & _ & Hall & _).
  rewrite Hrun1 in Hrun. injection Hrun as <- <-.
  exact (Hall i r Hi).
Qed.

Lemma perform_health_check_status_witness :
  exists results st' r,
    Main.perform_health_check always_503 fresh_state = (Ok results, st')
    /\ nth_error results 1 = Some r
    /\ Main.status r = "unhealthy"%string.
Proof.
  destruct (probe_each_spec always_503 Main.endpoints [] fresh_state)
    as (new & st' & Hrun & Hnames & _).
  destruct new as [|r1 [|r2 new]]; try discriminate.
  exists (r1 :: r2 :: new), st', r2.
  split; [exact Hrun|]. split; [reflexivity|].
  exact (perform_health_check_status always_503 fresh_state st' _ 1 r2 Hrun eq_refl).
Defined.

(** ** [main.py]: [parse_test_results] and [get_test_results] *)

Lemma read_results_usable (fs : FileSystem) (results_file : string) :
  Api.read_results fs results_file = None <-> Api.usable (fs results_file) = false.
Proof.
  unfold Api.read_results, Api.usable.
  destruct (fs results_file) as [| errno | | data]; [tauto | tauto | tauto |].
  destruct data as [| b | n | f | s | items | entries]; cbn; try tauto.
  unfold dict_get.
  destruct (lookup "summary"%string entries) as [summary|]; cbn.
  - destruct summary as [| b | n | f | s | items | summary]; cbn; try tauto.
    split; discriminate.
  - split; discriminate.
Qed.

Lemma parse_test_results_has_keys (fs : FileSystem) (results_file : string) :
  map fst (Api.parse_test_results fs results_file)
  = ["total"; "passed"; "failed"; "skipped"; "duration"]%string.
Proof.
  unfold Api.parse_test_results, Api.read_results.
  destruct (fs results_file) as [| errno | | data]; try reflexivity.
  destruct data as [| b | n | f | s | items | entries]; try reflexivity.
  cbn. destruct (dict_get entries "summary"%string (JDict []));
    reflexivity.
Qed.

(** X8.  [parse_test_results] raises on no file: it returns a dict with the
    keys "total", "passed", "failed", "skipped" and "duration", in this
    order, whatever is at the path. *)
Theorem parse_test_results_keys (fs : FileSystem) (results_file : string) :
  map fst (Api.parse_test_results fs results_file)
  = ["total"; "passed"; "failed"; "skipped"; "duration"]%string.
Proof.
  apply parse_test_results_has_keys.
Qed.

(** X9.  A results file that is missing, unreadable, no JSON, JSON whose top
    level is no dict, or a dict whose "summary" is no dict gives zeros for
    all five entries: in the last case the duration of the report is lost
    with the summary. *)
Theorem parse_test_results_zeros (fs : FileSystem) (results_file : string) :
  Api.usable (fs results_file) = false ->
  Api.parse_test_results fs results_file = Api.zeros.
Proof.
  intros Hunusable. apply read_results_usable in Hunusable.
  unfold Api.parse_test_results. rewrite Hunusable. reflexivity.
Qed.

Lemma parse_test_results_zeros_witness :
  Api.usable (null_summary "reports/api_results.json"%string) = false
  /\ lookup "duration"%string (Api.parse_test_results null_summary "reports/api_results.json"%string)
     = Some (JInt 0).
Proof.
  assert (H : Api.usable (null_summary "reports/api_results.json"%string) = false)
    by reflexivity.
  split; [exact H|].
  rewrite (parse_test_results_zeros null_summary "reports/api_results.json"%string H).
  reflexivity.
Defined.

(** X10.  From a file of JSON that has a dict at its top level and a dict
    as its summary (or none), [parse_test_results] reads the four counts off
    the summary and the duration off the top level, each as it is in the
    file whatever its type, and 0 where the key is missing. *)
Theorem parse_test_results_reads (fs : FileSystem) (results_file key : string)
    (entries : dict) :
  fs results_file = Holds (JDict entries) ->
  Api.usable (fs results_file) = true ->
  In key ["total"; "passed"; "failed"; "skipped"]%string ->
  let summary := match lookup "summary"%string entries with
                 | Some (JDict summary) => summary
                 | _ => []
                 end in
  lookup key (Api.parse_test_results fs results_file)
  = Some (dict_get summary key (JInt 0))
  /\ lookup "duration"%string (Api.parse_test_results fs results_file)
     = Some (dict_get entries "duration"%string (JInt 0)).
Proof.
  intros Hfile Husable Hkey summary.
  assert (Hsummary : dict_get entries "summary"%string (JDict []) = JDict summary).
  { unfold dict_get, summary. rewrite Hfile in Husable. cbn in Husable.
    destruct (lookup "summary"%string entries) as [[| b | n | f | s | items | d]|];
      try discriminate; reflexivity. }
  unfold Api.parse_test_results, Api.read_results.
  rewrite Hfile. cbn. rewrite Hsummary. cbn. cbn in Hkey.
  destruct Hkey as [<- | [<- | [<- | [<- | []]]]]; cbn; auto.
Qed.

Lemma parse_test_results_reads_witness :
  Api.usable (api_report "reports/api_results.json"%string) = true
  /\ lookup "passed"%string (Api.parse_test_results api_report "reports/api_results.json"%string)
     = Some (JInt 2)
  /\ lookup "skipped"%string (Api.parse_test_results api_report "reports/api_results.json"%string)
     = Some (JInt 0)
  /\ lookup "duration"%string (Api.parse_test_results api_report "reports/api_results.json"%string)
     = Some (JFloat 12.5).
Proof.
  assert (H : Api.usable (api_report "reports/api_results.json"%string) = true)
    by reflexivity.
  split; [exact H|].
  destruct (parse_test_results_reads api_report "reports/api_results.json"%string "passed"%string
              _ eq_refl H) as [Hpassed Hduration]; [cbn; auto|].
  destruct (parse_test_results_reads api_report "reports/api_results.json"%string "skipped"%string
              _ eq_refl H) as [Hskipped _]; [cbn; auto|].
  split; [exact Hpassed|]. split; [exact Hskipped | exact Hduration].
Defined.


(** ** [utils/test_runner.py]: [run_custom_command], [run_newman_collection]
    and [stop_running_tests] *)

Lemma set_in_In (t : string) (s : list string) :
  Runner.set_in t s = true <-> In t s.
Proof.
  unfold Runner.set_in. rewrite existsb_exists. split.
  - intros (x & Hin & Heq). apply String.eqb_eq in Heq. subst. exact Hin.
  - intros Hin. exists t. split; [exact Hin | apply String.eqb_refl].
Qed.

Lemma set_discard_In (t t' : string) (s : list string) :
  In t' (Runner.set_discard t s) <-> In t' s /\ t' <> t.
Proof.
  unfold Runner.set_discard. rewrite filter_In, negb_true_iff, String.eqb_neq.
  reflexivity.
Qed.

Lemma set_add_In (t t' : string) (s : list string) :
  In t' (Runner.set_add t s) <-> t' = t \/ In t' s.
Proof.
  unfold Runner.set_add. destruct (Runner.set_in t s) eqn:Hin.
  - apply set_in_In in Hin. split; [auto|]. intros [-> | H]; assumption.
  - cbn. split; intros [H | H]; auto.
Qed.

Lemma run_custom_command_set (env : Runner.Env) (command : list string)
    (test_type t : string) (st : Runner.State) :
  In t (Runner.running_tests (snd (Runner.run_custom_command env command test_type st)))
  <-> In t (Runner.running_tests st).
Proof.
  unfold Runner.run_custom_command.
  destruct (Runner.set_in test_type (Runner.running_tests st)) eqn:Hin; cbn.
  - reflexivity.
  - rewrite set_discard_In, set_add_In. split.
    + intros [[Heq | H] Hne]; [contradiction | exact H].
    + intros H. split; [auto|]. intros ->.
      apply set_in_In in H. congruence.
Qed.

Lemma run_custom_command_status_of (env : Runner.Env) (command : list string)
    (test_type : string) (st : Runner.State) :
  let run := Runner.run_custom_command env command test_type st in
  exists status,
    lookup "status"%string (fst run) = Some (JStr status)
    /\ In status ["running"; "completed"; "timeout"; "error"]%string
    /\ (status = "running"%string
        <-> Runner.set_in test_type (Runner.running_tests st) = true)
    /\ (status = "completed"%string
        <-> Runner.set_in test_type (Runner.running_tests st) = false
            /\ exists p, Runner.subprocess_run env (List.length (Runner.commands st))
                         = Runner.Completed p)
    /\ Runner.commands (snd run)
       = if Runner.set_in test_type (Runner.running_tests st)
         then Runner.commands st
         else Runner.commands st ++ [command].
Proof.
  unfold Runner.run_custom_command.
  destruct (Runner.set_in test_type (Runner.running_tests st)) eqn:Hin; cbn.
  - exists "running"%string. repeat split; auto; try discriminate.
    intros [H _]. discriminate.
  - destruct (Runner.subprocess_run env (List.length (Runner.commands st)))
      as [p | | text] eqn:Hrun; cbn.
    + exists "completed"%string. repeat split; auto 6; try discriminate.
      exists p. reflexivity.
    + exists "timeout"%string. repeat split; auto 6; try discriminate.
      intros [_ [p Hp]]. discriminate.
    + exists "error"%string. repeat split; auto 6; try discriminate.
      intros [_ [p Hp]]. discriminate.
Qed.

Lemma stop_running_tests_in (test_type t : string) (st : Runner.State) :
  test_type <> ""%string ->
  In t (Runner.running_tests (Runner.stop_running_tests (Some test_type) st)) ->
  In t (Runner.running_tests st) /\ t <> test_type.
Proof.
  intros Hne. unfold Runner.stop_running_tests, Runner.truthy.
  apply String.eqb_neq in Hne. rewrite Hne. cbn. apply set_discard_In.
Qed.

(** X12.  [run_custom_command] leaves the set of running tests as it found
    it: the type it adds it discards in the [finally], whether the command
    ran, timed out or raised, and a call that is refused touches nothing. *)
Theorem run_custom_command_keeps_running_tests (env : Runner.Env)
    (command : list string) (test_type t : string) (st : Runner.State) :
  In t (Runner.running_tests (snd (Runner.run_custom_command env command test_type st)))
  <-> In t (Runner.running_tests st).
Proof.
  apply run_custom_command_set.
Qed.

(** X13.  [run_custom_command] always answers with a status, one of
    "running", "completed", "timeout" and "error".  It answers "running",
    and starts no process, exactly when the test type is in the set of
    running tests; otherwise it starts the command, once, and answers
    "completed" exactly when the process has run to its end, whatever its
    return code. *)
Theorem run_custom_command_status (env : Runner.Env) (command : list string)
    (test_type : string) (st : Runner.State) :
  let run := Runner.run_custom_command env command test_type st in
  exists status,
    lookup "status"%string (fst run) = Some (JStr status)
    /\ In status ["running"; "completed"; "timeout"; "error"]%string
    /\ (status = "running"%string
        <-> Runner.set_in test_type (Runner.running_tests st) = true)
    /\ (status = "completed"%string
        <-> Runner.set_in test_type (Runner.running_tests st) = false
            /\ exists p, Runner.subprocess_run env (List.length (Runner.commands st))
                         = Runner.Completed p)
    /\ Runner.commands (snd run)
       = if Runner.set_in test_type (Runner.running_tests st)
         then Runner.commands st
         else Runner.commands st ++ [command].
Proof.
  apply run_custom_command_status_of.
Qed.

(** X14.  [stop_running_tests] with a test type discards that type and no
    other; without one, or with the empty string, it empties the set. *)
Theorem stop_running_tests_spec (test_type : option string) (st : Runner.State)
    (t : string) :
  In t (Runner.running_tests (Runner.stop_running_tests test_type st))
  <-> In t (Runner.running_tests st)
      /\ exists t', test_type = Some t' /\ t' <> ""%string /\ t <> t'.
Proof.
  unfold Runner.stop_running_tests, Runner.truthy.
  destruct test_type as [t'|]; cbn.
  - destruct (String.eqb_spec t' "") as [-> | Hne]; cbn.
    + split; [contradiction|]. intros (_ & t'' & [= <-] & H & _). contradiction.
    + rewrite set_discard_In. split.
      * intros [Hin Hneq]. split; [exact Hin|]. exists t'. auto.
      * intros (Hin & t'' & [= <-] & _ & Hneq). auto.
  - split; [contradiction|]. intros (_ & t' & H & _). discriminate.
Qed.

(** X15.  Once [stop_running_tests] has been called for a test type, a
    [run_custom_command] of that type is not refused: it starts its
    command. *)
Theorem stopped_type_runs (env : Runner.Env) (command : list string)
    (test_type : string) (st : Runner.State) :
  test_type <> ""%string ->
  let st1 := Runner.stop_running_tests (Some test_type) st in
  let run := Runner.run_custom_command env command test_type st1 in
  lookup "status"%string (fst run) <> Some (JStr "running")
  /\ Runner.commands (snd run) = Runner.commands st ++ [command].
Proof.
  intros Hne st1 run.
  assert (Hout : Runner.set_in test_type (Runner.running_tests st1) = false).
  { destruct (Runner.set_in test_type (Runner.running_tests st1)) eqn:Hin;
      [|reflexivity].
    apply set_in_In in Hin. apply stop_running_tests_in in Hin; [|exact Hne].
    destruct Hin as [_ Hneq]. contradiction. }
  destruct (run_custom_command_status_of env command test_type st1)
    as (status & Hstatus & _ & Hrunning & _ & Hcommands).
  fold run in Hstatus, Hcommands. rewrite Hout in Hcommands.
  split.
  - rewrite Hstatus. intros [= ->].
    destruct Hrunning as [Hr _]. rewrite Hr in Hout by reflexivity. discriminate.
  - rewrite Hcommands. unfold st1, Runner.stop_running_tests, Runner.truthy.
    apply String.eqb_neq in Hne. rewrite Hne. reflexivity.
Qed.

Lemma stopped_type_runs_witness :
  "api"%string <> ""%string
  /\ lookup "status"%string
       (fst (Runner.run_custom_command failing_command ["false"]%string "api"
               (Runner.stop_running_tests (Some "api"%string) busy_runner)))
     = Some (JStr "completed")
  /\ Runner.commands
       (snd (Runner.run_custom_command failing_command ["false"]%string "api"
               (Runner.stop_running_tests (Some "api"%string) busy_runner)))
     = [["false"%string]].
Proof.
  assert (H : "api"%string <> ""%string) by discriminate.
  split; [exact H|]. split; [reflexivity|].
  exact (proj2 (stopped_type_runs failing_command ["false"%string] "api"
                  busy_runner H)).
Defined.

(** X16.  [run_newman_collection] starts a process only when the collection
    file exists and no "newman" run is under way, and then one process:
    [newman run] of the collection with the JSON reporter, followed by
    [--environment] and the environment exactly when one that is not empty
    was given.  It leaves the set of running tests as it found it, and it
    raises exactly when [Path.exists()] does, the [OSError] of that call. *)
Theorem run_newman_collection_spec (env : Runner.Env) (collection_path : string)
    (environment : option string) (st : Runner.State) :
  let run := Runner.run_newman_collection env collection_path environment st in
  (forall t, In t (Runner.running_tests (snd run)) <-> In t (Runner.running_tests st))
  /\ Runner.commands (snd run)
     = match path_exists (Runner.files env) collection_path with
       | inr true =>
           if Runner.set_in "newman" (Runner.running_tests st)
           then Runner.commands st
           else Runner.commands st
                ++ [["newman"; "run"; collection_path; "--reporters"; "json";
                     "--reporter-json-export"; "reports/newman_results.json"]%string
                    ++ match environment with
                       | Some e =>
                           if String.eqb e "" then [] else ["--environment"%string; e]
                       | None => []
                       end]
       | _ => Runner.commands st
       end
  /\ (forall errno,
        fst run = inl errno
        <-> path_exists (Runner.files env) collection_path = inl errno).
Proof.
  unfold Runner.run_newman_collection.
  destruct (path_exists (Runner.files env) collection_path) as [errno | [|]];
    cbn [fst snd].
  - split; [intros t; reflexivity|]. split; [reflexivity|].
    intros errno'. split; intros [= ->]; reflexivity.
  - split; [intros t; apply run_custom_command_set|]. split.
    + destruct (run_custom_command_status_of env
                  (Runner.newman_command collection_path environment) "newman" st)
        as (_ & _ & _ & _ & _ & Hcommands).
      cbn zeta in Hcommands. rewrite Hcommands.
      destruct (Runner.set_in "newman" (Runner.running_tests st)); [reflexivity|].
      unfold Runner.newman_command, Runner.truthy.
      destruct environment as [e|]; [|reflexivity].
      destruct (String.eqb e ""); reflexivity.
    + intros errno. split; discriminate.
  - split; [intros t; reflexivity|]. split; [reflexivity|].
    intros errno. split; discriminate.
Qed.

(** ** [utils/test_runner.py]: [_parse_test_results] and [get_test_status] *)

Lemma parse_results_cases (env : Runner.Env) (results_file test_type : string) :
  let results := Runner._parse_test_results env results_file test_type in
  lookup "test_type"%string results = Some (JStr test_type)
  /\ ((map fst results = completed_keys
       /\ lookup "status"%string results = Some (JStr "completed"))
      \/ (map fst results = failure_keys
          /\ lookup "status"%string results = Some (JStr "error"))).
Proof.
  unfold Runner._parse_test_results.
  destruct (path_exists (Runner.files env) results_file) as [errno | [|]];
    [cbn; auto | | cbn; auto].
  unfold Runner.read_results.
  destruct (Runner.files env results_file) as [| errno | | data];
    try (cbn; auto; fail).
  destruct data as [| b | n | f | s | items | data]; try (cbn; auto; fail).
  destruct (dict_get data "summary"%string (JDict []))
    as [| b | n | f | s | items | summary]; try (cbn; auto; fail).
  destruct (Py.truediv _ _) as [e | rate]; cbn; auto.
Qed.

(** X17.  [_parse_test_results] raises nothing.  Its dict always has the
    test type under "test_type" and a status, "completed" or "error", and
    always has the key "error": the count of errored tests in a parsed
    report, a message otherwise. *)
Theorem parse_results_shape (env : Runner.Env) (results_file test_type : string) :
  let results := Runner._parse_test_results env results_file test_type in
  lookup "test_type"%string results = Some (JStr test_type)
  /\ In "error"%string (map fst results)
  /\ ((map fst results = completed_keys
       /\ lookup "status"%string results = Some (JStr "completed"))
      \/ (map fst results = failure_keys
          /\ lookup "status"%string results = Some (JStr "error"))).
Proof.
  intros results.
  destruct (parse_results_cases env results_file test_type) as [Htype Hcases].
  fold results in Htype, Hcases.
  split; [exact Htype|]. split; [|exact Hcases].
  destruct Hcases as [[-> _] | [-> _]]; cbn; auto 10.
Qed.

(** X18.  The report of a run that collected no test (a summary whose
    "total" is 0) is answered as a failure to parse it: the success rate
    divides by the total, and the division raises. *)
Theorem zero_tests_is_error (env : Runner.Env) (results_file test_type : string)
    (data summary : dict) :
  Runner.files env results_file = Holds (JDict data) ->
  lookup "summary"%string data = Some (JDict summary) ->
  lookup "total"%string summary = Some (JInt 0) ->
  exists e,
    (e = Py.ZeroDivisionError \/ e = Py.TypeError)
    /\ Runner._parse_test_results env results_file test_type
       = [("error", JStr ("Failed to parse results: "
                          ++ Runner.str_of env (Runner.Python e)));
          ("status", JStr "error");
          ("test_type", JStr test_type)]%string.
Proof.
  intros Hfile Hsummary Htotal.
  unfold Runner._parse_test_results, path_exists, Runner.read_results.
  rewrite Hfile. unfold dict_get at 1. rewrite Hsummary.
  unfold dict_get at 2. rewrite Htotal.
  assert (Hdiv : forall a, exists e,
             (e = Py.ZeroDivisionError \/ e = Py.TypeError)
             /\ Py.truediv a (JInt 0) = inl e).
  { intros a. unfold Py.truediv.
    destruct (Py.number_of a) as [[x | xf]|] eqn:Ha; cbn.
    - exists Py.ZeroDivisionError. auto.
    - exists Py.ZeroDivisionError. auto.
    - exists Py.TypeError. auto. }
  destruct (Hdiv (dict_get summary "passed"%string (JInt 0))) as (e & He & ->).
  exists e. auto.
Qed.

Lemma zero_tests_is_error_witness :
  Runner.files no_tests "reports/api_results.json"%string
  = Holds (JDict [("summary", JDict [("total", JInt 0)]);
                  ("duration", JFloat 0.5)]%string)
  /\ lookup "status"%string
       (Runner._parse_test_results no_tests "reports/api_results.json" "api")
     = Some (JStr "error")
  /\ lookup "error"%string
       (Runner._parse_test_results no_tests "reports/api_results.json" "api")
     = Some (JStr "Failed to parse results: division by zero").
Proof.
  assert (H : Runner.files no_tests "reports/api_results.json"%string
              = Holds (JDict [("summary", JDict [("total", JInt 0)]);
                              ("duration", JFloat 0.5)]%string)) by reflexivity.
  split; [exact H|].
  destruct (zero_tests_is_error no_tests "reports/api_results.json" "api" _
              [("total", JInt 0)]%string H eq_refl eq_refl) as (e & _ & ->).
  split; reflexivity.
Defined.

(** X19.  A report without a summary is a completed run of no test, with a
    success rate of 0: without a "total" the rate divides by 1. *)
Theorem empty_report_completed (env : Runner.Env) (results_file test_type : string)
    (data : dict) :
  Runner.files env results_file = Holds (JDict data) ->
  lookup "summary"%string data = None ->
  let results := Runner._parse_test_results env results_file test_type in
  lookup "status"%string results = Some (JStr "completed")
  /\ lookup "total"%string results = Some (JInt 0)
  /\ lookup "passed"%string results = Some (JInt 0)
  /\ lookup "success_rate"%string results = Some (JFloat 0).
Proof.
  intros Hfile Hsummary results. subst results.
  assert (Hs : dict_get data "summary"%string (JDict []) = JDict [])
    by (unfold dict_get; rewrite Hsummary; reflexivity).
  assert (Hrate : Py.truediv (dict_get [] "passed"%string (JInt 0))
                             (dict_get [] "total"%string (JInt 1)) = inr 0%float)
    by (vm_compute; reflexivity).
  assert (Hzero : (0 * 100)%float = 0%float) by (vm_compute; reflexivity).
  unfold Runner._parse_test_results, path_exists, Runner.read_results.
  rewrite Hfile, Hs, Hrate, Hzero. cbn. auto.
Qed.

(** X20.  [get_test_status] answers "running" for a type in the set of
    running tests, whatever is on file and without a look at it.  For another
    type it looks at the results file, outside any [try]: it raises the
    [OSError] of [Path.exists()] when the file cannot be examined, answers
    "not_run" when there is no file, and otherwise what
    [_parse_test_results] makes of the file.  An answer has the test type. *)
Theorem get_test_status_cases (env : Runner.Env) (test_type : string)
    (st : Runner.State) :
  let results_file := ("reports/" ++ test_type ++ "_results.json")%string in
  let answer := Runner.get_test_status env test_type st in
  (forall errno,
      answer = inl errno
      <-> ~ In test_type (Runner.running_tests st)
          /\ Runner.files env results_file = Inaccessible errno)
  /\ forall results,
       answer = inr results ->
       lookup "test_type"%string results = Some (JStr test_type)
       /\ (lookup "status"%string results = Some (JStr "running")
           <-> In test_type (Runner.running_tests st))
       /\ (lookup "status"%string results = Some (JStr "not_run")
           <-> ~ In test_type (Runner.running_tests st)
               /\ Runner.files env results_file = Missing)
       /\ (~ In test_type (Runner.running_tests st) ->
           Runner.files env results_file <> Missing ->
           results = Runner._parse_test_results env results_file test_type).
Proof.
  intros results_file answer. unfold answer, Runner.get_test_status.
  fold results_file.
  destruct (Runner.set_in test_type (Runner.running_tests st)) eqn:Hin.
  - apply set_in_In in Hin. split.
    + intros errno. split; [discriminate | intros [Hout _]; contradiction].
    + intros results [= <-]. cbn. repeat split; auto; try discriminate.
      * intros [Hout _]. contradiction.
      * intros Hout. contradiction.
  - assert (Hout : ~ In test_type (Runner.running_tests st)).
    { intros H. apply set_in_In in H. congruence. }
    pose proof (parse_results_cases env results_file test_type) as Hparse.
    cbn zeta in Hparse. unfold path_exists.
    destruct (Runner.files env results_file) as [| errno | | data] eqn:Hfile.
    + split; [intros errno; split; [discriminate | intros [_ H]; discriminate]|].
      intros results [= <-]. cbn. repeat split; auto; try discriminate.
      * intros H. contradiction.
      * intros _ H. contradiction.
    + split.
      * intros errno'. split; [intros [= ->]; auto | intros [_ [= ->]]; reflexivity].
      * discriminate.
    + split; [intros errno; split; [discriminate | intros [_ H]; discriminate]|].
      intros results [= <-].
      destruct Hparse as [Htype [[_ Hstatus] | [_ Hstatus]]]; rewrite Hstatus;
        repeat split; auto; try discriminate;
        try (intros [_ H]; discriminate); intros H; contradiction.
    + split; [intros errno; split; [discriminate | intros [_ H]; discriminate]|].
      intros results [= <-].
      destruct Hparse as [Htype [[_ Hstatus] | [_ Hstatus]]]; rewrite Hstatus;
        repeat split; auto; try discriminate;
        try (intros [_ H]; discriminate); intros H; contradiction.
Qed.

(** ** [bot.py]: [APIMonitor.check_endpoints] *)

Section BotFacts.

Variable w : Bot.World.
Variable alert_channel : string.
Hypothesis Htame : tame w.

Lemma send_alert_tame (n u : string) (i : Bot.issue) (st : Bot.State) :
  Bot._send_alert w alert_channel n u i st
  = (inr tt,
     {| Bot.gets := Bot.gets st;
        Bot.clock_reads := Bot.clock_reads st;
        Bot.posts := Bot.posts st ++ [{| Bot.channel := alert_channel;
                                         Bot.alert_name := n;
                                         Bot.alert_url := u;
                                         Bot.alert_issue := i |}] |}).
Proof.
  destruct Htame as [Hpost _]. unfold Bot._send_alert.
  destruct (Bot.post w (List.length (Bot.posts st))) as [| | text] eqn:Hp;
    [reflexivity | reflexivity | exfalso; exact (Hpost _ _ Hp)].
Qed.

(** An iteration for an endpoint that has its keys: one GET, and a message
    for each issue. *)
Lemma check_endpoint_tame (ep : Bot.endpoint) (n u : string) (st : Bot.State) :
  Bot.name ep = Some n ->
  Bot.url ep = Some u ->
  let o := Bot.get w (List.length (Bot.gets st)) in
  let response_time :=
    ((Bot.time w (S (Bot.clock_reads st)) - Bot.time w (Bot.clock_reads st))
     * 1000)%float in
  exists reads,
    Bot.check_endpoint w alert_channel ep st
    = (inr tt,
       {| Bot.gets := Bot.gets st ++ [u];
          Bot.clock_reads := reads;
          Bot.posts :=
            Bot.posts st
            ++ map (fun i => {| Bot.channel := alert_channel;
                                Bot.alert_name := n;
                                Bot.alert_url := u;
                                Bot.alert_issue := i |})
                   (issues_of ep o response_time) |})
    /\ reads = match o with
               | Bot.Got _ => S (S (Bot.clock_reads st))
               | _ => S (Bot.clock_reads st)
               end.
Proof.
  intros Hname Hurl o response_time.
  unfold Bot.check_endpoint, Bot.try_body, Bot.bind, Bot.time_call, Bot.item,
    Bot.requests_get, Bot.alert_for, Bot.ret, Bot.raise.
  rewrite Hname, Hurl. cbn.
  fold o. destruct o as [status_code | text | text] eqn:Ho.
  - cbn. fold response_time. unfold issues_of, expected_of, threshold_of.
    destruct (negb (status_code =? _)%Z);
      destruct (_ <? response_time)%float;
      cbn; rewrite ?send_alert_tame; cbn; rewrite ?send_alert_tame; cbn;
      rewrite <- ?app_assoc, ?app_nil_r; eexists; split; reflexivity.
  - cbn. rewrite send_alert_tame. cbn. eexists; split; reflexivity.
  - exfalso. destruct Htame as [_ Hget]. exact (Hget _ _ Ho).
Qed.

Lemma check_endpoints_tame (endpoints : list Bot.endpoint) :
  forall st : Bot.State,
    Forall complete endpoints ->
    exists st',
      Bot.check_endpoints w alert_channel endpoints st = (inr tt, st')
      /\ (exists addresses,
            Forall2 (fun ep u => Bot.url ep = Some u) endpoints addresses
            /\ Bot.gets st' = Bot.gets st ++ addresses)
      /\ (List.length (Bot.posts st')
          <= List.length (Bot.posts st) + 2 * List.length endpoints)%nat.
Proof.
  induction endpoints as [|ep endpoints IH]; intros st Hall.
  - exists st. cbn. split; [reflexivity|]. split; [|lia].
    exists []. rewrite app_nil_r. auto.
  - inversion Hall as [|? ? (n & u & Hname & Hurl) Hrest]; subst.
    cbn [Bot.check_endpoints]. unfold Bot.bind at 1.
    destruct (check_endpoint_tame ep n u st Hname Hurl) as (reads & -> & _).
    match goal with
    | |- context [Bot.check_endpoints w alert_channel endpoints ?s] =>
        destruct (IH s Hrest) as (st' & -> & (addresses & Hurls & Hgets) & Hposts)
    end.
    exists st'. split; [reflexivity|]. cbn in Hgets, Hposts. split.
    + exists (u :: addresses). split; [constructor; assumption|].
      rewrite Hgets, <- app_assoc. reflexivity.
    + rewrite length_app, length_map in Hposts.
      assert (Hissues : forall o rt, (List.length (issues_of ep o rt) <= 2)%nat).
      { intros o rt. unfold issues_of. destruct o as [c | t | t]; cbn; try lia.
        destruct (negb _); destruct (_ <? rt)%float; cbn; lia. }
      match type of Hposts with
      | context [issues_of ep ?o ?rt] => pose proof (Hissues o rt)
      end.
      cbn [List.length]. lia.
Qed.

End BotFacts.

(** X21.  When every endpoint dict has its "name" and its "url", Slack
    raises nothing but [SlackApiError] and [requests.get] nothing but a
    [RequestException], [check_endpoints] raises nothing: it requests every
    endpoint once, in the order of the list, and sends two messages at most
    for each. *)
Theorem check_endpoints_returns (w : Bot.World) (alert_channel : string)
    (endpoints : list Bot.endpoint) (st : Bot.State) :
  tame w ->
  Forall complete endpoints ->
  exists st' addresses,
    Bot.check_endpoints w alert_channel endpoints st = (inr tt, st')
    /\ Bot.gets st' = Bot.gets st ++ addresses
    /\ map Bot.url endpoints = map Some addresses
    /\ (List.length (Bot.posts st')
        <= List.length (Bot.posts st) + 2 * List.length endpoints)%nat.
Proof.
  intros Htame Hall.
  destruct (check_endpoints_tame w alert_channel Htame endpoints st Hall)
    as (st' & Hrun & (addresses & Hurls & Hgets) & Hposts).
  exists st', addresses. repeat split; try assumption.
  clear - Hurls. induction Hurls as [|ep u eps us Hu _ IH]; cbn; congruence.
Qed.

Lemma check_endpoints_returns_witness :
  tame down_and_slow
  /\ Forall complete api_endpoints
  /\ exists st',
       Bot.check_endpoints down_and_slow "#qa-alerts" api_endpoints bot_start
       = (inr tt, st')
       /\ Bot.gets st' = ["https://api.example.com/auth";
                          "https://api.example.com/users";
                          "https://api.example.com/health"]%string
       /\ (List.length (Bot.posts st') <= 6)%nat.
Proof.
  assert (H1 : tame down_and_slow) by (split; intros k text; discriminate).
  assert (H2 : Forall complete api_endpoints)
    by (repeat constructor; eexists; eexists; split; reflexivity).
  split; [exact H1 | split; [exact H2 |]].
  destruct (check_endpoints_returns down_and_slow "#qa-alerts" api_endpoints
              bot_start H1 H2) as (st' & addresses & Hrun & Hgets & Hurls & Hposts).
  exists st'. split; [exact Hrun|]. split; [|exact Hposts].
  rewrite Hgets. cbn in Hurls |- *.
  destruct addresses as [|a1 [|a2 [|a3 [|a4 rest]]]]; try discriminate.
  injection Hurls as <- <- <-. reflexivity.
Defined.

(** X22.  No message is sent when every endpoint answers with the status
    expected of it (200 unless the dict says otherwise) in a time that does
    not exceed its threshold (5000 ms unless the dict says otherwise). *)
Theorem healthy_endpoints_no_alert (w : Bot.World) (alert_channel : string)
    (endpoints : list Bot.endpoint) :
  forall st : Bot.State,
    Forall (fun ep => Bot.url ep <> None) endpoints ->
    (forall i ep,
        nth_error endpoints i = Some ep ->
        Bot.get w (List.length (Bot.gets st) + i) = Bot.Got (expected_of ep)
        /\ (threshold_of ep
            <? (Bot.time w (Bot.clock_reads st + 2 * i + 1)
                - Bot.time w (Bot.clock_reads st + 2 * i)) * 1000)%float = false) ->
    exists st',
      Bot.check_endpoints w alert_channel endpoints st = (inr tt, st')
      /\ Bot.posts st' = Bot.posts st
      /\ List.length (Bot.gets st')
         = (List.length (Bot.gets st) + List.length endpoints)%nat.
Proof.
  induction endpoints as [|ep endpoints IH]; intros st Hurls Hall.
  - exists st. cbn. auto.
  - inversion Hurls as [|? ? Hurl Hrest]; subst.
    destruct (Bot.url ep) as [u|] eqn:Hu; [|contradiction].
    destruct (Hall O ep eq_refl) as [Hget Hfast].
    rewrite Nat.add_0_r in Hget. cbn in Hfast.
    rewrite !Nat.add_0_r in Hfast. rewrite Nat.add_1_r in Hfast.
    cbn [Bot.check_endpoints]. unfold Bot.bind at 1.
    assert (Hone : Bot.check_endpoint w alert_channel ep st
                   = (inr tt,
                      {| Bot.gets := Bot.gets st ++ [u];
                         Bot.clock_reads := S (S (Bot.clock_reads st));
                         Bot.posts := Bot.posts st |})).
    { unfold Bot.check_endpoint, Bot.try_body, Bot.bind, Bot.time_call, Bot.item,
        Bot.requests_get, Bot.ret.
      rewrite Hu. cbn. rewrite Hget. cbn.
      fold (expected_of ep). fold (threshold_of ep).
      rewrite Z.eqb_refl, Hfast. reflexivity. }
    rewrite Hone.
    destruct (IH {| Bot.gets := Bot.gets st ++ [u];
                    Bot.clock_reads := S (S (Bot.clock_reads st));
                    Bot.posts := Bot.posts st |} Hrest)
      as (st' & Hrun & Hposts & Hgets).
    + intros i ep' Hi.
      destruct (Hall (S i) ep' Hi) as [Hget' Hfast'].
      cbn [Bot.gets Bot.clock_reads]. rewrite length_app. cbn [List.length].
      replace (List.length (Bot.gets st) + 1 + i)%nat
        with (List.length (Bot.gets st) + S i)%nat by lia.
      replace (S (S (Bot.clock_reads st)) + 2 * i + 1)%nat
        with (Bot.clock_reads st + 2 * S i + 1)%nat by lia.
      replace (S (S (Bot.clock_reads st)) + 2 * i)%nat
        with (Bot.clock_reads st + 2 * S i)%nat by lia.
      split; assumption.
    + exists st'. split; [exact Hrun|]. split; [exact Hposts|].
      rewrite Hgets. cbn. rewrite length_app. cbn. lia.
Qed.

(** X23.  The two tests of a response are independent: an endpoint that
    answers with another status than expected, and too slowly, gets two
    messages, the one of the status first. *)
Theorem wrong_status_and_slow (w : Bot.World) (alert_channel : string)
    (ep : Bot.endpoint) (n u : string) (status_code : Z) (st : Bot.State) :
  tame w ->
  Bot.name ep = Some n ->
  Bot.url ep = Some u ->
  Bot.get w (List.length (Bot.gets st)) = Bot.Got status_code ->
  status_code <> expected_of ep ->
  let response_time :=
    ((Bot.time w (S (Bot.clock_reads st)) - Bot.time w (Bot.clock_reads st))
     * 1000)%float in
  (threshold_of ep <? response_time)%float = true ->
  exists st',
    Bot.check_endpoints w alert_channel [ep] st = (inr tt, st')
    /\ Bot.posts st'
       = Bot.posts st
         ++ [{| Bot.channel := alert_channel;
                Bot.alert_name := n;
                Bot.alert_url := u;
                Bot.alert_issue := Bot.StatusIssue status_code |};
             {| Bot.channel := alert_channel;
                Bot.alert_name := n;
                Bot.alert_url := u;
                Bot.alert_issue := Bot.SlowIssue response_time |}].
Proof.
  intros Htame Hname Hurl Hget Hstatus response_time Hslow.
  cbn [Bot.check_endpoints]. unfold Bot.bind at 1.
  destruct (check_endpoint_tame w alert_channel Htame ep n u st Hname Hurl)
    as (reads & -> & _).
  eexists. split; [reflexivity|]. cbn.
  rewrite Hget. unfold issues_of. fold response_time.
  apply Z.eqb_neq in Hstatus. rewrite Hstatus, Hslow. reflexivity.
Qed.

Lemma wrong_status_and_slow_witness :
  exists st',
    Bot.check_endpoints down_and_slow "#qa-alerts"
      [{| Bot.name := Some "Auth API"%string;
          Bot.url := Some "https://api.example.com/auth"%string;
          Bot.expected_status := Some 200%Z;
          Bot.max_response_time := None |}] bot_start = (inr tt, st')
    /\ map Bot.alert_issue (Bot.posts st')
       = [Bot.StatusIssue 503; Bot.SlowIssue 6000%float].
Proof.
  destruct (wrong_status_and_slow down_and_slow "#qa-alerts"
              {| Bot.name := Some "Auth API"%string;
                 Bot.url := Some "https://api.example.com/auth"%string;
                 Bot.expected_status := Some 200%Z;
                 Bot.max_response_time := None |}
              "Auth API" "https://api.example.com/auth" 503 bot_start)
    as (st' & Hrun & Hposts).
  - split; intros k text; discriminate.
  - reflexivity.
  - reflexivity.
  - reflexivity.
  - cbn. lia.
  - vm_compute. reflexivity.
  - exists st'. split; [exact Hrun|]. rewrite Hposts.
    vm_compute. reflexivity.
Defined.

(** X24.  An endpoint dict without "url" ends the whole call: [KeyError] is
    no [RequestException], so it leaves [check_endpoints] before any request
    for that endpoint, and the endpoints after it are not checked. *)
Theorem missing_url_stops (w : Bot.World) (alert_channel : string)
    (ep : Bot.endpoint) (endpoints : list Bot.endpoint) (st : Bot.State) :
  Bot.url ep = None ->
  exists st',
    Bot.check_endpoints w alert_channel (ep :: endpoints) st
    = (inl (Bot.KeyError "url"), st')
    /\ Bot.gets st' = Bot.gets st
    /\ Bot.posts st' = Bot.posts st.
Proof.
  intros Hurl. cbn [Bot.check_endpoints].
  unfold Bot.bind at 1, Bot.check_endpoint, Bot.try_body, Bot.bind, Bot.time_call,
    Bot.item, Bot.raise.
  rewrite Hurl. cbn. eexists. split; [reflexivity|]. cbn. auto.
Qed.

Lemma missing_url_stops_witness :
  exists st',
    Bot.check_endpoints down_and_slow "#qa-alerts"
      ({| Bot.name := Some "Auth API"%string;
          Bot.url := None;
          Bot.expected_status := None;
          Bot.max_response_time := None |} :: api_endpoints) bot_start
    = (inl (Bot.KeyError "url"), st')
    /\ Bot.gets st' = [].
Proof.
  destruct (missing_url_stops down_and_slow "#qa-alerts"
              {| Bot.name := Some "Auth API"%string;
                 Bot.url := None;
                 Bot.expected_status := None;
                 Bot.max_response_time := None |} api_endpoints bot_start eq_refl)
    as (st' & Hrun & Hgets & _).
  exists st'. split; [exact Hrun | exact Hgets].
Defined.

(** X25.  A missing "name" is noticed when there is something to report:
    for an endpoint dict without "name" whose request raises a
    [RequestException], the handler raises [KeyError] in its turn, which
    leaves [check_endpoints] after the request, with no message sent and
    the endpoints after it not checked. *)
Theorem missing_name_on_alert (w : Bot.World) (alert_channel : string)
    (ep : Bot.endpoint) (endpoints : list Bot.endpoint) (u text : string)
    (st : Bot.State) :
  Bot.name ep = None ->
  Bot.url ep = Some u ->
  Bot.get w (List.length (Bot.gets st)) = Bot.GetRaises text ->
  exists st',
    Bot.check_endpoints w alert_channel (ep :: endpoints) st
    = (inl (Bot.KeyError "name"), st')
    /\ Bot.gets st' = Bot.gets st ++ [u]
    /\ Bot.posts st' = Bot.posts st.
Proof.
  intros Hname Hurl Hget. cbn [Bot.check_endpoints].
  unfold Bot.bind at 1, Bot.check_endpoint, Bot.try_body, Bot.bind, Bot.time_call,
    Bot.item, Bot.requests_get, Bot.alert_for, Bot.bind, Bot.item, Bot.raise, Bot.ret.
  rewrite Hurl. cbn. rewrite Hget. cbn. rewrite Hname. cbn.
  eexists. split; [reflexivity|]. cbn. auto.
Qed.

Lemma healthy_endpoints_no_alert_witness :
  Forall (fun ep => Bot.url ep <> None) api_endpoints
  /\ exists st',
       Bot.check_endpoints all_well "#qa-alerts" api_endpoints bot_start = (inr tt, st')
       /\ Bot.posts st' = []
       /\ List.length (Bot.gets st') = 3%nat.
Proof.
  assert (H1 : Forall (fun ep => Bot.url ep <> None) api_endpoints)
    by (repeat constructor; discriminate).
  split; [exact H1|].
  apply (healthy_endpoints_no_alert all_well "#qa-alerts" api_endpoints bot_start H1).
  intros [|[|[|i]]] ep Hi; cbn in Hi;
    try (destruct i; discriminate);
    injection Hi as <-; split; vm_compute; reflexivity.
Defined.

Lemma missing_name_on_alert_witness :
  exists st',
    Bot.check_endpoints unreachable "#qa-alerts"
      ({| Bot.name := None;
          Bot.url := Some "https://api.example.com/auth"%string;
          Bot.expected_status := None;
          Bot.max_response_time := None |} :: api_endpoints) bot_start
    = (inl (Bot.KeyError "name"), st')
    /\ Bot.gets st' = ["https://api.example.com/auth"%string]
    /\ Bot.posts st' = [].
Proof.
  exact (missing_name_on_alert unreachable "#qa-alerts"
           {| Bot.name := None;
              Bot.url := Some "https://api.example.com/auth"%string;
              Bot.expected_status := None;
              Bot.max_response_time := None |} api_endpoints
           "https://api.example.com/auth" "Connection refused" bot_start
           eq_refl eq_refl eq_refl).
Defined.

Section Delivering.

Variable w : Bot.World.
Variable alert_channel : string.

Lemma send_alert_delivering (n u : string) (i : Bot.issue) (st : Bot.State) :
  Bot._send_alert (Bot.delivering w) alert_channel n u i st
  = Bot._send_alert w alert_channel n u i st.
Proof.
  unfold Bot._send_alert. cbn.
  destruct (Bot.post w (List.length (Bot.posts st))); reflexivity.
Qed.

Lemma alert_for_delivering (ep : Bot.endpoint) (i : Bot.issue) (st : Bot.State) :
  Bot.alert_for (Bot.delivering w) alert_channel ep i st
  = Bot.alert_for w alert_channel ep i st.
Proof.
  unfold Bot.alert_for, Bot.bind, Bot.item.
  destruct (Bot.name ep); [|reflexivity].
  destruct (Bot.url ep); [|reflexivity].
  cbn. apply send_alert_delivering.
Qed.

Lemma try_body_delivering (ep : Bot.endpoint) (st : Bot.State) :
  Bot.try_body (Bot.delivering w) alert_channel ep st
  = Bot.try_body w alert_channel ep st.
Proof.
  unfold Bot.try_body, Bot.bind, Bot.time_call, Bot.item, Bot.requests_get.
  cbn. destruct (Bot.url ep) as [u|]; [|reflexivity]. cbn.
  destruct (Bot.get w (List.length (Bot.gets st))) as [c | t | t]; try reflexivity.
  cbn.
  destruct (negb _).
  - rewrite alert_for_delivering.
    destruct (Bot.alert_for w alert_channel ep (Bot.StatusIssue c) _)
      as [[e | []] st1]; [reflexivity|].
    destruct (_ <? _)%float; [apply alert_for_delivering | reflexivity].
  - cbn. destruct (_ <? _)%float; [apply alert_for_delivering | reflexivity].
Qed.

Lemma check_endpoint_delivering (ep : Bot.endpoint) (st : Bot.State) :
  Bot.check_endpoint (Bot.delivering w) alert_channel ep st
  = Bot.check_endpoint w alert_channel ep st.
Proof.
  unfold Bot.check_endpoint. rewrite try_body_delivering.
  destruct (Bot.try_body w alert_channel ep st) as [[[t | k | t] | []] st1];
    try reflexivity.
  apply alert_for_delivering.
Qed.

Lemma check_endpoints_delivering (endpoints : list Bot.endpoint) :
  forall st : Bot.State,
    Bot.check_endpoints (Bot.delivering w) alert_channel endpoints st
    = Bot.check_endpoints w alert_channel endpoints st.
Proof.
  induction endpoints as [|ep endpoints IH]; intros st.
  - reflexivity.
  - cbn [Bot.check_endpoints]. unfold Bot.bind.
    rewrite check_endpoint_delivering.
    destruct (Bot.check_endpoint w alert_channel ep st) as [[e | []] st1];
      [reflexivity | apply IH].
Qed.

End Delivering.

(** X26.  An alert that Slack refuses is lost without a trace: whether
    [chat_postMessage] raises [SlackApiError] or delivers the message,
    [check_endpoints] ends the same way, after the same requests and the
    same calls of Slack. *)
Theorem slack_refusal_is_silent (w : Bot.World) (alert_channel : string)
    (endpoints : list Bot.endpoint) (st : Bot.State) :
  Bot.check_endpoints w alert_channel endpoints st
  = Bot.check_endpoints (Bot.delivering w) alert_channel endpoints st.
Proof.
  symmetry. apply check_endpoints_delivering.
Qed.

Lemma empty_report_completed_witness :
  Runner.files bare_report "reports/api_results.json"%string
  = Holds (JDict [("duration", JFloat 0.5)]%string)
  /\ lookup "status"%string
       (Runner._parse_test_results bare_report "reports/api_results.json" "api")
     = Some (JStr "completed")
  /\ lookup "success_rate"%string
       (Runner._parse_test_results bare_report "reports/api_results.json" "api")
     = Some (JFloat 0).
Proof.
  assert (H : Runner.files bare_report "reports/api_results.json"%string
              = Holds (JDict [("duration", JFloat 0.5)]%string)) by reflexivity.
  split; [exact H|].
  destruct (empty_report_completed bare_report "reports/api_results.json" "api" _
              H eq_refl) as (Hstatus & _ & _ & Hrate).
  split; [exact Hstatus | exact Hrate].
Defined.

(** ** [utils/test_runner.py]: [run_pytest_tests] *)

Lemma run_pytest_tests_cases (env : Runner.Env) (test_path test_type : string)
    (markers : option (list string)) (parallel : bool) (st : Runner.State) :
  let run := Runner.run_pytest_tests env test_path test_type markers parallel st in
  let results_file := ("reports/" ++ test_type ++ "_results.json")%string in
  (Runner.set_in test_type (Runner.running_tests st) = true
   /\ run = (Runner.already_running test_type, st))
  \/ (Runner.set_in test_type (Runner.running_tests st) = false
      /\ Runner.running_tests (snd run)
         = Runner.set_discard test_type
             (Runner.set_add test_type (Runner.running_tests st))
      /\ ((exists text,
              Runner.pytest_command env test_path test_type markers parallel = inl text
              /\ fst run = [("error", JStr text); ("status", JStr "error")]%string
              /\ Runner.commands (snd run) = Runner.commands st)
          \/ (exists cmd,
                 Runner.pytest_command env test_path test_type markers parallel = inr cmd
                 /\ match Runner.subprocess_run env (List.length (Runner.commands st)) with
                    | Runner.Completed _ =>
                        fst run = Runner._parse_test_results env results_file test_type
                        /\ Runner.commands (snd run)
                           = Runner.commands st
                             ++ [cmd;
                                 Runner.allure_command
                                   ("reports/allure-results-" ++ test_type)
                                   ("reports/allure-report-" ++ test_type)]
                    | Runner.TimeoutExpired =>
                        fst run = [("error", JStr "Test execution timed out");
                                   ("status", JStr "timeout")]%string
                        /\ Runner.commands (snd run) = Runner.commands st ++ [cmd]
                    | Runner.Fails text =>
                        fst run = [("error", JStr text); ("status", JStr "error")]%string
                        /\ Runner.commands (snd run) = Runner.commands st ++ [cmd]
                    end))).
Proof.
  unfold Runner.run_pytest_tests.
  destruct (Runner.set_in test_type (Runner.running_tests st)); [left; auto|].
  right. split; [reflexivity|].
  destruct (Runner.pytest_command env test_path test_type markers parallel)
    as [text | cmd].
  - split; [reflexivity|]. left. exists text. auto.
  - destruct (Runner.subprocess_run env (List.length (Runner.commands st)))
      as [p | | text] eqn:Hrun.
    + split; [reflexivity|]. right. exists cmd. auto.
    + split; [reflexivity|]. right. exists cmd. auto.
    + split; [reflexivity|]. right. exists cmd. auto.
Qed.

(** X27.  [run_pytest_tests] leaves the set of running tests as it found
    it, however the run ends: refused, failed before pytest started, timed
    out, failed or completed. *)
Theorem run_pytest_tests_keeps_running_tests (env : Runner.Env)
    (test_path test_type : string) (markers : option (list string)) (parallel : bool)
    (st : Runner.State) (t : string) :
  In t (Runner.running_tests
          (snd (Runner.run_pytest_tests env test_path test_type markers parallel st)))
  <-> In t (Runner.running_tests st).
Proof.
  destruct (run_pytest_tests_cases env test_path test_type markers parallel st)
    as [[_ ->] | (Hout & -> & _)]; [reflexivity|].
  rewrite set_discard_In, set_add_In. split.
  - intros [[Heq | H] Hne]; [contradiction | exact H].
  - intros H. split; [auto|]. intros ->.
    apply set_in_In in H. congruence.
Qed.


(** X29.  The command of pytest is its seven fixed arguments, then [-m]
    and the marker for each marker in their order, then, for a parallel
    run, [-n] and a number of workers that is never more than 4. *)
Theorem pytest_command_shape (env : Runner.Env) (test_path test_type : string)
    (markers : option (list string)) (parallel : bool) (cmd : list string) :
  Runner.pytest_command env test_path test_type markers parallel = inr cmd ->
  exists workers,
    cmd = ["pytest"; test_path; "--alluredir=reports/allure-results-" ++ test_type;
           "--json-report";
           "--json-report-file=reports/" ++ test_type ++ "_results.json";
           "-v"; "--tb=short"]%string
          ++ flat_map (fun marker => ["-m"%string; marker])
                      match markers with
                      | Some ms => ms
                      | None => []
                      end
          ++ workers
    /\ (if parallel
        then exists n, (n <= 4)%nat /\ workers = ["-n"%string; Runner.str_nat n]
        else workers = []).
Proof.
  unfold Runner.pytest_command.
  destruct (Runner.mkdir env _); [discriminate|].
  destruct (Runner.mkdir env _); [discriminate|].
  assert (Hmarkers : match markers with
                     | Some ms => flat_map (fun marker => ["-m"%string; marker]) ms
                     | None => []
                     end
                     = flat_map (fun marker => ["-m"%string; marker])
                                match markers with
                                | Some ms => ms
                                | None => []
                                end) by (destruct markers; reflexivity).
  rewrite Hmarkers.
  destruct parallel.
  - destruct (Runner.cpu_count env) as [text | n]; [discriminate|].
    destruct (Runner.cwd env); [discriminate|].
    intros [= <-]. exists ["-n"%string; Runner.str_nat (Nat.min n 4)].
    split.
    + reflexivity.
    + exists (Nat.min n 4). split; [lia | reflexivity].
  - destruct (Runner.cwd env); [discriminate|].
    intros [= <-]. exists []. rewrite app_nil_r. split; reflexivity.
Qed.

Lemma pytest_command_shape_witness :
  Runner.pytest_command failing_command "tests/" "smoke" (Some ["smoke"%string]) true
  = inr ["pytest"; "tests/"; "--alluredir=reports/allure-results-smoke";
         "--json-report"; "--json-report-file=reports/smoke_results.json";
         "-v"; "--tb=short"; "-m"; "smoke"; "-n"; "4"]%string
  /\ exists workers,
       [ "pytest"; "tests/"; "--alluredir=reports/allure-results-smoke";
         "--json-report"; "--json-report-file=reports/smoke_results.json";
         "-v"; "--tb=short"; "-m"; "smoke"; "-n"; "4"]%string
       = ["pytest"; "tests/"; "--alluredir=reports/allure-results-smoke";
          "--json-report"; "--json-report-file=reports/smoke_results.json";
          "-v"; "--tb=short"; "-m"; "smoke"]%string ++ workers
       /\ exists n, (n <= 4)%nat /\ workers = ["-n"%string; Runner.str_nat n].
Proof.
  assert (H : Runner.pytest_command failing_command "tests/" "smoke"
                (Some ["smoke"%string]) true
              = inr ["pytest"; "tests/"; "--alluredir=reports/allure-results-smoke";
                     "--json-report"; "--json-report-file=reports/smoke_results.json";
                     "-v"; "--tb=short"; "-m"; "smoke"; "-n"; "4"]%string)
    by (vm_compute; reflexivity).
  split; [exact H|].
  destruct (pytest_command_shape failing_command "tests/" "smoke"
              (Some ["smoke"%string]) true _ H) as (workers & Hcmd & Hworkers).
  exists workers. split; [exact Hcmd | exact Hworkers].
Defined.
